(** * ohmyrzd: seat-availability monitoring for railway subscriptions

  A shallow embedding of the subscription store ([database.py]), the
  availability adapter ([rzd_parser.py]), the monitoring scheduler
  ([monitoring.py]) and the conversation with the user ([main.py]),
  followed by the properties established about them.

  Conventions of the embedding.
  - Python [int] is [Z]; [str] is [string] (the UTF-8 bytes of the text);
    [Optional[T]] is [option T]; a [dict] is an association list in
    insertion order.
  - Timestamps ([CURRENT_TIMESTAMP]) are seconds on an integer clock that
    the caller supplies.
  - A coroutine that can raise returns a [res]; the exceptions of the
    model are the instances of Python's [Exception].
  - [_check_all_subscriptions] runs the tasks of a cycle one after the
    other, in the order of their creation; [check_all_interleaved] runs
    them interleaved at their [await]s, in any order a schedule gives.
    The event loop is free to pick any of these orders.
  - Every SQL statement is taken to execute without an engine error (no
    I/O failure, no exhausted rowid space).
  - The tables keep the values as they are passed. SQLite does so for
    the integers of 64 bits ([sqlite_integer]) and, in the [DATE] column
    of [subscriptions], for the texts that do not read as a number, such
    as the dates in the format [%Y-%m-%d] ([iso_date]); where a property
    needs one of the two, it is among its hypotheses. *)

From Stdlib Require Import ZArith List String Ascii Bool Lia.
From Stdlib Require Import DecimalString Permutation.
From Stdlib Require DecimalZ DecimalPos.
Import ListNotations.
Local Open Scope Z_scope.

(* ================================================================== *)
(** * Python values *)
(* ================================================================== *)

Module Py.

(** Exceptions, by the classes the handlers of the program tell apart. *)
Inductive exn : Type :=
| Exception (msg : string)
| ValueError (msg : string)
| TelegramError (msg : string).

(** [str(e)] *)
Definition exn_str (e : exn) : string :=
  match e with
  | Exception m | ValueError m | TelegramError m => m
  end.

Inductive res (A : Type) : Type :=
| Ok (a : A)
| Raise (e : exn).
Arguments Ok {A} a.
Arguments Raise {A} e.

(** The values stored in the dictionaries of the program. *)
Inductive value : Type :=
| VNone
| VBool (b : bool)
| VStr (s : string).

(** Truth value of an object in a condition. *)
Definition truthy (v : value) : bool :=
  match v with
  | VNone => false
  | VBool b => b
  | VStr s => negb (String.eqb s EmptyString)
  end.

(** Dictionaries keep their keys in insertion order. *)
Definition dict : Type := list (string * value).

(** [d.get(k)] *)
Fixpoint dict_get {V : Type} (k : string) (d : list (string * V)) : option V :=
  match d with
  | [] => None
  | (k', v) :: rest => if String.eqb k k' then Some v else dict_get k rest
  end.

(** [d.get(k, default)] *)
Definition dict_get_default (k : string) (default : value) (d : dict) : value :=
  match dict_get k d with
  | Some v => v
  | None => default
  end.

(** [d.get(k)] used as a condition: a missing key gives [None]. *)
Definition dict_get_truthy (k : string) (d : dict) : bool :=
  truthy (dict_get_default k VNone d).

(** [k in d] *)
Definition dict_mem {V : Type} (k : string) (d : list (string * V)) : bool :=
  match dict_get k d with
  | Some _ => true
  | None => false
  end.

(** [d[k] = v]: an existing key keeps its position. *)
Fixpoint dict_set {V : Type} (k : string) (v : V) (d : list (string * V))
  : list (string * V) :=
  match d with
  | [] => [(k, v)]
  | (k', v') :: rest =>
      if String.eqb k k' then (k, v) :: rest else (k', v') :: dict_set k v rest
  end.

(** A dictionary display [{k1: v1, ...}]: later duplicates overwrite. *)
Definition dict_of_items {V : Type} (items : list (string * V)) : list (string * V) :=
  fold_left (fun d kv => dict_set (fst kv) (snd kv) d) items [].

(** [bool(d)] *)
Definition dict_truthy (d : dict) : bool :=
  match d with
  | [] => false
  | _ :: _ => true
  end.

(** [needle in haystack] for strings. *)
Fixpoint prefix_of (p s : string) : bool :=
  match p, s with
  | EmptyString, _ => true
  | String a p', String b s' => Ascii.eqb a b && prefix_of p' s'
  | String _ _, EmptyString => false
  end.

Fixpoint str_in (needle haystack : string) : bool :=
  prefix_of needle haystack
  || match haystack with
     | EmptyString => false
     | String _ rest => str_in needle rest
     end.

(** An [Optional[str]] as an object. *)
Definition of_opt_str (o : option string) : value :=
  match o with
  | Some s => VStr s
  | None => VNone
  end.

(** Truth value of an [Optional[str]]. *)
Definition opt_str_truthy (o : option string) : bool := truthy (of_opt_str o).

Definition nl : string := String (ascii_of_nat 10) EmptyString.

(** Sequencing of calls that may raise. *)
Definition res_bind {A B : Type} (r : res A) (k : A -> res B) : res B :=
  match r with
  | Ok a => k a
  | Raise e => Raise e
  end.

(** [try: r  except Exception as e: h e] *)
Definition res_try {A : Type} (r : res A) (h : exn -> res A) : res A :=
  match r with
  | Ok a => Ok a
  | Raise e => h e
  end.

(** The same around the whole body of a function whose handler returns a
    value: the function returns in every case. *)
Definition res_catch {A : Type} (r : res A) (h : exn -> A) : A :=
  match r with
  | Ok a => a
  | Raise e => h e
  end.

End Py.
Import Py.

(* ================================================================== *)
(** * database.py: the subscription store *)
(* ================================================================== *)

Module Db.

(** Table [users]. *)
Record user_row : Type := mk_user {
  u_id : Z;
  telegram_id : Z;
  username : option string;
  first_name : option string;
  last_name : option string;
  u_created_at : Z
}.

(** Table [subscriptions]. *)
Record subscription_row : Type := mk_subscription {
  sub_id : Z;
  user_id : Z;
  departure_station : string;
  arrival_station : string;
  departure_date : string;
  train_number : string;
  seat_type : string;
  berth_position : string;
  is_active : bool;
  created_at : Z;
  last_checked : option Z
}.

(** Table [notifications]. *)
Record notification_row : Type := mk_notification {
  n_id : Z;
  n_subscription_id : Z;
  n_message : string;
  n_sent_at : Z
}.

(** Table [check_history]. *)
Record check_row : Type := mk_check {
  c_id : Z;
  c_subscription_id : Z;
  c_checked_at : Z;
  c_seats_available : value;
  c_seats_info : option string
}.

(** The database file: each table in rowid order, and for the three
    [AUTOINCREMENT] tables the largest rowid ever handed out. *)
Record Database : Type := mk_db {
  users : list user_row;
  subscriptions : list subscription_row;
  subscriptions_seq : Z;
  notifications : list notification_row;
  notifications_seq : Z;
  check_history : list check_row;
  check_history_seq : Z
}.

Definition empty_db : Database := mk_db [] [] 0 [] 0 [] 0.

(** Rowid of the next [INSERT]: one more than the largest of the rowids
    in the table and the recorded sequence value. *)
Definition next_rowid (seq : Z) (ids : list Z) : Z :=
  1 + fold_right Z.max seq ids.

(** [ORDER BY key DESC]; rows with equal keys keep their table order. *)
Fixpoint insert_desc {A : Type} (key : A -> Z) (x : A) (l : list A) : list A :=
  match l with
  | [] => [x]
  | y :: t => if key y <=? key x then x :: y :: t else y :: insert_desc key x t
  end.

Definition order_by_desc {A : Type} (key : A -> Z) (l : list A) : list A :=
  fold_right (insert_desc key) [] l.

(** [add_user], for a [telegram_id] that SQLite stores (an integer of
    64 bits; for another one the call returns [False] and writes
    nothing). *)
Definition add_user (now : Z) (tg : Z) (uname fname lname : option string)
           (d : Database) : bool * Database :=
  match find (fun u => telegram_id u =? tg) (users d) with
  | Some _ => (false, d)
  | None =>
      let u := mk_user (next_rowid 0 (map u_id (users d))) tg uname fname lname now in
      (true,
       mk_db (users d ++ [u]) (subscriptions d) (subscriptions_seq d)
             (notifications d) (notifications_seq d)
             (check_history d) (check_history_seq d))
  end.

(** The [WHERE] clause of the duplicate lookup in [create_subscription].
    The dates are compared as the texts they are; SQLite compares them
    so unless both read as numbers (the column is declared [DATE]). *)
Definition same_subscription (user : Z) (dep arr date train seat berth : string)
           (r : subscription_row) : bool :=
  (user_id r =? user)
  && String.eqb (departure_station r) dep
  && String.eqb (arrival_station r) arr
  && String.eqb (departure_date r) date
  && String.eqb (train_number r) train
  && String.eqb (seat_type r) seat
  && String.eqb (berth_position r) berth
  && is_active r.

(** [create_subscription], for a [user_id] that SQLite stores (for
    another one the call returns [None] and writes nothing) and a date
    that does not read as a number (one that does is stored as that
    number). *)
Definition create_subscription (now : Z) (user : Z)
           (dep arr date train seat berth : string)
           (d : Database) : Z * Database :=
  match find (same_subscription user dep arr date train seat berth) (subscriptions d) with
  | Some existing_sub => (sub_id existing_sub, d)
  | None =>
      let subscription_id :=
        next_rowid (subscriptions_seq d) (map sub_id (subscriptions d)) in
      let r := mk_subscription subscription_id user dep arr date train seat berth
                               true now None in
      (subscription_id,
       mk_db (users d) (subscriptions d ++ [r]) subscription_id
             (notifications d) (notifications_seq d)
             (check_history d) (check_history_seq d))
  end.

(** [get_user_subscriptions]: the rows as selected (the dictionaries
    built from them drop [user_id] and [is_active]). *)
Definition get_user_subscriptions (user : Z) (d : Database) : list subscription_row :=
  order_by_desc created_at
    (filter (fun r => (user_id r =? user) && is_active r) (subscriptions d)).

(** One dictionary of [get_active_subscriptions]: the subscription row
    joined with the [telegram_id] and [first_name] of its user. *)
Record subscription : Type := mk_joined {
  row : subscription_row;
  s_telegram_id : Z;
  s_first_name : option string
}.

Definition join_users (us : list user_row) (r : subscription_row) : list subscription :=
  map (fun u => mk_joined r (telegram_id u) (first_name u))
      (filter (fun u => user_id r =? telegram_id u) us).

(** [get_active_subscriptions] *)
Definition get_active_subscriptions (d : Database) : list subscription :=
  order_by_desc (fun s => created_at (row s))
    (flat_map (join_users (users d)) (filter is_active (subscriptions d))).

Definition set_subscriptions (d : Database) (subs : list subscription_row) : Database :=
  mk_db (users d) subs (subscriptions_seq d)
        (notifications d) (notifications_seq d)
        (check_history d) (check_history_seq d).

Definition touch (now : Z) (r : subscription_row) : subscription_row :=
  mk_subscription (sub_id r) (user_id r) (departure_station r) (arrival_station r)
                  (departure_date r) (train_number r) (seat_type r) (berth_position r)
                  (is_active r) (created_at r) (Some now).

Definition deactivate (r : subscription_row) : subscription_row :=
  mk_subscription (sub_id r) (user_id r) (departure_station r) (arrival_station r)
                  (departure_date r) (train_number r) (seat_type r) (berth_position r)
                  false (created_at r) (last_checked r).

(** [UPDATE subscriptions SET ... WHERE cond] *)
Definition update_where (cond : subscription_row -> bool)
           (f : subscription_row -> subscription_row)
           (subs : list subscription_row) : list subscription_row :=
  map (fun r => if cond r then f r else r) subs.

(** [update_last_checked] *)
Definition update_last_checked (now : Z) (subscription_id : Z)
           (d : Database) : bool * Database :=
  (true,
   set_subscriptions d
     (update_where (fun r => sub_id r =? subscription_id) (touch now) (subscriptions d))).

(** [add_check_history] *)
Definition add_check_history (now : Z) (subscription_id : Z)
           (seats_available : value) (seats_info : option string)
           (d : Database) : bool * Database :=
  let cid := next_rowid (check_history_seq d) (map c_id (check_history d)) in
  (true,
   mk_db (users d) (subscriptions d) (subscriptions_seq d)
         (notifications d) (notifications_seq d)
         (check_history d ++ [mk_check cid subscription_id now seats_available seats_info])
         cid).

(** [add_notification] *)
Definition add_notification (now : Z) (subscription_id : Z) (message : string)
           (d : Database) : bool * Database :=
  let nid := next_rowid (notifications_seq d) (map n_id (notifications d)) in
  (true,
   mk_db (users d) (subscriptions d) (subscriptions_seq d)
         (notifications d ++ [mk_notification nid subscription_id message now]) nid
         (check_history d) (check_history_seq d)).

(** [deactivate_subscription] *)
Definition deactivate_subscription (subscription_id : Z)
           (d : Database) : bool * Database :=
  (true,
   set_subscriptions d
     (update_where (fun r => sub_id r =? subscription_id) deactivate (subscriptions d))).

(** [delete_subscription], for an identifier that SQLite stores (for
    another one the call returns [False]; no row has such an
    identifier). *)
Definition delete_subscription (subscription_id : Z)
           (d : Database) : bool * Database :=
  (true,
   set_subscriptions d
     (filter (fun r => negb (sub_id r =? subscription_id)) (subscriptions d))).

(** [cleanup_old_data], for a number of [days] that is not negative
    (with a negative one the modifier of [datetime] is not understood
    and no row is deleted): [today] is the text of [date('now')]; the
    departure dates are compared with it as text. *)
Definition cleanup_old_data (now : Z) (today : string) (days : Z)
           (d : Database) : bool * Database :=
  let horizon := now - days * 86400 in
  (true,
   mk_db (users d)
         (update_where (fun r => String.ltb (departure_date r) today) deactivate
                       (subscriptions d))
         (subscriptions_seq d)
         (filter (fun n => negb (n_sent_at n <? horizon)) (notifications d))
         (notifications_seq d)
         (filter (fun c => negb (c_checked_at c <? horizon)) (check_history d))
         (check_history_seq d)).

(** The values of the dictionary of [get_statistics]. *)
Inductive stat : Type :=
  | SInt (n : Z)
  | SBool (b : bool).

(** [get_statistics]; [now] is the time of the call. *)
Definition get_statistics (now : Z) (d : Database) : list (string * stat) :=
  let total_users := Z.of_nat (List.length (users d)) in
  let active_subscriptions :=
    Z.of_nat (List.length (filter is_active (subscriptions d))) in
  let notifications_24h :=
    Z.of_nat (List.length (filter (fun n => now - 86400 <? n_sent_at n)
                                  (notifications d))) in
  [("total_users"%string, SInt total_users);
   ("active_subscriptions"%string, SInt active_subscriptions);
   ("notifications_24h"%string, SInt notifications_24h)].

End Db.
Import Db.

(* ================================================================== *)
(** * rzd_parser.py: the availability adapter *)
(* ================================================================== *)

Module RZDParser.

Local Notation "x <- r ;; k" := (res_bind r (fun x => k))
  (at level 61, r at next level, right associativity).

Local Open Scope string_scope.

(** What the adapter reads from a tag of the parsed page: its text, and
    the stripped text of the first price, car and seat element below it
    ([None] when there is no such element). Each access may raise. *)
Record block : Type := mk_block {
  b_get_text : res string;
  b_find_price : res (option string);
  b_find_car : res (option string);
  b_find_seat : res (option string)
}.

(** What the adapter reads from a parsed page. *)
Record soup : Type := mk_soup {
  s_select : string -> res (list block);
  s_find_all_text_parents : res (list block);
  s_get_text : res string
}.

(** An HTTP response: [json_values] is the ['value'] entry of each item
    of the decoded body. *)
Record response : Type := mk_response {
  status : Z;
  text : res string;
  json_values : res (list (option string))
}.

(** The libraries and the network the adapter runs on. *)
Record Net : Type := mk_net {
  lower : string -> string;                              (* str.lower *)
  strip : string -> string;                              (* str.strip *)
  http_get : string -> list (string * string) -> res response;
                                   (* (await self._get_session()).get(url, params=...) *)
  BeautifulSoup : string -> res soup                     (* BeautifulSoup(html, 'html.parser') *)
}.

Definition base_url : string := "https://pass.rzd.ru".

(** The display of [station_codes] in [_get_station_code], as written. *)
Definition station_codes_items : list (string * string) := [
  ("москва", "2000000"); ("санкт-петербург", "2004000");
  ("екатеринбург", "2044000"); ("новосибирск", "2040000");
  ("нижний новгород", "2060000"); ("казань", "2060001");
  ("самара", "2024000"); ("омск", "2040700");
  ("ростов-на-дону", "2064000"); ("красноярск", "2030000");
  ("волгоград", "2020000"); ("воронеж", "2014000");
  ("саратов", "2020001"); ("краснодар", "2064001");
  ("тольятти", "2024001"); ("барнаул", "2040001");
  ("ижевск", "2060002"); ("ульяновск", "2024002");
  ("владивосток", "2034000"); ("хабаровск", "2034001");
  ("иркутск", "2030001"); ("челябинск", "2044001");
  ("оренбург", "2044002"); ("рязань", "2000001");
  ("пенза", "2020002"); ("липецк", "2014001");
  ("тула", "2000002"); ("киров", "2060003");
  ("чебоксары", "2060004"); ("калининград", "2000003");
  ("брянск", "2000004"); ("курск", "2014002");
  ("белгород", "2014003"); ("орёл", "2000005");
  ("смоленск", "2000006"); ("мурманск", "2000007");
  ("архангельск", "2000008"); ("сыктывкар", "2000009");
  ("йошкар-ола", "2060005"); ("саранск", "2020003");
  ("астрахань", "2020004"); ("элиста", "2020005");
  ("грозный", "2064002"); ("махачкала", "2064003");
  ("владикавказ", "2064004"); ("нальчик", "2064005");
  ("черкесск", "2064006"); ("ставрополь", "2064007");
  ("сочи", "2064008"); ("анапа", "2064009");
  ("геленджик", "2064010"); ("новороссийск", "2064011");
  ("туапсе", "2064012"); ("адлер", "2064013");
  ("майкоп", "2064014"); ("армавир", "2064015");
  ("кропоткин", "2064016"); ("тихорецк", "2064017");
  ("кавказская", "2064018"); ("ессентуки", "2064019");
  ("кисловодск", "2064020"); ("пятигорск", "2064021");
  ("минеральные воды", "2064022"); ("беслан", "2064023");
  ("дигора", "2064024"); ("аланья", "2064025");
  ("буйнакск", "2064026"); ("хасавюрт", "2064027");
  ("кизляр", "2064028"); ("дербент", "2064029");
  ("избербаш", "2064030"); ("каспийск", "2064031");
  ("буйнакск", "2064032"); ("хасавюрт", "2064033");
  ("кизляр", "2064034"); ("дербент", "2064035");
  ("избербаш", "2064036"); ("каспийск", "2064037");
  ("буйнакск", "2064038"); ("хасавюрт", "2064039");
  ("кизляр", "2064040"); ("дербент", "2064041");
  ("избербаш", "2064042"); ("каспийск", "2064043")
].

Definition station_codes : list (string * string) := dict_of_items station_codes_items.

(** [_search_station_code_api] *)
Definition _search_station_code_api (net : Net) (station_name : string)
  : option string :=
  res_catch
    (response <- http_get net (base_url ++ "/suggester")
                          [("query", station_name); ("lang", "ru")] ;;
     if negb (status response =? 200)%Z then Ok None
     else
       data <- json_values response ;;
       match data with
       | first :: _ => Ok first
       | [] => Ok None
       end)
    (fun _ => None).

(** [_get_station_code] *)
Definition _get_station_code (net : Net) (station_name : string) : option string :=
  let normalized_name := strip net (lower net station_name) in
  match dict_get normalized_name station_codes with
  | Some code => Some code
  | None =>
      match find (fun sc => str_in normalized_name (fst sc)
                            || str_in (fst sc) normalized_name) station_codes with
      | Some (_, code) => Some code
      | None => _search_station_code_api net station_name
      end
  end.

(** [_extract_price], [_extract_car_number], [_extract_seat_number] *)
Definition _extract_price (b : block) : option string :=
  res_catch (b_find_price b) (fun _ => None).

Definition _extract_car_number (b : block) : option string :=
  res_catch (b_find_car b) (fun _ => None).

Definition _extract_seat_number (b : block) : option string :=
  res_catch (b_find_seat b) (fun _ => None).

(** [_is_seat_available] *)
Definition _is_seat_available (net : Net) (b : block)
           (seat_type berth_position : string) : bool :=
  res_catch
    (t <- b_get_text b ;;
     let block_text := lower net t in
     if negb (str_in (lower net seat_type) block_text) then Ok false
     else if String.eqb (lower net seat_type) "купе"
             && negb (String.eqb berth_position "любая")
             && negb (str_in (lower net berth_position) block_text)
     then Ok false
     else if existsb (fun word => str_in word block_text)
                     ["забронировано"; "занято"; "недоступно"]
     then Ok false
     else Ok true)
    (fun _ => false).

Definition availability_indicators : list string :=
  ["доступно"; "свободно"; "есть места"; "можно купить";
   "available"; "free"; "book"; "купить"].

Definition unavailable_indicators : list string :=
  ["нет мест"; "забронировано"; "занято"; "недоступно";
   "sold out"; "unavailable"; "закончились"].

(** [_check_general_availability] *)
Definition _check_general_availability (net : Net) (page : soup)
           (seat_type berth_position : string) : dict :=
  res_catch
    (t <- s_get_text page ;;
     let page_text := lower net t in
     if existsb (fun indicator => str_in indicator page_text) availability_indicators
     then Ok [("available", VBool true);
              ("seat_type", VStr seat_type);
              ("berth_position", VStr berth_position);
              ("price", VStr "Уточните на сайте");
              ("car_number", VStr "Уточните на сайте");
              ("seat_number", VStr "Уточните на сайте")]
     else if existsb (fun indicator => str_in indicator page_text) unavailable_indicators
     then Ok [("available", VBool false);
              ("seat_type", VStr seat_type);
              ("berth_position", VStr berth_position)]
     else Ok [("available", VBool false);
              ("seat_type", VStr seat_type);
              ("berth_position", VStr berth_position)])
    (fun e => [("available", VBool false);
               ("seat_type", VStr seat_type);
               ("berth_position", VStr berth_position);
               ("error", VStr (exn_str e))]).

(** The CSS selectors, without the quotes around their attribute values. *)
Definition seat_selectors : list string :=
  ["div[class*=seat]"; "div[class*=place]"; "div[class*=car]";
   "span[class*=seat]"; "td[class*=seat]"; "div.ticket-seat"; "div.car-seat"].

(** The loop over [seat_selectors]: the blocks of the first selector that
    selects any. *)
Fixpoint select_first (page : soup) (selectors : list string) : res (list block) :=
  match selectors with
  | [] => Ok []
  | selector :: rest =>
      blocks <- s_select page selector ;;
      match blocks with
      | [] => select_first page rest
      | _ :: _ => Ok blocks
      end
  end.

(** The loop over [seat_blocks]: the first available block fills in
    [seat_info]. *)
Fixpoint scan_blocks (net : Net) (seat_type berth_position : string)
         (seat_blocks : list block) (seat_info : dict) : dict :=
  match seat_blocks with
  | [] => seat_info
  | b :: rest =>
      if _is_seat_available net b seat_type berth_position
      then dict_set "seat_number" (of_opt_str (_extract_seat_number b))
             (dict_set "car_number" (of_opt_str (_extract_car_number b))
                (dict_set "price" (of_opt_str (_extract_price b))
                   (dict_set "available" (VBool true) seat_info)))
      else scan_blocks net seat_type berth_position rest seat_info
  end.

(** [_parse_seat_availability] *)
Definition _parse_seat_availability (net : Net) (html : string)
           (seat_type berth_position : string) : dict :=
  res_catch
    (page <- BeautifulSoup net html ;;
     let seat_info : dict :=
       [("available", VBool false);
        ("seat_type", VStr seat_type);
        ("berth_position", VStr berth_position);
        ("price", VNone);
        ("car_number", VNone);
        ("seat_number", VNone)] in
     seat_blocks <- select_first page seat_selectors ;;
     seat_blocks <- match seat_blocks with
                    | [] => s_find_all_text_parents page
                    | _ :: _ => Ok seat_blocks
                    end ;;
     let seat_info := scan_blocks net seat_type berth_position seat_blocks seat_info in
     if negb (truthy (dict_get_default "available" VNone seat_info))
     then Ok (_check_general_availability net page seat_type berth_position)
     else Ok seat_info)
    (fun e => [("available", VBool false); ("error", VStr (exn_str e))]).

(** Decimal text of an integer inside an f-string. *)
Definition str_of_int (z : Z) : string := NilZero.string_of_int (Z.to_int z).

(** The address and the [params] dictionary of the request of
    [check_seat_availability]. *)
Definition check_url : string := base_url ++ "/tickets/public/ru".

Definition code_text (code : option string) : string :=
  match code with
  | Some c => c
  | None => ""
  end.

Definition check_params (departure_code arrival_code : option string)
           (departure_date train_number : string) : list (string * string) :=
  [("layer_id", "5827"); ("dir", "0"); ("tfl", "3"); ("checkSeats", "1");
   ("code0", code_text departure_code); ("code1", code_text arrival_code);
   ("dt0", departure_date); ("trainNumber", train_number)].

(** [check_seat_availability] *)
Definition check_seat_availability (net : Net)
           (train_number departure_station arrival_station departure_date : string)
           (seat_type berth_position : string) : res dict :=
  res_try
    (let departure_code := _get_station_code net departure_station in
     let arrival_code := _get_station_code net arrival_station in
     if negb (opt_str_truthy departure_code) || negb (opt_str_truthy arrival_code)
     then Ok [("available", VBool false);
              ("error", VStr "Не удалось найти коды станций")]
     else
       response <- http_get net check_url
                     (check_params departure_code arrival_code
                                   departure_date train_number) ;;
       if negb (status response =? 200)%Z
       then Ok [("available", VBool false);
                ("error", VStr ("HTTP ошибка " ++ str_of_int (status response)))]
       else
         html <- text response ;;
         Ok (_parse_seat_availability net html seat_type berth_position))
    (fun e => Ok [("available", VBool false); ("error", VStr (exn_str e))]).

(** ** The search for trains *)

(** A train as [search_trains] reports it. *)
Record train : Type := mk_train {
  number : string;
  departure_time : string;
  arrival_time : string;
  duration : string
}.

(** What [_extract_train_info] reads from a block of the result page: the
    stripped text of the first element whose class matches
    [number|train] ([None] when there is none), the stripped texts of the
    elements whose class matches [time|departure|arrival], and the
    stripped text of the first element whose class matches
    [duration|time]. Each access may raise. *)
Record train_block : Type := mk_train_block {
  tb_find_number : res (option string);
  tb_find_times : res (list string);
  tb_find_duration : res (option string)
}.

(** What [_parse_trains_from_html] reads from the parsed page. *)
Record train_page : Type := mk_train_page {
  tp_select : string -> res (list train_block);
  tp_find_all_text_parents : res (list train_block)
}.

(** What [_extract_trains_from_json] reads from the decoded state: the
    items of its ['trains'] entry ([None] without such an entry); an item
    is a JSON object, given by its entries with their values as text, or
    something without [get]. *)
Record json_state : Type := mk_json_state {
  js_trains : res (option (list (res (list (string * string)))))
}.

(** The libraries under the search, beside those of [Net]. *)
Record SearchNet : Type := mk_search_net {
  net : Net;
  parse_trains : string -> res train_page;   (* BeautifulSoup(html, 'html.parser') *)
  find_initial_state : string -> res (option json_state)
                    (* re.search(r'window\.__INITIAL_STATE__...', html), json.loads *)
}.

(** [_get_fallback_trains] *)
Definition _get_fallback_trains : list train :=
  [mk_train "001М" "22:30" "06:45" "8ч 15м";
   mk_train "003М" "23:55" "08:10" "8ч 15м";
   mk_train "005М" "00:30" "08:45" "8ч 15м"].

(** [_extract_train_info] *)
Definition _extract_train_info (b : train_block) : option train :=
  res_catch
    (number_elem <- tb_find_number b ;;
     match number_elem with
     | None => Ok None
     | Some number =>
         time_elems <- tb_find_times b ;;
         let times :=
           match time_elems with
           | t0 :: t1 :: _ => (t0, t1)
           | _ => ("", "")
           end in
         duration_elem <- tb_find_duration b ;;
         let duration :=
           match duration_elem with
           | Some t => t
           | None => ""
           end in
         Ok (Some (mk_train number (fst times) (snd times) duration))
     end)
    (fun _ => None).

(** [train_data.get(k, '')] *)
Definition get_text_default (k : string) (o : list (string * string)) : string :=
  match dict_get k o with
  | Some v => v
  | None => ""
  end.

(** The loop of [_extract_trains_from_json]: an item that raises ends it,
    and the trains appended so far are returned. *)
Fixpoint trains_of_items (items : list (res (list (string * string)))) : list train :=
  match items with
  | [] => []
  | Ok train_data :: rest =>
      mk_train (get_text_default "number" train_data)
               (get_text_default "departureTime" train_data)
               (get_text_default "arrivalTime" train_data)
               (get_text_default "duration" train_data)
      :: trains_of_items rest
  | Raise _ :: _ => []
  end.

(** [_extract_trains_from_json] *)
Definition _extract_trains_from_json (data : json_state) : list train :=
  res_catch
    (entry <- js_trains data ;;
     match entry with
     | Some items => Ok (trains_of_items items)
     | None => Ok []
     end)
    (fun _ => []).

(** [_parse_trains_alternative] *)
Definition _parse_trains_alternative (snet : SearchNet) (html : string) : list train :=
  res_catch
    (json_match <- find_initial_state snet html ;;
     match json_match with
     | Some data => Ok (_extract_trains_from_json data)
     | None => Ok []
     end)
    (fun _ => []).

(** The CSS selectors, without the quotes around their attribute values. *)
Definition train_selectors : list string :=
  ["div.train-item"; "div.route-item"; "div[class*=train]"; "div[class*=route]";
   "tr.train-row"; "div.ticket-item"].

(** The loop over [selectors]: the blocks of the first selector that
    selects any. *)
Fixpoint select_first_trains (page : train_page) (selectors : list string)
  : res (list train_block) :=
  match selectors with
  | [] => Ok []
  | selector :: rest =>
      blocks <- tp_select page selector ;;
      match blocks with
      | [] => select_first_trains page rest
      | _ :: _ => Ok blocks
      end
  end.

(** The loop over [train_blocks]. *)
Definition trains_of_blocks (train_blocks : list train_block) : list train :=
  flat_map (fun b => match _extract_train_info b with
                     | Some train_info => [train_info]
                     | None => []
                     end) train_blocks.

(** [_parse_trains_from_html] *)
Definition _parse_trains_from_html (snet : SearchNet) (html : string) : list train :=
  res_catch
    (page <- parse_trains snet html ;;
     train_blocks <- select_first_trains page train_selectors ;;
     train_blocks <- match train_blocks with
                     | [] => tp_find_all_text_parents page
                     | _ :: _ => Ok train_blocks
                     end ;;
     let trains := trains_of_blocks train_blocks in
     let trains :=
       match trains with
       | [] => _parse_trains_alternative snet html
       | _ :: _ => trains
       end in
     let trains :=
       match trains with
       | [] => _get_fallback_trains
       | _ :: _ => trains
       end in
     Ok trains)
    (fun _ => []).

Definition search_params (departure_code arrival_code : option string)
           (departure_date : string) : list (string * string) :=
  [("layer_id", "5827"); ("dir", "0"); ("tfl", "3"); ("checkSeats", "1");
   ("code0", code_text departure_code); ("code1", code_text arrival_code);
   ("dt0", departure_date); ("time0", "00:00"); ("time1", "23:59")].

(** [search_trains] *)
Definition search_trains (snet : SearchNet)
           (departure_station arrival_station departure_date : string) : list train :=
  res_catch
    (let departure_code := _get_station_code (net snet) departure_station in
     let arrival_code := _get_station_code (net snet) arrival_station in
     if negb (opt_str_truthy departure_code) || negb (opt_str_truthy arrival_code)
     then Ok []
     else
       response <- http_get (net snet) (base_url ++ "/tickets/public/ru")
                     (search_params departure_code arrival_code departure_date) ;;
       if negb (status response =? 200)%Z then Ok []
       else
         html <- text response ;;
         Ok (_parse_trains_from_html snet html))
    (fun _ => []).

End RZDParser.

(* ================================================================== *)
(** * monitoring.py: the monitoring service *)
(* ================================================================== *)

Module Monitor.

(** The keyword arguments of [parser.check_seat_availability]. *)
Record query : Type := mk_query {
  q_train_number : string;
  q_departure_station : string;
  q_arrival_station : string;
  q_departure_date : string;
  q_seat_type : string;
  q_berth_position : string
}.

(** A [datetime.date]. *)
Record date : Type := mk_date { year : Z; month : Z; day : Z }.

Definition date_ltb (a b : date) : bool :=
  (year a <? year b)
  || ((year a =? year b)
      && ((month a <? month b) || ((month a =? month b) && (day a <? day b)))).

(** [datetime.strptime(s, '%Y-%m-%d').date()] on ASCII digits: four
    digits of year, a month [1[0-2]|0[1-9]|[1-9]], a day
    [3[01]|[12]\d|0[1-9]|[1-9]| [1-9]], nothing after it, and a date that
    exists in the calendar. *)
Definition digit (c : ascii) : option Z :=
  let n := Z.of_nat (nat_of_ascii c) in
  if (48 <=? n) && (n <=? 57) then Some (n - 48) else None.

Definition is_leap (y : Z) : bool :=
  ((y mod 4 =? 0) && negb (y mod 100 =? 0)) || (y mod 400 =? 0).

Definition days_in_month (y m : Z) : Z :=
  if m =? 2 then (if is_leap y then 29 else 28)
  else if (m =? 4) || (m =? 6) || (m =? 9) || (m =? 11) then 30 else 31.

Definition one_digit (s : string) : option (Z * string) :=
  match s with
  | String c rest =>
      match digit c with
      | Some k => if 1 <=? k then Some (k, rest) else None
      | None => None
      end
  | EmptyString => None
  end.

Definition parse_month (s : string) : option (Z * string) :=
  match s with
  | String c1 (String c2 rest) =>
      match digit c1, digit c2 with
      | Some 1, Some k => if k <=? 2 then Some (10 + k, rest) else one_digit s
      | Some 0, Some k => if 1 <=? k then Some (k, rest) else one_digit s
      | _, _ => one_digit s
      end
  | _ => one_digit s
  end.

Definition parse_day (s : string) : option (Z * string) :=
  match s with
  | String c1 (String c2 rest) =>
      match digit c1, digit c2 with
      | Some 3, Some k => if k <=? 1 then Some (30 + k, rest) else one_digit s
      | Some 1, Some k => Some (10 + k, rest)
      | Some 2, Some k => Some (20 + k, rest)
      | Some 0, Some k => if 1 <=? k then Some (k, rest) else one_digit s
      | None, Some k =>
          if Ascii.eqb c1 " " && (1 <=? k) then Some (k, rest) else one_digit s
      | _, _ => one_digit s
      end
  | _ => one_digit s
  end.

Definition strptime_ymd (s : string) : res date :=
  match s with
  | String y1 (String y2 (String y3 (String y4 (String dash1 rest)))) =>
      match digit y1, digit y2, digit y3, digit y4, parse_month rest with
      | Some a, Some b, Some c, Some d, Some (m, String dash2 rest') =>
          match parse_day rest' with
          | Some (dd, EmptyString) =>
              let y := 1000 * a + 100 * b + 10 * c + d in
              if Ascii.eqb dash1 "-" && Ascii.eqb dash2 "-"
                 && (1 <=? y) && (dd <=? days_in_month y m)
              then Ok (mk_date y m dd)
              else Raise (ValueError "time data does not match format")
          | _ => Raise (ValueError "time data does not match format")
          end
      | _, _, _, _, _ => Raise (ValueError "time data does not match format")
      end
  | _ => Raise (ValueError "time data does not match format")
  end.

(** What the service reaches outside the store during one call: the
    availability source, the Telegram client and the clock. *)
Record Env : Type := mk_env {
  parser : query -> res dict;            (* self.parser.check_seat_availability *)
  bot_send_message : Z -> string -> res unit;  (* self.bot.send_message *)
  current_timestamp : Z;                 (* CURRENT_TIMESTAMP *)
  now_text : string;                     (* datetime.now().strftime('%d.%m.%Y %H:%M') *)
  today : date;                          (* datetime.now().date() *)
  strptime : string -> res date;         (* datetime.strptime(_, '%Y-%m-%d').date() *)
  py_str : dict -> string                (* str(_) of a dictionary *)
}.

(** The attributes of [MonitoringService] ([self.bot] exists exactly when
    [bot_token] is truthy). *)
Record MonitoringService : Type := mk_service {
  bot_token : option string;
  is_running : bool;
  check_interval : Z;
  max_retries : Z;
  retry_delay : Z
}.

(** [__init__] *)
Definition init (token : option string) : MonitoringService :=
  mk_service token false 300 3 60.

Definition has_bot (svc : MonitoringService) : bool :=
  match bot_token svc with
  | Some t => negb (String.eqb t EmptyString)
  | None => false
  end.

(** Calls made to the collaborators, in the order they are issued. *)
Inductive event : Type :=
  | EvGetActiveSubscriptions
  | EvCheckSeatAvailability (subscription_id : Z)
  | EvUpdateLastChecked (subscription_id : Z)
  | EvAddCheckHistory (subscription_id : Z) (seats_available : value)
  | EvSendMessage (subscription_id : Z) (chat_id : Z)
  | EvAddNotification (subscription_id : Z)
  | EvDeactivateSubscription (subscription_id : Z).

(** The store, the messages Telegram accepted, and the calls so far. *)
Record World : Type := mk_world {
  db : Database;
  sent : list (Z * string);
  trace : list event
}.

(** Coroutines of the service: they change the world and return or raise;
    what was done before an exception stays done. *)
Definition M (A : Type) : Type := World -> res A * World.

Definition ret {A : Type} (a : A) : M A := fun w => (Ok a, w).

Definition bind {A B : Type} (m : M A) (k : A -> M B) : M B :=
  fun w =>
    match m w with
    | (Ok a, w') => k a w'
    | (Raise e, w') => (Raise e, w')
    end.

(** [try: m  except Exception as e: h e] *)
Definition try_except {A : Type} (m : M A) (h : exn -> M A) : M A :=
  fun w =>
    match m w with
    | (Ok a, w') => (Ok a, w')
    | (Raise e, w') => h e w'
    end.

Notation "x <- m ;; k" := (bind m (fun x => k))
    (at level 61, m at next level, right associativity).

(** A call outside the store that leaves no record. *)
Definition lift_res {A : Type} (r : res A) : M A := fun w => (r, w).

Definition log (ev : event) (w : World) : World :=
  mk_world (db w) (sent w) (trace w ++ [ev]).

(** A call of a [Database] method. *)
Definition db_call {A : Type} (ev : event) (op : Database -> A * Database) : M A :=
  fun w =>
    let (a, d') := op (db w) in
    (Ok a, mk_world d' (sent w) (trace w ++ [ev])).

Definition db_get_active_subscriptions : M (list subscription) :=
  db_call EvGetActiveSubscriptions (fun d => (get_active_subscriptions d, d)).

(** [await self.parser.check_seat_availability(...)] *)
Definition call_parser (env : Env) (subscription_id : Z) (q : query) : M dict :=
  fun w => (parser env q, log (EvCheckSeatAvailability subscription_id) w).

(** [await self.bot.send_message(chat_id=..., text=...)] *)
Definition call_send_message (env : Env) (subscription_id chat_id : Z)
             (text : string) : M unit :=
  fun w =>
    match bot_send_message env chat_id text with
    | Ok _ =>
        (Ok tt, mk_world (db w) (sent w ++ [(chat_id, text)])
                         (trace w ++ [EvSendMessage subscription_id chat_id]))
    | Raise e => (Raise e, log (EvSendMessage subscription_id chat_id) w)
    end.

(** [asyncio.gather] with [return_exceptions=True], over tasks that run
    one after the other in the order of their creation: the outcome of
    each task is collected, none is raised. This is one of the orders in
    which the event loop can run the tasks; [check_all_interleaved] below
    gives all of them. *)
Fixpoint gather {A : Type} (tasks : list (M A)) : M (list (res A)) :=
  match tasks with
  | [] => ret []
  | t :: rest =>
      fun w =>
        let (r, w') := t w in
        match gather rest w' with
        | (Ok rs, w'') => (Ok (r :: rs), w'')
        | (Raise e, w'') => (Raise e, w'')
        end
  end.

Definition query_of (s : subscription) : query :=
  mk_query (train_number (row s)) (departure_station (row s))
           (arrival_station (row s)) (departure_date (row s))
           (seat_type (row s)) (berth_position (row s)).

(** An object inside an f-string. *)
Definition format_value (v : value) : string :=
  match v with
  | VNone => "None"
  | VBool true => "True"
  | VBool false => "False"
  | VStr s => s
  end.

Local Open Scope string_scope.

(** [_format_notification_message]; [stamp] is the text of the current
    time. *)
Definition _format_notification_message (stamp : string)
             (subscription : subscription) (availability_info : dict) : string :=
  let message :=
    "🎉 <b>Найдены свободные места!</b>" ++ nl ++ nl
    ++ "🚂 <b>Поезд:</b> " ++ train_number (row subscription) ++ nl
    ++ "📍 <b>Маршрут:</b> " ++ departure_station (row subscription)
    ++ " → " ++ arrival_station (row subscription) ++ nl
    ++ "📅 <b>Дата:</b> " ++ departure_date (row subscription) ++ nl
    ++ "🛏️ <b>Тип места:</b> " ++ seat_type (row subscription) ++ nl in
  let message :=
    if negb (String.eqb (berth_position (row subscription)) "любая")
    then message ++ "🛏️ <b>Полка:</b> " ++ berth_position (row subscription) ++ nl
    else message in
  let message :=
    if dict_get_truthy "price" availability_info
    then message ++ "💰 <b>Цена:</b> "
         ++ format_value (dict_get_default "price" VNone availability_info) ++ nl
    else message in
  let message :=
    if dict_get_truthy "car_number" availability_info
    then message ++ "🚃 <b>Вагон:</b> "
         ++ format_value (dict_get_default "car_number" VNone availability_info) ++ nl
    else message in
  let message :=
    if dict_get_truthy "seat_number" availability_info
    then message ++ "🪑 <b>Место:</b> "
         ++ format_value (dict_get_default "seat_number" VNone availability_info) ++ nl
    else message in
  message
  ++ nl ++ "⏰ <b>Время уведомления:</b> " ++ stamp ++ nl ++ nl
  ++ "🔗 <b>Ссылка для бронирования:</b>" ++ nl
  ++ "https://pass.rzd.ru/tickets/public/ru".

Local Close Scope string_scope.

(** [_send_notification] *)
Definition _send_notification (svc : MonitoringService) (env : Env)
             (subscription : subscription) (availability_info : dict) : M unit :=
  try_except
    (if negb (has_bot svc) then ret tt
     else
       let message :=
         _format_notification_message (now_text env) subscription availability_info in
       _ <- call_send_message env (sub_id (row subscription))
                              (s_telegram_id subscription) message ;;
       _ <- db_call (EvAddNotification (sub_id (row subscription)))
                    (add_notification (current_timestamp env)
                                      (sub_id (row subscription)) message) ;;
       ret tt)
    (fun e =>
       match e with
       | TelegramError _ => ret tt
       | _ => ret tt
       end).

(** [_check_subscription] *)
Definition _check_subscription (svc : MonitoringService) (env : Env)
             (subscription_id : Z) : M unit :=
  try_except
    (subscriptions <- db_get_active_subscriptions ;;
     match find (fun s => sub_id (row s) =? subscription_id) subscriptions with
     | None => ret tt
     | Some subscription =>
         availability_info <- call_parser env subscription_id (query_of subscription) ;;
         _ <- db_call (EvUpdateLastChecked subscription_id)
                      (update_last_checked (current_timestamp env) subscription_id) ;;
         let seats_info :=
           if dict_truthy availability_info
           then Some (py_str env availability_info) else None in
         let available := dict_get_default "available" (VBool false) availability_info in
         _ <- db_call (EvAddCheckHistory subscription_id available)
                      (add_check_history (current_timestamp env) subscription_id
                                         available seats_info) ;;
         if truthy available
         then _send_notification svc env subscription availability_info
         else ret tt
     end)
    (fun _ => ret tt).

(** [start_monitoring] *)
Definition start_monitoring (svc : MonitoringService) (env : Env)
             (subscription_id : Z) : M unit :=
  _check_subscription svc env subscription_id.

(** [_check_all_subscriptions] *)
Definition _check_all_subscriptions (svc : MonitoringService) (env : Env) : M unit :=
  try_except
    (subscriptions <- db_get_active_subscriptions ;;
     let tasks :=
       map (fun s => _check_subscription svc env (sub_id (row s))) subscriptions in
     _ <- gather tasks ;;
     ret tt)
    (fun _ => ret tt).

(** ** The checks of a cycle as interleaved tasks

    A check gives up control at each [await]; [task] names the points at
    which it waits, [step] runs it from one of them to the next, and
    [run_schedule] resumes the tasks of a cycle in the order the event
    loop picks. *)
Inductive task : Type :=
  | AtListing (subscription_id : Z)
  | AtProbe (subscription : subscription)
  | AtTouch (subscription : subscription) (availability_info : dict)
  | AtHistory (subscription : subscription) (availability_info : dict)
  | AtSend (subscription : subscription) (availability_info : dict)
  | AtNotification (subscription : subscription) (message : string)
  | Finished.

Definition step (svc : MonitoringService) (env : Env) (t : task) (w : World)
    : task * World :=
  match t with
  | AtListing subscription_id =>
      match db_get_active_subscriptions w with
      | (Ok subscriptions, w') =>
          match find (fun s => sub_id (row s) =? subscription_id) subscriptions with
          | None => (Finished, w')
          | Some subscription => (AtProbe subscription, w')
          end
      | (Raise _, w') => (Finished, w')
      end
  | AtProbe subscription =>
      match call_parser env (sub_id (row subscription)) (query_of subscription) w with
      | (Ok availability_info, w') => (AtTouch subscription availability_info, w')
      | (Raise _, w') => (Finished, w')
      end
  | AtTouch subscription availability_info =>
      let id := sub_id (row subscription) in
      match db_call (EvUpdateLastChecked id)
                    (update_last_checked (current_timestamp env) id) w with
      | (_, w') => (AtHistory subscription availability_info, w')
      end
  | AtHistory subscription availability_info =>
      let id := sub_id (row subscription) in
      let seats_info :=
        if dict_truthy availability_info
        then Some (py_str env availability_info) else None in
      let available := dict_get_default "available" (VBool false) availability_info in
      match db_call (EvAddCheckHistory id available)
                    (add_check_history (current_timestamp env) id
                                       available seats_info) w with
      | (_, w') =>
          (if truthy available && has_bot svc
           then AtSend subscription availability_info else Finished, w')
      end
  | AtSend subscription availability_info =>
      let message :=
        _format_notification_message (now_text env) subscription availability_info in
      match call_send_message env (sub_id (row subscription))
                              (s_telegram_id subscription) message w with
      | (Ok _, w') => (AtNotification subscription message, w')
      | (Raise _, w') => (Finished, w')
      end
  | AtNotification subscription message =>
      let id := sub_id (row subscription) in
      match db_call (EvAddNotification id)
                    (add_notification (current_timestamp env) id message) w with
      | (_, w') => (Finished, w')
      end
  | Finished => (Finished, w)
  end.

(** The event loop resumes the task at position [i]. *)
Fixpoint resume (svc : MonitoringService) (env : Env) (i : nat)
           (tasks : list task) (w : World) : list task * World :=
  match tasks, i with
  | [], _ => ([], w)
  | t :: rest, O => let (t', w') := step svc env t w in (t' :: rest, w')
  | t :: rest, S j =>
      let (rest', w') := resume svc env j rest w in (t :: rest', w')
  end.

Fixpoint run_schedule (svc : MonitoringService) (env : Env) (schedule : list nat)
           (tasks : list task) (w : World) : list task * World :=
  match schedule with
  | [] => (tasks, w)
  | i :: later =>
      let (tasks', w') := resume svc env i tasks w in
      run_schedule svc env later tasks' w'
  end.

(** [_check_all_subscriptions] with the tasks resumed as [schedule] says;
    the result is the state of the tasks and the world when the schedule
    ends. *)
Definition check_all_interleaved (svc : MonitoringService) (env : Env)
             (schedule : list nat) (w : World) : list task * World :=
  match db_get_active_subscriptions w with
  | (Ok subscriptions, w') =>
      run_schedule svc env schedule
        (map (fun s => AtListing (sub_id (row s))) subscriptions) w'
  | (Raise _, w') => ([], w')
  end.

(** The steps a task has left at most. *)
Definition remaining (t : task) : nat :=
  match t with
  | AtListing _ => 6
  | AtProbe _ => 5
  | AtTouch _ _ => 4
  | AtHistory _ _ => 3
  | AtSend _ _ => 2
  | AtNotification _ _ => 1
  | Finished => 0
  end.

(** The loop of [run], for as many iterations as there are environments:
    iteration [i] runs in the environment [nth i envs]; the sleeps between
    iterations are not part of the model. *)
Fixpoint run_cycles (svc : MonitoringService) (envs : list Env) : M unit :=
  match envs with
  | [] => ret tt
  | env :: rest =>
      _ <- try_except (_check_all_subscriptions svc env) (fun _ => ret tt) ;;
      run_cycles svc rest
  end.

(** [update_check_interval] *)
Definition update_check_interval (svc : MonitoringService) (interval : Z)
    : MonitoringService :=
  let interval := if interval <? 60 then 60 else interval in
  mk_service (bot_token svc) (is_running svc) interval
             (max_retries svc) (retry_delay svc).

(** The [for] loop of [cleanup_old_subscriptions]; the result is
    [deactivated_count]. *)
Fixpoint cleanup_loop (env : Env) (subscriptions : list subscription)
           (deactivated_count : Z) : M Z :=
  match subscriptions with
  | [] => ret deactivated_count
  | subscription :: rest =>
      departure_date <- lift_res (strptime env (departure_date (row subscription))) ;;
      if date_ltb departure_date (today env)
      then
        _ <- db_call (EvDeactivateSubscription (sub_id (row subscription)))
                     (deactivate_subscription (sub_id (row subscription))) ;;
        cleanup_loop env rest (deactivated_count + 1)
      else cleanup_loop env rest deactivated_count
  end.

(** [cleanup_old_subscriptions] *)
Definition cleanup_old_subscriptions (env : Env) : M unit :=
  try_except
    (subscriptions <- db_get_active_subscriptions ;;
     _ <- cleanup_loop env subscriptions 0 ;;
     ret tt)
    (fun _ => ret tt).

(** [get_monitoring_stats] *)
Definition get_monitoring_stats (svc : MonitoringService) (env : Env)
    : M (list (string * stat)) :=
  try_except
    (stats <- (fun w => (Ok (get_statistics (current_timestamp env) (db w)), w)) ;;
     let stats := dict_set "is_running"%string (SBool (is_running svc)) stats in
     let stats := dict_set "check_interval"%string (SInt (check_interval svc)) stats in
     ret stats)
    (fun _ => ret []).

End Monitor.
Import Monitor.

(* ================================================================== *)
(** * main.py: the conversation with the user *)
(* ================================================================== *)

Module Bot.

Local Open Scope string_scope.

(** ** Texts *)

(** [s.startswith(p)] is [prefix_of p s]. *)

(** [s.split(sep)] for a separator of one character. *)
Fixpoint split_on (sep : ascii) (s : string) : list string :=
  match s with
  | EmptyString => [EmptyString]
  | String c rest =>
      if Ascii.eqb c sep then EmptyString :: split_on sep rest
      else match split_on sep rest with
           | part :: parts => String c part :: parts
           | [] => [String c EmptyString]
           end
  end.

(** [s.replace(old, '')] for a text [old] that is not empty: the
    occurrences of [old] are removed from left to right; [skip] counts
    the characters of an occurrence still to be dropped. *)
Fixpoint remove_from (old : string) (skip : nat) (s : string) : string :=
  match s with
  | EmptyString => EmptyString
  | String c rest =>
      match skip with
      | S k => remove_from old k rest
      | O =>
          if prefix_of old s
          then remove_from old (String.length old - 1) rest
          else String c (remove_from old 0 rest)
      end
  end.

Definition remove_all (old s : string) : string := remove_from old 0 s.

(** The blanks [int] skips: space, tab, line feed, vertical tab, form
    feed and carriage return. *)
Definition is_blank (c : ascii) : bool :=
  let n := Z.of_nat (nat_of_ascii c) in
  (n =? 32)%Z || ((9 <=? n)%Z && (n <=? 13)%Z).

Fixpoint lstrip (s : string) : string :=
  match s with
  | String c rest => if is_blank c then lstrip rest else s
  | EmptyString => EmptyString
  end.

Fixpoint rstrip (s : string) : string :=
  match s with
  | String c rest =>
      match rstrip rest with
      | EmptyString => if is_blank c then EmptyString else String c EmptyString
      | rest' => String c rest'
      end
  | EmptyString => EmptyString
  end.

(** [int(s)] on ASCII text: blanks around an optional sign and decimal
    digits; anything else raises [ValueError]. (Python also reads the
    decimal digits and blanks of other scripts, and underscores between
    digits.) *)
Definition py_int (s : string) : res Z :=
  let t := rstrip (lstrip s) in
  let parsed :=
    match t with
    | String c digits =>
        if Ascii.eqb c "+"
        then option_map Decimal.Pos (NilZero.uint_of_string digits)
        else NilZero.int_of_string t
    | EmptyString => None
    end in
  match parsed with
  | Some d => Ok (Z.of_int d)
  | None => Raise (ValueError "invalid literal for int() with base 10")
  end.

(** [datetime < date]: Python orders a [datetime] against a [date] that
    is not a [datetime] by raising [TypeError]. *)
Definition datetime_lt_date (a : date) (b : date) : res bool :=
  Raise (Exception "can't compare datetime.datetime to datetime.date").

(** ** Updates and replies *)

(** [update.effective_user], [query.from_user] *)
Record tg_user : Type := mk_tg_user {
  tu_id : Z;
  tu_first_name : string
}.

(** The updates the handlers are registered for: the four commands, a
    text that is not a command, and the press of an inline button. *)
Inductive update : Type :=
  | CmdStart (user : tg_user)
  | CmdHelp (user : tg_user)
  | CmdMySubscriptions (user : tg_user)
  | CmdStats (user : tg_user)
  | TextMessage (user : tg_user) (text : string)
  | CallbackQuery (user : tg_user) (data : string).

Definition effective_user (u : update) : tg_user :=
  match u with
  | CmdStart user | CmdHelp user | CmdMySubscriptions user | CmdStats user
  | TextMessage user _ | CallbackQuery user _ => user
  end.

(** [InlineKeyboardButton(label, callback_data=...)] *)
Record button : Type := mk_button {
  label : string;
  callback_data : string
}.

(** A message Telegram accepted: a reply, or the edit of the message a
    button belongs to. *)
Record reply : Type := mk_reply {
  r_to : Z;
  r_edit : bool;
  r_text : string;
  r_keyboard : list (list button)
}.

(** What the handlers reach outside the bot during one update. *)
Record BotEnv : Type := mk_bot_env {
  monitor_env : Env;                      (* the environment of the monitoring service *)
  reply_text : update -> string -> list (list button) -> res unit;
                                          (* update.message.reply_text *)
  edit_message_text : update -> string -> list (list button) -> res unit;
                                          (* query.edit_message_text *)
  answer : update -> res unit;            (* query.answer *)
  str_strip : string -> string;           (* str.strip *)
  strptime_format : string -> string -> res date;
                                          (* datetime.strptime(text, format) *)
  strftime_ymd : date -> string;          (* _.strftime('%Y-%m-%d') *)
  search_trains : string -> string -> string -> res (list RZDParser.train);
                                          (* self.parser.search_trains *)
  timestamp_text : Z -> string            (* the text of a TIMESTAMP column *)
}.

(** ** The state of the bot *)

(** [user_states[user_id]['data']]: its keys are the five the handlers
    write. *)
Record user_data : Type := mk_user_data {
  ud_departure_station : option string;
  ud_arrival_station : option string;
  ud_departure_date : option string;
  ud_selected_train : option RZDParser.train;
  ud_seat_type : option string
}.

Definition empty_data : user_data := mk_user_data None None None None None.

(** [user_states[user_id]] *)
Record user_state : Type := mk_user_state {
  us_state : string;
  us_data : user_data
}.

Record BotState : Type := mk_bot {
  user_states : list (Z * user_state);
  world : World;
  outbox : list reply
}.

Fixpoint states_get (user_id : Z) (states : list (Z * user_state)) : option user_state :=
  match states with
  | [] => None
  | (k, v) :: rest => if (k =? user_id)%Z then Some v else states_get user_id rest
  end.

Fixpoint states_set (user_id : Z) (v : user_state) (states : list (Z * user_state))
  : list (Z * user_state) :=
  match states with
  | [] => [(user_id, v)]
  | (k, v') :: rest =>
      if (k =? user_id)%Z then (k, v) :: rest else (k, v') :: states_set user_id v rest
  end.

(** Handlers change the state of the bot and return or raise. *)
Definition B (A : Type) : Type := BotState -> res A * BotState.

Definition bret {A : Type} (a : A) : B A := fun st => (Ok a, st).

Definition bbind {A C : Type} (m : B A) (k : A -> B C) : B C :=
  fun st =>
    match m st with
    | (Ok a, st') => k a st'
    | (Raise e, st') => (Raise e, st')
    end.

Declare Scope bot_scope.
Notation "x <- m ;; k" := (bbind m (fun x => k))
    (at level 61, m at next level, right associativity) : bot_scope.
Local Open Scope bot_scope.

(** [try: m  except Exception as e: h e] *)
Definition btry {A : Type} (m : B A) (h : exn -> B A) : B A :=
  fun st =>
    match m st with
    | (Ok a, st') => (Ok a, st')
    | (Raise e, st') => h e st'
    end.

(** [try: m  except ValueError: h] *)
Definition btry_value_error {A : Type} (m : B A) (h : B A) : B A :=
  fun st =>
    match m st with
    | (Raise (ValueError _), st') => h st'
    | other => other
    end.

Definition braise {A : Type} (e : exn) : B A := fun st => (Raise e, st).

Definition blift {A : Type} (r : res A) : B A := fun st => (r, st).

(** A coroutine of the monitoring service or a method of the store. *)
Definition in_world {A : Type} (m : M A) : B A :=
  fun st =>
    let (r, w') := m (world st) in
    (r, mk_bot (user_states st) w' (outbox st)).

Definition db_read {A : Type} (f : Database -> A) : B A :=
  fun st => (Ok (f (db (world st))), st).

Definition db_write {A : Type} (op : Database -> A * Database) : B A :=
  fun st =>
    let (a, d') := op (db (world st)) in
    (Ok a, mk_bot (user_states st)
                  (mk_world d' (sent (world st)) (trace (world st)))
                  (outbox st)).

Definition send (edit : bool) (r : res unit) (u : update) (text : string)
             (keyboard : list (list button)) : B unit :=
  fun st =>
    match r with
    | Ok _ =>
        (Ok tt, mk_bot (user_states st) (world st)
                       (outbox st ++ [mk_reply (tu_id (effective_user u)) edit
                                               text keyboard])%list)
    | Raise e => (Raise e, st)
    end.

(** [await update.message.reply_text(text, reply_markup=keyboard)] *)
Definition call_reply_text (env : BotEnv) (u : update) (text : string)
             (keyboard : list (list button)) : B unit :=
  send false (reply_text env u text keyboard) u text keyboard.

(** [await query.edit_message_text(text, reply_markup=keyboard)] *)
Definition call_edit_message_text (env : BotEnv) (u : update) (text : string)
             (keyboard : list (list button)) : B unit :=
  send true (edit_message_text env u text keyboard) u text keyboard.

(** [self.user_states[user_id] = v] *)
Definition set_user_state (user_id : Z) (v : user_state) : B unit :=
  fun st =>
    (Ok tt, mk_bot (states_set user_id v (user_states st)) (world st) (outbox st)).

(** [self.user_states.get(user_id, {})] *)
Definition get_user_state (user_id : Z) : B (option user_state) :=
  fun st => (Ok (states_get user_id (user_states st)), st).

(** [_['data']] of the dictionary of a user: a [KeyError] when the user
    has none. *)
Definition data_of (user_state : option user_state) : res user_data :=
  match user_state with
  | Some s => Ok (us_data s)
  | None => Raise (Exception "'data'")
  end.

(** [self.user_states[user_id]]: a [KeyError] when the user has none. *)
Definition state_of (user_id : Z) : B user_state :=
  fun st =>
    match states_get user_id (user_states st) with
    | Some s => (Ok s, st)
    | None => (Raise (Exception (RZDParser.str_of_int user_id)), st)
    end.

(** An assignment to an entry of the dictionary of a user: the
    dictionary is changed where it is, in [user_states]. *)
Definition update_user_state (user_id : Z) (f : user_state -> user_state) : B unit :=
  fun st =>
    match states_get user_id (user_states st) with
    | Some s =>
        (Ok tt, mk_bot (states_set user_id (f s) (user_states st))
                       (world st) (outbox st))
    | None => (Ok tt, st)
    end.

Definition set_data (f : user_data -> user_data) (s : user_state) : user_state :=
  mk_user_state (us_state s) (f (us_data s)).

Definition set_state (state : string) (s : user_state) : user_state :=
  mk_user_state state (us_data s).

Definition idle : user_state := mk_user_state "idle" empty_data.

(** ** The handlers *)

(** [start_command] *)
Definition start_command (env : BotEnv) (u : update) : B unit :=
  let user := effective_user u in
  let welcome_text :=
    "🚂 Добро пожаловать, " ++ tu_first_name user ++ "!" ++ nl ++ nl
    ++ "Я помогу вам найти и отслеживать свободные места на поездах РЖД." ++ nl ++ nl
    ++ "Для начала работы введите станцию отправления:" in
  let keyboard :=
    [[mk_button "📋 Мои подписки" "my_subscriptions"];
     [mk_button "❓ Помощь" "help"]] in
  _ <- call_reply_text env u welcome_text keyboard ;;
  set_user_state (tu_id user) (mk_user_state "waiting_departure" empty_data).

(** [help_command] *)
Definition help_command (env : BotEnv) (u : update) : B unit :=
  let help_text :=
    "🚂 Помощь по использованию бота РЖД" ++ nl ++ nl
    ++ "📝 Как пользоваться:" ++ nl
    ++ "1. Введите станцию отправления" ++ nl
    ++ "2. Введите станцию прибытия" ++ nl
    ++ "3. Выберите дату поездки" ++ nl
    ++ "4. Выберите поезд и тип места" ++ nl
    ++ "5. Бот начнет мониторинг и уведомит о свободных местах" ++ nl ++ nl
    ++ "🔍 Команды:" ++ nl
    ++ "/start - начать работу" ++ nl
    ++ "/my_subscriptions - мои подписки" ++ nl
    ++ "/stats - статистика мониторинга" ++ nl
    ++ "/help - эта справка" ++ nl ++ nl
    ++ "💡 Совет: Используйте полные названия станций для лучших результатов" in
  call_reply_text env u help_text [[mk_button "🔙 Назад" "back_to_start"]].

(** The loop of [my_subscriptions_command] over the subscriptions. *)
Definition subscription_lines (env : BotEnv) (sub : subscription_row) : string :=
  "🚂 " ++ train_number sub ++ " (" ++ departure_station sub ++ " → "
  ++ arrival_station sub ++ ")" ++ nl
  ++ "📅 " ++ departure_date sub ++ nl
  ++ "🛏️ " ++ seat_type sub ++ " (" ++ berth_position sub ++ ")" ++ nl
  ++ "⏰ Создана: " ++ timestamp_text env (created_at sub) ++ nl ++ nl.

Definition delete_button (sub : subscription_row) : list button :=
  [mk_button ("❌ Удалить " ++ train_number sub)
             ("delete_sub_" ++ RZDParser.str_of_int (sub_id sub))].

(** [my_subscriptions_command] *)
Definition my_subscriptions_command (env : BotEnv) (u : update) : B unit :=
  let user_id := tu_id (effective_user u) in
  subscriptions <- db_read (get_user_subscriptions user_id) ;;
  match subscriptions with
  | [] =>
      call_reply_text env u "📋 У вас пока нет активных подписок"
                      [[mk_button "🔙 Назад" "back_to_start"]]
  | _ :: _ =>
      let text :=
        fold_left (fun text sub => text ++ subscription_lines env sub) subscriptions
                  ("📋 Ваши активные подписки:" ++ nl ++ nl) in
      let keyboard :=
        (map delete_button subscriptions
         ++ [[mk_button "🔙 Назад" "back_to_start"]])%list in
      call_reply_text env u text keyboard
  end.

(** [stats.get(k, 0)] inside an f-string. *)
Definition stat_text (k : string) (stats : list (string * stat)) : string :=
  match dict_get k stats with
  | Some (SInt n) => RZDParser.str_of_int n
  | Some (SBool true) => "True"
  | Some (SBool false) => "False"
  | None => "0"
  end.

(** [stats.get('is_running', False)] as a condition. *)
Definition stat_truthy (k : string) (stats : list (string * stat)) : bool :=
  match dict_get k stats with
  | Some (SInt n) => negb (n =? 0)%Z
  | Some (SBool b) => b
  | None => false
  end.

(** [stats_command] *)
Definition stats_command (svc : MonitoringService) (env : BotEnv) (u : update)
    : B unit :=
  btry
    (stats <- in_world (get_monitoring_stats svc (monitor_env env)) ;;
     let text :=
       "📊 Статистика мониторинга:" ++ nl ++ nl
       ++ "👥 Всего пользователей: " ++ stat_text "total_users" stats ++ nl
       ++ "📋 Активных подписок: " ++ stat_text "active_subscriptions" stats ++ nl
       ++ "🔔 Уведомлений за 24ч: " ++ stat_text "notifications_24h" stats ++ nl
       ++ "🔄 Мониторинг работает: "
       ++ (if stat_truthy "is_running" stats then "✅ Да" else "❌ Нет") ++ nl
       ++ "⏰ Интервал проверки: " ++ stat_text "check_interval" stats ++ " сек" in
     call_reply_text env u text [])
    (fun _ => call_reply_text env u "❌ Ошибка при получении статистики" []).

(** [_create_subscription] *)
Definition _create_subscription (svc : MonitoringService) (env : BotEnv)
             (u : update) (seat_type berth_position : string) : B unit :=
  let user_id := tu_id (effective_user u) in
  user_state <- get_user_state user_id ;;
  let user_data :=
    match user_state with
    | Some s => us_data s
    | None => empty_data
    end in
  let departure_station := ud_departure_station user_data in
  let arrival_station := ud_arrival_station user_data in
  let departure_date := ud_departure_date user_data in
  let train_info := ud_selected_train user_data in
  match departure_station, arrival_station, departure_date, train_info with
  | Some departure_station, Some arrival_station, Some departure_date, Some train_info =>
      if String.eqb departure_station "" || String.eqb arrival_station ""
         || String.eqb departure_date ""
      then call_edit_message_text env u "❌ Ошибка: не все данные заполнены" []
      else
        subscription_id <-
          db_write (create_subscription (current_timestamp (monitor_env env)) user_id
                      departure_station arrival_station departure_date
                      (RZDParser.number train_info) seat_type berth_position) ;;
        _ <- in_world (start_monitoring svc (monitor_env env) subscription_id) ;;
        _ <- call_edit_message_text env u
               ("✅ Подписка создана!" ++ nl ++ nl
                ++ "🚂 Поезд: " ++ RZDParser.number train_info ++ nl
                ++ "📍 Маршрут: " ++ departure_station ++ " → " ++ arrival_station ++ nl
                ++ "📅 Дата: " ++ departure_date ++ nl
                ++ "🛏️ Место: " ++ seat_type ++ " (" ++ berth_position ++ ")" ++ nl ++ nl
                ++ "🔍 Мониторинг запущен! Я уведомлю вас, когда найду свободные места!"
                ++ nl ++ nl
                ++ "💡 Для создания новой подписки используйте /start") [] ;;
        set_user_state user_id idle
  | _, _, _, _ => call_edit_message_text env u "❌ Ошибка: не все данные заполнены" []
  end.

(** [_handle_train_selection] *)
Definition _handle_train_selection (env : BotEnv) (u : update) (data : string)
    : B unit :=
  let train_data := remove_all "select_train_" data in
  let train_info := split_on "|" train_data in
  let user_id := tu_id (effective_user u) in
  user_state <- get_user_state user_id ;;
  match train_info with
  | number :: departure_time :: arrival_time :: duration :: _ =>
      _ <- blift (data_of user_state) ;;
      _ <- update_user_state user_id
             (set_data (fun d =>
                mk_user_data (ud_departure_station d) (ud_arrival_station d)
                             (ud_departure_date d)
                             (Some (RZDParser.mk_train number departure_time
                                                        arrival_time duration))
                             (ud_seat_type d))) ;;
      call_edit_message_text env u
        ("🚂 Выбран поезд " ++ number ++ nl
         ++ "⏰ " ++ departure_time ++ " → " ++ arrival_time
         ++ " (" ++ duration ++ ")" ++ nl ++ nl
         ++ "Выберите тип места:")
        [[mk_button "🛏️ Плацкарт" "select_seat_плацкарт"];
         [mk_button "🚪 Купе" "select_seat_купе"];
         [mk_button "🏠 СВ" "select_seat_св"];
         [mk_button "🔙 Назад" "back_to_start"]]
  | _ => braise (Exception "list index out of range")
  end.

(** [_handle_seat_selection] *)
Definition _handle_seat_selection (svc : MonitoringService) (env : BotEnv)
             (u : update) (data : string) : B unit :=
  let seat_type := remove_all "select_seat_" data in
  let user_id := tu_id (effective_user u) in
  user_state <- get_user_state user_id ;;
  _ <- blift (data_of user_state) ;;
  _ <- update_user_state user_id
         (set_data (fun d =>
            mk_user_data (ud_departure_station d) (ud_arrival_station d)
                         (ud_departure_date d) (ud_selected_train d)
                         (Some seat_type))) ;;
  if String.eqb seat_type "купе"
  then
    call_edit_message_text env u
      ("🛏️ Выбран тип места: " ++ seat_type ++ nl ++ nl ++ "Выберите полку:")
      [[mk_button "⬆️ Верхняя полка" "select_berth_верхняя"];
       [mk_button "⬇️ Нижняя полка" "select_berth_нижняя"];
       [mk_button "🔙 Назад" "back_to_start"]]
  else _create_subscription svc env u seat_type "любая".

(** [_handle_berth_selection] *)
Definition _handle_berth_selection (svc : MonitoringService) (env : BotEnv)
             (u : update) (data : string) : B unit :=
  let berth_position := remove_all "select_berth_" data in
  let user_id := tu_id (effective_user u) in
  user_state <- get_user_state user_id ;;
  user_data <- blift (data_of user_state) ;;
  let seat_type :=
    match ud_seat_type user_data with
    | Some seat_type => seat_type
    | None => "купе"
    end in
  _create_subscription svc env u seat_type berth_position.

(** [button_callback] *)
Definition button_callback (svc : MonitoringService) (env : BotEnv) (u : update)
             (data : string) : B unit :=
  _ <- blift (answer env u) ;;
  if String.eqb data "back_to_start" then start_command env u
  else if String.eqb data "help" then help_command env u
  else if String.eqb data "my_subscriptions" then my_subscriptions_command env u
  else if prefix_of "delete_sub_" data then
    match nth_error (split_on "_" data) 2 with
    | Some part =>
        sub_id <- blift (py_int part) ;;
        _ <- db_write (delete_subscription sub_id) ;;
        call_edit_message_text env u "✅ Подписка удалена" []
    | None => braise (Exception "list index out of range")
    end
  else if prefix_of "select_train_" data then _handle_train_selection env u data
  else if prefix_of "select_seat_" data then _handle_seat_selection svc env u data
  else if prefix_of "select_berth_" data then _handle_berth_selection svc env u data
  else bret tt.

(** The loop of [_search_trains] over the first ten trains. *)
Definition train_lines (train : RZDParser.train) : string :=
  "🚂 " ++ RZDParser.number train ++ nl
  ++ "⏰ " ++ RZDParser.departure_time train ++ " → "
  ++ RZDParser.arrival_time train ++ nl
  ++ "⏱️ В пути: " ++ RZDParser.duration train ++ nl ++ nl.

Definition train_button (train : RZDParser.train) : list button :=
  [mk_button ("Выбрать " ++ RZDParser.number train)
             ("select_train_" ++ RZDParser.number train
              ++ "|" ++ RZDParser.departure_time train
              ++ "|" ++ RZDParser.arrival_time train
              ++ "|" ++ RZDParser.duration train)].

(** An entry of [user_data] read with [user_data[k]]: a [KeyError] when
    it is missing. *)
Definition entry (k : string) (o : option string) : res string :=
  match o with
  | Some v => Ok v
  | None => Raise (Exception ("'" ++ k ++ "'"))
  end.

(** [_search_trains] *)
Definition _search_trains (env : BotEnv) (u : update) (user_id : Z) : B unit :=
  user_state <- state_of user_id ;;
  let user_data := us_data user_state in
  _ <- call_reply_text env u "🔍 Ищу поезда..." [] ;;
  btry
    (departure_station <- blift (entry "departure_station"
                                       (ud_departure_station user_data)) ;;
     arrival_station <- blift (entry "arrival_station" (ud_arrival_station user_data)) ;;
     departure_date <- blift (entry "departure_date" (ud_departure_date user_data)) ;;
     trains <- blift (search_trains env departure_station arrival_station
                                    departure_date) ;;
     match trains with
     | [] =>
         _ <- call_reply_text env u
                "❌ Поезда по данному маршруту не найдены. Попробуйте другой маршрут."
                [] ;;
         set_user_state user_id idle
     | _ :: _ =>
         let text :=
           fold_left (fun text train => text ++ train_lines train) (firstn 10 trains)
                     ("🚂 Найдено поездов: "
                      ++ RZDParser.str_of_int (Z.of_nat (List.length trains))
                      ++ nl ++ nl) in
         let keyboard :=
           (map train_button (firstn 10 trains)
            ++ [[mk_button "🔙 Начать заново" "back_to_start"]])%list in
         call_reply_text env u text keyboard
     end)
    (fun _ =>
       _ <- call_reply_text env u
              "❌ Произошла ошибка при поиске поездов. Попробуйте позже." [] ;;
       set_user_state user_id idle).

(** [_handle_departure_station] *)
Definition _handle_departure_station (env : BotEnv) (u : update) (text : string)
    : B unit :=
  let user_id := tu_id (effective_user u) in
  _ <- state_of user_id ;;
  _ <- update_user_state user_id
         (set_data (fun d =>
            mk_user_data (Some text) (ud_arrival_station d) (ud_departure_date d)
                         (ud_selected_train d) (ud_seat_type d))) ;;
  _ <- update_user_state user_id (set_state "waiting_arrival") ;;
  call_reply_text env u
    ("📍 Станция отправления: " ++ text ++ nl ++ nl
     ++ "Теперь введите станцию прибытия:") [].

(** [_handle_arrival_station] *)
Definition _handle_arrival_station (env : BotEnv) (u : update) (text : string)
    : B unit :=
  let user_id := tu_id (effective_user u) in
  _ <- state_of user_id ;;
  _ <- update_user_state user_id
         (set_data (fun d =>
            mk_user_data (ud_departure_station d) (Some text) (ud_departure_date d)
                         (ud_selected_train d) (ud_seat_type d))) ;;
  _ <- update_user_state user_id (set_state "waiting_date") ;;
  user_state <- state_of user_id ;;
  departure_station <- blift (entry "departure_station"
                                     (ud_departure_station (us_data user_state))) ;;
  call_reply_text env u
    ("📍 Маршрут: " ++ departure_station ++ " → " ++ text ++ nl ++ nl
     ++ "Введите дату поездки в формате ДД.ММ.ГГГГ (например, 15.12.2024):") [].

(** [_handle_date_selection] *)
Definition _handle_date_selection (env : BotEnv) (u : update) (text : string)
    : B unit :=
  let user_id := tu_id (effective_user u) in
  btry_value_error
    (parsed <- blift (strptime_format env text "%d.%m.%Y") ;;
     let departure_date := strftime_ymd env parsed in
     departure <- blift (strptime_format env departure_date "%Y-%m-%d") ;;
     in_the_past <- blift (datetime_lt_date departure (today (monitor_env env))) ;;
     if (in_the_past : bool)
     then call_reply_text env u
            "❌ Дата не может быть в прошлом. Введите корректную дату:" []
     else
       _ <- state_of user_id ;;
       _ <- update_user_state user_id
              (set_data (fun d =>
                 mk_user_data (ud_departure_station d) (ud_arrival_station d)
                              (Some departure_date) (ud_selected_train d)
                              (ud_seat_type d))) ;;
       _search_trains env u user_id)
    (call_reply_text env u
       "❌ Неверный формат даты. Введите дату в формате ДД.ММ.ГГГГ:" []).

(** [handle_message] *)
Definition handle_message (env : BotEnv) (u : update) (message_text : string)
    : B unit :=
  let user_id := tu_id (effective_user u) in
  let text := str_strip env message_text in
  user_state <- get_user_state user_id ;;
  let current_state :=
    match user_state with
    | Some s => us_state s
    | None => "idle"
    end in
  if String.eqb current_state "waiting_departure"
  then _handle_departure_station env u text
  else if String.eqb current_state "waiting_arrival"
  then _handle_arrival_station env u text
  else if String.eqb current_state "waiting_date"
  then _handle_date_selection env u text
  else call_reply_text env u
         "Не понимаю команду. Используйте /start для начала работы." [].

(** The handler the application calls for an update. *)
Definition handler (svc : MonitoringService) (env : BotEnv) (u : update) : B unit :=
  match u with
  | CmdStart _ => start_command env u
  | CmdHelp _ => help_command env u
  | CmdMySubscriptions _ => my_subscriptions_command env u
  | CmdStats _ => stats_command svc env u
  | TextMessage _ text => handle_message env u text
  | CallbackQuery _ data => button_callback svc env u data
  end.

(** What happens while the bot runs: an update arrives, or the
    monitoring service runs a cycle; each is dealt with from beginning to
    end before the next. The application logs an exception of a handler
    and goes on. *)
Inductive action : Type :=
  | Update (env : BotEnv) (u : update)
  | Cycle (env : Env).

Definition perform (svc : MonitoringService) (st : BotState) (a : action) : BotState :=
  match a with
  | Update env u => snd (handler svc env u st)
  | Cycle env =>
      mk_bot (user_states st)
             (snd (run_cycles svc [env] (world st)))
             (outbox st)
  end.

Definition run_bot (svc : MonitoringService) (actions : list action) (st : BotState)
    : BotState :=
  fold_left (perform svc) actions st.

(** [RZDBot.__init__] over the store [d]. *)
Definition init_bot (d : Database) : BotState := mk_bot [] (mk_world d [] []) [].

End Bot.

(* ================================================================== *)
(** * Vocabulary of the properties *)
(* ================================================================== *)

(** The (user, route, date, train, class, berth) tuple of a row. *)
Definition has_tuple (user : Z) (dep arr date train seat berth : string)
             (r : subscription_row) : Prop :=
  user_id r = user /\ departure_station r = dep /\ arrival_station r = arr
  /\ departure_date r = date /\ train_number r = train /\ seat_type r = seat
  /\ berth_position r = berth.

(** The constraints SQLite enforces on the keys: [subscriptions.id] is the
    primary key and [users.telegram_id] is [UNIQUE]. *)
Definition keys_unique (d : Database) : Prop :=
  NoDup (map sub_id (subscriptions d)) /\ NoDup (map telegram_id (users d)).

(** The integers SQLite stores. For a parameter outside this range the
    [sqlite3] module raises [OverflowError] before the statement runs;
    the methods of [Database] catch it, write nothing and return [False]
    or [None]. *)
Definition sqlite_integer (z : Z) : Prop := - 2 ^ 63 <= z < 2 ^ 63.

(** A date written in the format [%Y-%m-%d]. The column
    [subscriptions.departure_date] is declared [DATE], which gives it
    numeric affinity: a text that reads as a number is stored, compared
    and read back as that number, every other text as it was passed. A
    date in this format has a [-] after its year, so it is kept as text,
    and the comparison of [same_subscription] and the [departure_date] of
    a row are those of the database. *)
Definition iso_date (text : string) : Prop :=
  exists d, strptime_ymd text = Ok d.

(** A row without its last-checked time. *)
Definition untimed (r : subscription_row) : subscription_row :=
  mk_subscription (sub_id r) (user_id r) (departure_station r) (arrival_station r)
                  (departure_date r) (train_number r) (seat_type r) (berth_position r)
                  (is_active r) (created_at r) None.

(** Two states of the store with the same users and the same
    subscriptions up to last-checked times. *)
Definition same_rows (d d' : Database) : Prop :=
  map untimed (subscriptions d') = map untimed (subscriptions d)
  /\ users d' = users d.

Definition untimed_s (s : subscription) : subscription :=
  mk_joined (untimed (row s)) (s_telegram_id s) (s_first_name s).

(** The columns of a history row other than its rowid. *)
Definition check_fields (c : check_row) : Z * Z * value * option string :=
  (c_subscription_id c, c_checked_at c, c_seats_available c, c_seats_info c).

(** The [available] entry as [_check_subscription] reads it. *)
Definition available_of (info : dict) : value :=
  dict_get_default "available" (VBool false) info.

(** The verdict of a cycle for a subscription: whether the source
    answered, and answered that seats are available. *)
Definition verdict (env : Env) (s : subscription) : bool :=
  match parser env (query_of s) with
  | Ok info => truthy (available_of info)
  | Raise _ => false
  end.

(** The store after the two writes of a check that got an answer. *)
Definition checked_db (env : Env) (subscription_id : Z) (info : dict)
             (d : Database) : Database :=
  snd (add_check_history (current_timestamp env) subscription_id (available_of info)
         (if dict_truthy info then Some (py_str env info) else None)
         (snd (update_last_checked (current_timestamp env) subscription_id d))).

(** The calls of the notification step of a check. *)
Definition notify_events (svc : MonitoringService) (env : Env)
             (s : subscription) (info : dict) : list event :=
  if truthy (available_of info) && has_bot svc
  then EvSendMessage (sub_id (row s)) (s_telegram_id s)
       :: match bot_send_message env (s_telegram_id s)
                  (_format_notification_message (now_text env) s info) with
          | Ok _ => [EvAddNotification (sub_id (row s))]
          | Raise _ => []
          end
  else [].

(** The calls of one check of a listed subscription. *)
Definition check_events (svc : MonitoringService) (env : Env)
             (s : subscription) : list event :=
  EvGetActiveSubscriptions
  :: EvCheckSeatAvailability (sub_id (row s))
  :: match parser env (query_of s) with
     | Raise _ => []
     | Ok info =>
         EvUpdateLastChecked (sub_id (row s))
         :: EvAddCheckHistory (sub_id (row s)) (available_of info)
         :: notify_events svc env s info
     end.

(** The history entry of one check: none when the source raised. *)
Definition history_entry (env : Env) (s : subscription)
    : list (Z * Z * value * option string) :=
  match parser env (query_of s) with
  | Ok info =>
      [(sub_id (row s), current_timestamp env, available_of info,
        if dict_truthy info then Some (py_str env info) else None)]
  | Raise _ => []
  end.

(** Whether the notification of a check is delivered. *)
Definition delivered (svc : MonitoringService) (env : Env)
             (s : subscription) (info : dict) : bool :=
  truthy (available_of info) && has_bot svc
  && match bot_send_message env (s_telegram_id s)
             (_format_notification_message (now_text env) s info) with
     | Ok _ => true
     | Raise _ => false
     end.

(** The world after one check of a listed subscription. *)
Definition checked_world (svc : MonitoringService) (env : Env)
             (s : subscription) (w : World) : World :=
  match parser env (query_of s) with
  | Raise _ => mk_world (db w) (sent w) (trace w ++ check_events svc env s)
  | Ok info =>
      let d := checked_db env (sub_id (row s)) info (db w) in
      let message := _format_notification_message (now_text env) s info in
      if delivered svc env s info
      then mk_world (snd (add_notification (current_timestamp env) (sub_id (row s))
                                           message d))
                    (sent w ++ [(s_telegram_id s, message)])
                    (trace w ++ check_events svc env s)
      else mk_world d (sent w) (trace w ++ check_events svc env s)
  end.

Definition is_dispatch (id : Z) (e : event) : bool :=
  match e with
  | EvSendMessage i _ => i =? id
  | _ => false
  end.

Definition is_probe (id : Z) (e : event) : bool :=
  match e with
  | EvCheckSeatAvailability i => i =? id
  | _ => false
  end.

Definition is_history (id : Z) (e : event) : bool :=
  match e with
  | EvAddCheckHistory i _ => i =? id
  | _ => false
  end.

Definition is_touch (id : Z) (e : event) : bool :=
  match e with
  | EvUpdateLastChecked i => i =? id
  | _ => false
  end.

(** The subscription a call is made for. *)
Definition event_subscription (e : event) : option Z :=
  match e with
  | EvGetActiveSubscriptions => None
  | EvCheckSeatAvailability i | EvUpdateLastChecked i | EvAddCheckHistory i _
  | EvSendMessage i _ | EvAddNotification i | EvDeactivateSubscription i => Some i
  end.

Definition count_events (p : event -> bool) (tr : list event) : nat :=
  List.length (filter p tr).

(** Position of the first call satisfying [p]. *)
Fixpoint position (p : event -> bool) (tr : list event) : option nat :=
  match tr with
  | [] => None
  | e :: rest => if p e then Some O else option_map S (position p rest)
  end.

(** Some call satisfying [p] is made, and before the first call
    satisfying [q]. *)
Definition precedes (p q : event -> bool) (tr : list event) : bool :=
  match position p tr, position q tr with
  | Some i, Some j => Nat.ltb i j
  | _, _ => false
  end.

(** The history rows written between two worlds. *)
Definition new_history (w w' : World) : list check_row :=
  skipn (List.length (check_history (db w))) (check_history (db w')).

(** The history holds the entry of a probe of [s] that was answered with
    [info]. *)
Definition recorded (rows : list check_row) (s : subscription) (info : dict) : Prop :=
  exists c, In c rows /\ c_subscription_id c = sub_id (row s)
            /\ c_seats_available c = available_of info.

(** What holds of the task of the listed subscription [s] at each of its
    waiting points, given the calls [evs] and the history rows [rows] of
    the cycle so far. *)
Definition task_inv (env : Env) (evs : list event) (rows : list check_row)
             (s : subscription) (t : task) : Prop :=
  let probed := In (EvCheckSeatAvailability (sub_id (row s))) evs in
  match t with
  | AtListing id => id = sub_id (row s)
  | AtProbe s' => untimed_s s' = untimed_s s
  | AtTouch s' info | AtHistory s' info =>
      untimed_s s' = untimed_s s /\ parser env (query_of s) = Ok info /\ probed
  | AtSend s' info =>
      untimed_s s' = untimed_s s /\ parser env (query_of s) = Ok info /\ probed
      /\ recorded rows s info
  | AtNotification s' _ =>
      untimed_s s' = untimed_s s /\ probed
      /\ forall info, parser env (query_of s) = Ok info -> recorded rows s info
  | Finished =>
      probed
      /\ forall info, parser env (query_of s) = Ok info -> recorded rows s info
  end.

(** Every task is resumed at least [n] times. *)
Definition resumes_each (n : nat) (tasks : nat) (schedule : list nat) : Prop :=
  forall i, (i < tasks)%nat -> (n <= count_occ Nat.eq_dec schedule i)%nat.

(** The schedule that resumes each of [n] tasks six times before it
    resumes the next. *)
Definition sequential (n : nat) : list nat :=
  flat_map (fun i => repeat i 6) (seq 0 n).

(** A schedule that takes two tasks in turns. *)
Definition in_turns : list nat := [0; 1; 0; 1; 0; 1; 0; 1; 0; 1; 0; 1]%nat.

(** The calls made between two worlds. *)
Definition new_events (w w' : World) : list event :=
  skipn (List.length (trace w)) (trace w').

(** The order of the calls of a check as the specification lists them:
    verdict, history entry, last-checked time, and then the notification
    if there is one. *)
Definition spec_order (id : Z) (evs : list event) : bool :=
  precedes (is_probe id) (is_history id) evs
  && precedes (is_history id) (is_touch id) evs
  && (Nat.eqb (count_events (is_dispatch id) evs) 0
      || precedes (is_touch id) (is_dispatch id) evs).

(** The order with the two writes exchanged: verdict, last-checked time,
    history entry, and then the notification if there is one. *)
Definition code_order (id : Z) (evs : list event) : bool :=
  precedes (is_probe id) (is_touch id) evs
  && precedes (is_touch id) (is_history id) evs
  && (Nat.eqb (count_events (is_dispatch id) evs) 0
      || precedes (is_history id) (is_dispatch id) evs).

(** The cycles, counted from [i], during which a notification for the
    subscription is dispatched. *)
Fixpoint notified_cycles (svc : MonitoringService) (id : Z) (i : nat)
           (envs : list Env) (w : World) : list nat :=
  match envs with
  | [] => []
  | env :: rest =>
      let w' := snd (_check_all_subscriptions svc env w) in
      (if Nat.ltb (count_events (is_dispatch id) (trace w))
                  (count_events (is_dispatch id) (trace w'))
       then [i] else [])
      ++ notified_cycles svc id (S i) rest w'
  end.

(** The positions, counted from [i], of the [true] entries. *)
Fixpoint true_indices (i : nat) (vs : list bool) : list nat :=
  match vs with
  | [] => []
  | v :: rest => (if v then [i] else []) ++ true_indices (S i) rest
  end.

(** A piece of text occurs inside another. *)
Definition occurs_in (piece whole : string) : Prop :=
  exists before after : string, whole = (before ++ piece ++ after)%string.

(** The departure date of a listed subscription reads as a date before
    today. *)
Definition past (env : Env) (r : subscription_row) : bool :=
  match strptime env (departure_date r) with
  | Ok d => date_ltb d (today env)
  | Raise _ => false
  end.

(** The row is listed by [get_active_subscriptions]: it is active and its
    user has a row in [users]. *)
Definition listed (d : Database) (r : subscription_row) : bool :=
  is_active r && existsb (fun u => user_id r =? telegram_id u) (users d).

(** The invariant of the data model: no two active subscriptions with the
    same tuple. *)
Definition one_active_per_tuple (d : Database) : Prop :=
  forall r1 r2,
    In r1 (subscriptions d) -> In r2 (subscriptions d) ->
    is_active r1 = true -> is_active r2 = true ->
    has_tuple (user_id r1) (departure_station r1) (arrival_station r1)
              (departure_date r1) (train_number r1) (seat_type r1)
              (berth_position r1) r2 ->
    sub_id r1 = sub_id r2.

(** The result of a probe that failed inside the adapter: "not
    available", with an [error] entry. *)
Definition failed (d : dict) : Prop :=
  dict_get "available" d = Some (VBool false) /\ dict_mem "error" d = true.

(** The blocks [_parse_seat_availability] examines: those of the first
    selector that selects any and, when none does, the parents of the
    texts that mention a seat, a car or a price. *)
Definition seat_blocks (page : RZDParser.soup) : res (list RZDParser.block) :=
  res_bind (RZDParser.select_first page RZDParser.seat_selectors)
    (fun blocks =>
       match blocks with
       | [] => RZDParser.s_find_all_text_parents page
       | _ :: _ => Ok blocks
       end).

(** The result of [_parse_seat_availability] for a page whose first
    available block is [b]. *)
Definition seat_found (seat_type berth_position : string) (b : RZDParser.block)
    : dict :=
  [("available"%string, VBool true);
   ("seat_type"%string, VStr seat_type);
   ("berth_position"%string, VStr berth_position);
   ("price"%string, of_opt_str (RZDParser._extract_price b));
   ("car_number"%string, of_opt_str (RZDParser._extract_car_number b));
   ("seat_number"%string, of_opt_str (RZDParser._extract_seat_number b))].

(** The adapter as the source of the monitoring service. *)
Definition rzd_source (net : RZDParser.Net) (q : query) : res dict :=
  RZDParser.check_seat_availability net
    (q_train_number q) (q_departure_station q) (q_arrival_station q)
    (q_departure_date q) (q_seat_type q) (q_berth_position q).

(** The adapter as the search of the bot. *)
Definition rzd_search (snet : RZDParser.SearchNet)
             (departure_station arrival_station departure_date : string)
    : res (list RZDParser.train) :=
  Ok (RZDParser.search_trains snet departure_station arrival_station departure_date).

(** ** The parts of a notification message *)

Local Open Scope string_scope.

(** The part every message starts with: train, route, date and class. *)
Definition message_head (s : subscription) : string :=
  "🎉 <b>Найдены свободные места!</b>" ++ nl ++ nl
  ++ "🚂 <b>Поезд:</b> " ++ train_number (row s) ++ nl
  ++ "📍 <b>Маршрут:</b> " ++ departure_station (row s)
  ++ " → " ++ arrival_station (row s) ++ nl
  ++ "📅 <b>Дата:</b> " ++ departure_date (row s) ++ nl
  ++ "🛏️ <b>Тип места:</b> " ++ seat_type (row s) ++ nl.

(** The part every message ends with: the time of the notification and
    the booking link. *)
Definition message_foot (stamp : string) : string :=
  nl ++ "⏰ <b>Время уведомления:</b> " ++ stamp ++ nl ++ nl
  ++ "🔗 <b>Ссылка для бронирования:</b>" ++ nl
  ++ "https://pass.rzd.ru/tickets/public/ru".

Definition berth_label : string := "🛏️ <b>Полка:</b> ".
Definition price_label : string := "💰 <b>Цена:</b> ".
Definition car_label : string := "🚃 <b>Вагон:</b> ".
Definition seat_label : string := "🪑 <b>Место:</b> ".

(** A labelled line that is there when there is something to show. *)
Definition optional_line (label : string) (shown : option string) : string :=
  match shown with
  | Some t => label ++ t ++ nl
  | None => ""
  end.

(** The berth preference, unless it is "any". *)
Definition berth_shown (s : subscription) : option string :=
  if String.eqb (berth_position (row s)) "любая"
  then None else Some (berth_position (row s)).

(** A detail of the availability result that is present: the key is
    bound to a text that is not empty (or to [True], shown as such);
    [None], an empty text and a missing key count as absent. *)
Definition present (k : string) (info : dict) : option string :=
  match dict_get k info with
  | Some (VStr t) => if String.eqb t "" then None else Some t
  | Some (VBool true) => Some "True"
  | _ => None
  end.

Local Close Scope string_scope.

(** ** Writes to the store, listings and statistics *)

(** The calls to the availability source. *)
Definition is_any_probe (e : event) : bool :=
  match e with
  | EvCheckSeatAvailability _ => true
  | _ => false
  end.

(** A call of a method of [Database] that writes. *)
Inductive store_op : Type :=
  | OpAddUser (now tg : Z) (uname fname lname : option string)
  | OpCreateSubscription (now user : Z) (dep arr date train seat berth : string)
  | OpUpdateLastChecked (now id : Z)
  | OpAddCheckHistory (now id : Z) (seats_available : value) (seats_info : option string)
  | OpAddNotification (now id : Z) (message : string)
  | OpDeactivateSubscription (id : Z)
  | OpDeleteSubscription (id : Z)
  | OpCleanupOldData (now : Z) (today : string) (days : Z).

Definition apply_op (op : store_op) (d : Database) : Database :=
  match op with
  | OpAddUser now tg uname fname lname => snd (add_user now tg uname fname lname d)
  | OpCreateSubscription now user dep arr date train seat berth =>
      snd (create_subscription now user dep arr date train seat berth d)
  | OpUpdateLastChecked now id => snd (update_last_checked now id d)
  | OpAddCheckHistory now id seats_available seats_info =>
      snd (add_check_history now id seats_available seats_info d)
  | OpAddNotification now id message => snd (add_notification now id message d)
  | OpDeactivateSubscription id => snd (deactivate_subscription id d)
  | OpDeleteSubscription id => snd (delete_subscription id d)
  | OpCleanupOldData now today days => snd (cleanup_old_data now today days d)
  end.

Definition apply_ops (ops : list store_op) (d : Database) : Database :=
  fold_left (fun d op => apply_op op d) ops d.

(** The recorded sequence value of [subscriptions] is at least every
    rowid in the table. *)
Definition sequence_covers (d : Database) : Prop :=
  forall r, In r (subscriptions d) -> sub_id r <= subscriptions_seq d.

(** ** Deliveries and last-checked times *)

(** The messages a check of [s] delivers: the notification, when the
    source answers "available", the service has a bot and Telegram
    accepts the message. *)
Definition deliveries (svc : MonitoringService) (env : Env) (s : subscription)
    : list (Z * string) :=
  match parser env (query_of s) with
  | Ok info =>
      if delivered svc env s info
      then [(s_telegram_id s, _format_notification_message (now_text env) s info)]
      else []
  | Raise _ => []
  end.

(** The subscription and the text of a notification row. *)
Definition notification_of (n : notification_row) : Z * string :=
  (n_subscription_id n, n_message n).

(** The notifications a check of [s] records: one for each message it
    delivers. *)
Definition records (svc : MonitoringService) (env : Env) (s : subscription)
    : list (Z * string) :=
  map (fun m => (sub_id (row s), snd m)) (deliveries svc env s).

(** What the cycle that started in [w] has delivered and recorded when it
    has reached [w']: the messages Telegram accepted since are those of
    the listed subscriptions for which the source reported seats, and
    the rows added to [notifications] are one for each of them, with the
    identifier of its subscription and the text that was sent; both in
    some order. A service without a bot sends and records nothing. *)
Definition delivered_and_recorded (svc : MonitoringService) (env : Env)
             (w w' : World) : Prop :=
  exists msgs rows,
    sent w' = sent w ++ msgs
    /\ notifications (db w') = notifications (db w) ++ rows
    /\ Permutation msgs (flat_map (deliveries svc env) (get_active_subscriptions (db w)))
    /\ Permutation (map notification_of rows)
                   (flat_map (records svc env) (get_active_subscriptions (db w)))
    /\ (has_bot svc = false -> msgs = [] /\ rows = []).

(** The messages the task of the listed subscription [s] has had
    delivered, and the notifications it has recorded, when it waits at
    [t]. *)
Definition task_sent (svc : MonitoringService) (env : Env) (s : subscription)
             (t : task) : list (Z * string) :=
  match t with
  | AtNotification _ _ | Finished => deliveries svc env s
  | _ => []
  end.

Definition task_recorded (svc : MonitoringService) (env : Env) (s : subscription)
             (t : task) : list (Z * string) :=
  match t with
  | Finished => records svc env s
  | _ => []
  end.

(** What the tasks of a cycle have done together. *)
Definition gathered {A : Type} (f : subscription -> task -> list A)
             (L : list subscription) (tasks : list task) : list A :=
  flat_map (fun st => f (fst st) (snd st)) (combine L tasks).

(** What holds of the task of the listed subscription [s] at each of its
    waiting points, as far as its notification goes. *)
Definition delivery_inv (svc : MonitoringService) (env : Env) (s : subscription)
             (t : task) : Prop :=
  match t with
  | AtListing id => id = sub_id (row s)
  | AtProbe s' => untimed_s s' = untimed_s s
  | AtTouch s' info | AtHistory s' info =>
      untimed_s s' = untimed_s s /\ parser env (query_of s) = Ok info
  | AtSend s' info =>
      untimed_s s' = untimed_s s /\ parser env (query_of s) = Ok info
      /\ truthy (available_of info) && has_bot svc = true
  | AtNotification s' message =>
      untimed_s s' = untimed_s s
      /\ deliveries svc env s = [(s_telegram_id s, message)]
  | Finished => True
  end.

(** The source answers the query of the row. *)
Definition answered (env : Env) (r : subscription_row) : bool :=
  match parser env (query_of (mk_joined r (user_id r) None)) with
  | Ok _ => true
  | Raise _ => false
  end.

(** ** What a run of the bot keeps *)

(** No user has a departure date in the data of the conversation. *)
Definition no_date (states : list (Z * Bot.user_state)) : Prop :=
  forall user_id s,
    Bot.states_get user_id states = Some s ->
    Bot.ud_departure_date (Bot.us_data s) = None.

(** Between two worlds no row was inserted into [subscriptions] or
    [users]: the sequence of [subscriptions] is where it was, and every
    subscription is one that was there, up to its last-checked time. *)
Definition nothing_subscribed (w w' : World) : Prop :=
  users (db w') = users (db w)
  /\ subscriptions_seq (db w') = subscriptions_seq (db w)
  /\ incl (map untimed (subscriptions (db w'))) (map untimed (subscriptions (db w))).

(** Between two worlds the source was not asked and no notification was
    delivered. *)
Definition nothing_monitored (w w' : World) : Prop :=
  count_events is_any_probe (trace w') = count_events is_any_probe (trace w)
  /\ sent w' = sent w.

(** With an empty [users] table the source is not asked and nothing is
    delivered, and the table stays empty. *)
Definition quiet (w w' : World) : Prop :=
  users (db w) = [] -> users (db w') = [] /\ nothing_monitored w w'.

(** What every handler keeps: it stores no departure date and inserts no
    subscription while no user has a departure date, and it is quiet. *)
Definition safe {A : Type} (m : Bot.B A) : Prop :=
  forall st,
    (no_date (Bot.user_states st) ->
     no_date (Bot.user_states (snd (m st)))
     /\ nothing_subscribed (Bot.world st) (Bot.world (snd (m st))))
    /\ quiet (Bot.world st) (Bot.world (snd (m st))).

(** ** Decimal texts *)

(** Every character of the text satisfies [p]. *)
Fixpoint all_chars (p : ascii -> bool) (s : string) : bool :=
  match s with
  | EmptyString => true
  | String c rest => p c && all_chars p rest
  end.

(** A character of the decimal text of an integer. *)
Definition is_decimal (c : ascii) : bool :=
  Ascii.eqb c "-" || match digit c with Some _ => true | None => false end.

(* ================================================================== *)
(** * Example data *)
(* ================================================================== *)

Local Open Scope string_scope.

(** A rendering of dictionaries for the examples, in the manner of
    [str] (for texts without apostrophes). *)
Definition example_repr (v : value) : string :=
  match v with
  | VNone => "None"
  | VBool true => "True"
  | VBool false => "False"
  | VStr s => ("'" ++ s ++ "'")%string
  end.

Definition example_py_str (d : dict) : string :=
  ("{" ++ String.concat ", "
            (map (fun kv => "'" ++ fst kv ++ "': " ++ example_repr (snd kv)) d)
       ++ "}")%string.

(** An environment on 23 May 2025 with the given source and Telegram
    client. *)
Definition example_env (answer : query -> res dict)
             (send : Z -> string -> res unit) : Env :=
  mk_env answer send 1748008800 "23.05.2025 14:00" (mk_date 2025 5 23)
         strptime_ymd example_py_str.

(** A source that gives every query the same verdict. *)
Definition always (available : bool) (q : query) : res dict :=
  Ok [("available", VBool available)].

(** A source that fails for one train and answers "not available" for
    the others. *)
Definition fails_for (train : string) (q : query) : res dict :=
  if String.eqb (q_train_number q) train
  then Raise (Exception "connection reset")
  else Ok [("available", VBool false)].

Definition delivers (chat_id : Z) (text : string) : res unit := Ok tt.

Definition example_service : MonitoringService := init (Some "123456:token").

(** User 42 with one subscription: train 001М Moscow - Kazan on
    1 June 2025, compartment, lower berth. *)
Definition example_db : Database :=
  snd (create_subscription 1747000100 42 "Москва" "Казань" "2025-06-01" "001М"
                           "купе" "нижняя"
         (snd (add_user 1747000000 42 (Some "ivan") (Some "Иван") None empty_db))).

Definition example_world : World := mk_world example_db [] [].

(** The same user with a second subscription, for train 016А. *)
Definition two_subscriptions_db : Database :=
  snd (create_subscription 1747000200 42 "Москва" "Мурманск" "2025-06-02" "016А"
                           "плацкарт" "любая" example_db).

Definition two_subscriptions_world : World := mk_world two_subscriptions_db [] [].

(** A subscription for 22 May 2025 whose user was never added to
    [users]. *)
Definition orphan_db : Database :=
  snd (create_subscription 1747000100 42 "Москва" "Казань" "2025-05-22" "001М"
                           "купе" "нижняя" empty_db).

(** User 42 with a subscription for 22 May 2025 and one for 1 June
    2025. *)
Definition past_db : Database :=
  snd (create_subscription 1747000200 42 "Москва" "Казань" "2025-06-01" "001М"
                           "купе" "нижняя"
         (snd (create_subscription 1747000100 42 "Москва" "Казань" "2025-05-22"
                                   "001М" "купе" "нижняя"
                (snd (add_user 1747000000 42 (Some "ivan") (Some "Иван") None
                               empty_db))))).

(** User 42 with a subscription for 22 May 2025 and a later one whose
    date is not in the format of the cleanup. *)
Definition unparsable_db : Database :=
  snd (create_subscription 1747000200 42 "Москва" "Мурманск" "22.05.2025" "016А"
                           "плацкарт" "любая"
         (snd (create_subscription 1747000100 42 "Москва" "Казань" "2025-05-22" "001М"
                                   "купе" "нижняя"
                (snd (add_user 1747000000 42 (Some "ivan") (Some "Иван") None
                               empty_db))))).

(** A schedule for two tasks: the second runs up to its delivery, the
    first runs to its end, and then the second records its
    notification. *)
Definition late_record : list nat := [1; 1; 1; 1; 1; 0; 0; 0; 0; 0; 0; 1]%nat.

Definition five_verdicts : list bool := [false; true; true; false; true].

(** Five cycles whose source gives these verdicts, with a Telegram
    client that delivers. *)
Definition five_cycles : list Env :=
  map (fun v => example_env (always v) delivers) five_verdicts.

(** The listed form of the subscription of [example_db]. *)
Definition example_subscription : subscription :=
  mk_joined (mk_subscription 1 42 "Москва" "Казань" "2025-06-01" "001М"
                             "купе" "нижняя" true 1747000100 None)
            42 (Some "Иван").

(** The subscription for train 016А of [two_subscriptions_db]. *)
Definition second_subscription : subscription :=
  mk_joined (mk_subscription 2 42 "Москва" "Мурманск" "2025-06-02" "016А"
                             "плацкарт" "любая" true 1747000200 None)
            42 (Some "Иван").

(** Writes after a deletion: a new subscription of user 42, the end of
    subscription 1, and a subscription of a user 7. *)
Definition later_writes : list store_op :=
  [OpCreateSubscription 1747000300 42 "Москва" "Сочи" "2025-07-01" "104В" "св" "любая";
   OpDeactivateSubscription 1;
   OpCreateSubscription 1747000400 7 "Казань" "Москва" "2025-07-02" "002Й"
                        "плацкарт" "любая"].

(** The store of [example_db] with a subscription of user 7, who has no
    row in [users]. *)
Definition mixed_db : Database :=
  snd (create_subscription 1747000200 7 "Казань" "Москва" "2025-07-02" "002Й"
                           "плацкарт" "любая" example_db).

(** User 42 without subscriptions. *)
Definition registered_db : Database :=
  snd (add_user 1747000000 42 (Some "ivan") (Some "Иван") None empty_db).

(** A page without seat blocks, with the given text. *)
Definition text_page (t : string) : RZDParser.soup :=
  RZDParser.mk_soup (fun _ => Ok []) (Ok []) (Ok t).

(** A seat block whose text cannot be read. *)
Definition unreadable_block : RZDParser.block :=
  RZDParser.mk_block (Raise (Exception "'NoneType' object is not callable"))
                     (Ok None) (Ok None) (Ok None).

(** A seat block that reads as a free lower berth in a compartment, in
    car 07 at place 15, and whose price element cannot be read. *)
Definition unpriced_block : RZDParser.block :=
  RZDParser.mk_block (Ok "купе нижняя полка")
                     (Raise (Exception "'NoneType' object is not callable"))
                     (Ok (Some "07")) (Ok (Some "15")).

(** A page on which every selector selects these two blocks. *)
Definition seats_page : RZDParser.soup :=
  RZDParser.mk_soup (fun _ => Ok [unreadable_block; unpriced_block]) (Ok []) (Ok "").

(** Libraries that leave lower-case text as it is, a site that answers
    every request with the same page, and a parser that reads the page as
    [page]. *)
Definition example_net (page : RZDParser.soup) : RZDParser.Net :=
  RZDParser.mk_net (fun s => s) (fun s => s)
    (fun _ _ => Ok (RZDParser.mk_response 200 (Ok "<html></html>") (Ok [])))
    (fun _ => Ok page).

(** The same for the search, with a result page that has no train block
    and no embedded state. *)
Definition example_search_net : RZDParser.SearchNet :=
  RZDParser.mk_search_net (example_net (text_page ""))
    (fun _ => Ok (RZDParser.mk_train_page (fun _ => Ok []) (Ok [])))
    (fun _ => Ok None).

(** An environment of the bot in which Telegram accepts every call, the
    text 15.12.2025 reads as a date in whatever format, every other text
    in the format [%Y-%m-%d], and the search is that of the adapter. *)
Definition example_bot_env : Bot.BotEnv :=
  Bot.mk_bot_env (example_env (always true) delivers)
    (fun _ _ _ => Ok tt) (fun _ _ _ => Ok tt) (fun _ => Ok tt)
    (fun s => s)
    (fun text format =>
       if String.eqb text "15.12.2025" then Ok (mk_date 2025 12 15)
       else strptime_ymd text)
    (fun _ => "2025-12-15")
    (rzd_search example_search_net)
    RZDParser.str_of_int.

Definition ivan : Bot.tg_user := Bot.mk_tg_user 42 "Иван".

Definition stranger : Bot.tg_user := Bot.mk_tg_user 7 "Пётр".

(** A run of the bot: a conversation up to the date, a date, the press of
    a seat button, and two cycles in between. *)
Definition example_run : list Bot.action :=
  [Bot.Update example_bot_env (Bot.CmdStart ivan);
   Bot.Update example_bot_env (Bot.TextMessage ivan "Москва");
   Bot.Update example_bot_env (Bot.TextMessage ivan "Казань");
   Bot.Cycle (example_env (always true) delivers);
   Bot.Update example_bot_env (Bot.TextMessage ivan "15.12.2025");
   Bot.Update example_bot_env (Bot.CallbackQuery ivan "select_seat_плацкарт");
   Bot.Cycle (example_env (always true) delivers)].

Definition example_train : RZDParser.train :=
  RZDParser.mk_train "001М" "22:30" "06:45" "8ч 15м".

Local Close Scope string_scope.

(** Key constraints of a store given by its rows. *)
Ltac solve_keys :=
  split; simpl;
  repeat (constructor; [simpl; intuition (try discriminate; try lia)|]);
  constructor.

(* ================================================================== *)
(** * Properties of the store *)
(* ================================================================== *)

Lemma same_subscription_true user dep arr date train seat berth r :
  same_subscription user dep arr date train seat berth r = true
  <-> has_tuple user dep arr date train seat berth r /\ is_active r = true.
Proof.
  unfold same_subscription, has_tuple.
  rewrite !andb_true_iff, Z.eqb_eq, !String.eqb_eq. tauto.
Qed.

Lemma find_app_none {A : Type} (f : A -> bool) (l1 l2 : list A) :
  find f l1 = None -> find f (l1 ++ l2) = find f l2.
Proof.
  induction l1 as [|x l1 IH]; simpl; intros H; [reflexivity|].
  destruct (f x); [discriminate | auto].
Qed.

Lemma fold_max_ge (seq : Z) (ids : list Z) :
  seq <= fold_right Z.max seq ids
  /\ forall i, In i ids -> i <= fold_right Z.max seq ids.
Proof.
  induction ids as [|x ids [IH1 IH2]]; simpl.
  - split; [lia | tauto].
  - split; [lia|]. intros i [<-|Hi]; [lia|]. specialize (IH2 i Hi). lia.
Qed.

Lemma next_rowid_fresh (seq : Z) (ids : list Z) :
  ~ In (next_rowid seq ids) ids /\ seq < next_rowid seq ids.
Proof.
  unfold next_rowid. destruct (fold_max_ge seq ids) as [H1 H2]. split.
  - intros Hin. specialize (H2 _ Hin). lia.
  - lia.
Qed.

Lemma find_none_iff {A : Type} (f : A -> bool) (l : list A) :
  find f l = None <-> forall x, In x l -> f x = false.
Proof.
  split.
  - intros H x Hx. exact (find_none f l H x Hx).
  - induction l as [|y l IH]; simpl; intros H; [reflexivity|].
    rewrite (H y (or_introl eq_refl)). apply IH. intros x Hx. apply H. now right.
Qed.

Lemma update_where_in cond f subs r :
  In r (update_where cond f subs)
  <-> exists r0, In r0 subs /\ r = (if cond r0 then f r0 else r0).
Proof.
  unfold update_where. rewrite in_map_iff. split.
  - intros [r0 [E H]]. exists r0. split; [exact H | now symmetry].
  - intros [r0 [H E]]. exists r0. split; [now symmetry | exact H].
Qed.

Section Create.

Variables (user : Z) (dep arr date train seat berth : string).

(** Creating twice in a row, from any state of the store, gives the same
    identifier, and the second call leaves the store as it was. *)
Lemma create_twice (now1 now2 : Z) (d : Database) :
  create_subscription now2 user dep arr date train seat berth
    (snd (create_subscription now1 user dep arr date train seat berth d))
  = create_subscription now1 user dep arr date train seat berth d.
Proof.
  unfold create_subscription.
  destruct (find _ (subscriptions d)) as [e|] eqn:F; simpl.
  - rewrite F. reflexivity.
  - rewrite (find_app_none _ _ _ F). simpl.
    match goal with |- context [same_subscription ?u ?a ?b ?c ?t ?s ?p ?r] =>
      assert (E : same_subscription u a b c t s p r = true)
    end.
    { apply same_subscription_true. unfold has_tuple; simpl. tauto. }
    rewrite E. reflexivity.
Qed.

(** C2. While an active subscription with the same (user, route, date,
    train, class, berth) tuple exists, [create_subscription] returns the
    identifier of an existing active subscription with that tuple (of the
    one there is, when the store holds one active subscription per tuple)
    and leaves every table unchanged; hence creating twice in a row gives
    the same identifier both times. *)
Theorem create_subscription_idempotent (now now' : Z) (d : Database)
        (r : subscription_row) :
  In r (subscriptions d) -> is_active r = true ->
  has_tuple user dep arr date train seat berth r ->
  (exists r',
     In r' (subscriptions d) /\ is_active r' = true
     /\ has_tuple user dep arr date train seat berth r'
     /\ create_subscription now user dep arr date train seat berth d
        = (sub_id r', d))
  /\ ((forall r',
         In r' (subscriptions d) -> is_active r' = true ->
         has_tuple user dep arr date train seat berth r' -> r' = r) ->
      create_subscription now user dep arr date train seat berth d
      = (sub_id r, d))
  /\ create_subscription now' user dep arr date train seat berth
       (snd (create_subscription now user dep arr date train seat berth d))
     = create_subscription now user dep arr date train seat berth d.
Proof.
  intros Hin Hact Htup.
  assert (Hex : exists r',
            In r' (subscriptions d) /\ is_active r' = true
            /\ has_tuple user dep arr date train seat berth r'
            /\ create_subscription now user dep arr date train seat berth d
               = (sub_id r', d)).
  { unfold create_subscription.
    destruct (find _ (subscriptions d)) as [e|] eqn:F.
    - destruct (find_some _ _ F) as [He Hs].
      apply same_subscription_true in Hs. destruct Hs as [Ht Ha].
      exists e. split; [exact He|]. split; [exact Ha|]. split; [exact Ht|reflexivity].
    - exfalso. rewrite find_none_iff in F. specialize (F r Hin).
      assert (same_subscription user dep arr date train seat berth r = true)
        by (apply same_subscription_true; split; assumption).
      congruence. }
  split; [exact Hex|]. split.
  - intros Huniq. destruct Hex as [r' [H1 [H2 [H3 H4]]]].
    rewrite (Huniq r' H1 H2 H3) in H4. exact H4.
  - apply create_twice.
Qed.

(** C10. The duplicate lookup sees active rows only: once the subscription
    holding the tuple has been deactivated, [create_subscription] appends
    a new active row with that tuple and returns its identifier, which is
    larger than every identifier in the table, so different from the
    identifier of the deactivated subscription. The date of the tuple is
    one in the format [%Y-%m-%d], which the [DATE] column stores and
    compares as the text that was passed. *)
Theorem create_after_deactivate_fresh (now : Z) (d : Database)
        (r : subscription_row) :
  iso_date date ->
  In r (subscriptions d) -> has_tuple user dep arr date train seat berth r ->
  (forall r',
     In r' (subscriptions d) -> is_active r' = true ->
     has_tuple user dep arr date train seat berth r' -> sub_id r' = sub_id r) ->
  let d1 := snd (deactivate_subscription (sub_id r) d) in
  let new_id :=
    fst (create_subscription now user dep arr date train seat berth d1) in
  let d2 :=
    snd (create_subscription now user dep arr date train seat berth d1) in
  new_id <> sub_id r
  /\ (forall r', In r' (subscriptions d) -> sub_id r' < new_id)
  /\ subscriptions d2
     = subscriptions d1
       ++ [mk_subscription new_id user dep arr date train seat berth
                           true now None]
  /\ (exists r0, In r0 (subscriptions d1) /\ sub_id r0 = sub_id r
                 /\ is_active r0 = false).
Proof.
  intros _ Hin Htup Honly d1 new_id d2.
  assert (F : find (same_subscription user dep arr date train seat berth)
                   (subscriptions d1) = None).
  { apply find_none_iff. intros x Hx.
    destruct (same_subscription user dep arr date train seat berth x) eqn:E;
      [|reflexivity].
    exfalso. apply same_subscription_true in E. destruct E as [Ht Ha].
    unfold d1 in Hx. simpl in Hx. apply update_where_in in Hx.
    destruct Hx as [r0 [H0 E0]].
    destruct (sub_id r0 =? sub_id r) eqn:Eid.
    - subst x. simpl in Ha. discriminate.
    - subst x. apply Z.eqb_neq in Eid. apply Eid. apply Honly; assumption. }
  assert (Hids : map sub_id (subscriptions d1) = map sub_id (subscriptions d)).
  { unfold d1. simpl. unfold update_where. rewrite map_map. apply map_ext.
    intros a. destruct (sub_id a =? sub_id r); reflexivity. }
  assert (Hnew : new_id = next_rowid (subscriptions_seq d)
                                     (map sub_id (subscriptions d))).
  { unfold new_id, create_subscription. rewrite F. cbn [fst].
    rewrite Hids. reflexivity. }
  assert (Hlt : forall r', In r' (subscriptions d) -> sub_id r' < new_id).
  { intros r' Hr'. rewrite Hnew. unfold next_rowid.
    destruct (fold_max_ge (subscriptions_seq d) (map sub_id (subscriptions d)))
      as [_ H].
    specialize (H (sub_id r') (in_map sub_id _ _ Hr')). lia. }
  split; [|split; [|split]].
  - specialize (Hlt r Hin). lia.
  - exact Hlt.
  - unfold d2, new_id, create_subscription. rewrite F. reflexivity.
  - exists (deactivate r). split; [|split; reflexivity].
    unfold d1. simpl. apply update_where_in. exists r. split; [exact Hin|].
    rewrite Z.eqb_refl. reflexivity.
Qed.

(** The invariant of the data model is kept by [create_subscription]:
    an active duplicate is never inserted. *)
Lemma create_keeps_one_active_per_tuple (now : Z) (d : Database) :
  one_active_per_tuple d ->
  one_active_per_tuple
    (snd (create_subscription now user dep arr date train seat berth d)).
Proof.
  intros Inv. unfold create_subscription.
  destruct (find _ (subscriptions d)) as [e|] eqn:F; [exact Inv|].
  rewrite find_none_iff in F.
  assert (Old : forall r, In r (subscriptions d) -> is_active r = true ->
                          has_tuple user dep arr date train seat berth r -> False).
  { intros r Hr Ha Ht. specialize (F r Hr).
    assert (same_subscription user dep arr date train seat berth r = true)
      by (apply same_subscription_true; split; assumption).
    congruence. }
  intros r1 r2 H1 H2 A1 A2 T. cbn [snd subscriptions] in H1, H2.
  apply in_app_or in H1. apply in_app_or in H2.
  destruct H1 as [H1|[<-|[]]], H2 as [H2|[<-|[]]].
  - now apply Inv.
  - exfalso. apply (Old r1 H1 A1). unfold has_tuple in *. simpl in T. intuition.
  - exfalso. apply (Old r2 H2 A2). exact T.
  - reflexivity.
Qed.

End Create.

(* ================================================================== *)
(** * The list of active subscriptions *)
(* ================================================================== *)

Section Ordering.

Context {A B : Type} (key : A -> Z) (key' : B -> Z) (g : A -> B).
Hypothesis key_g : forall x, key' (g x) = key x.

Lemma map_insert_desc (a : A) (l : list A) :
  map g (insert_desc key a l) = insert_desc key' (g a) (map g l).
Proof.
  induction l as [|y t IH]; simpl; [reflexivity|].
  rewrite !key_g. destruct (key y <=? key a); simpl; [reflexivity|].
  now rewrite IH.
Qed.

Lemma map_order_by_desc (l : list A) :
  map g (order_by_desc key l) = order_by_desc key' (map g l).
Proof.
  unfold order_by_desc. induction l as [|a t IH]; simpl; [reflexivity|].
  now rewrite map_insert_desc, IH.
Qed.

End Ordering.

Lemma insert_desc_perm {A : Type} (key : A -> Z) (a : A) (l : list A) :
  Permutation (insert_desc key a l) (a :: l).
Proof.
  induction l as [|y t IH]; simpl; [apply Permutation_refl|].
  destruct (key y <=? key a); [apply Permutation_refl|].
  eapply Permutation_trans; [apply perm_skip, IH | apply perm_swap].
Qed.

Lemma order_by_desc_perm {A : Type} (key : A -> Z) (l : list A) :
  Permutation (order_by_desc key l) l.
Proof.
  induction l as [|a t IH]; simpl; [apply Permutation_refl|].
  eapply Permutation_trans; [apply insert_desc_perm | apply perm_skip, IH].
Qed.

Lemma map_filter_commute {A B : Type} (g : A -> B) (p : A -> bool) (q : B -> bool)
      (l : list A) :
  (forall x, q (g x) = p x) ->
  map g (filter p l) = filter q (map g l).
Proof.
  intros H. induction l as [|a t IH]; simpl; [reflexivity|].
  rewrite H. destruct (p a); simpl; now rewrite IH.
Qed.

Lemma join_users_untimed (us : list user_row) (r : subscription_row) :
  map untimed_s (join_users us r) = join_users us (untimed r).
Proof.
  unfold join_users. simpl. rewrite map_map. reflexivity.
Qed.

Lemma flat_map_join_untimed (us : list user_row) (l : list subscription_row) :
  map untimed_s (flat_map (join_users us) l) = flat_map (join_users us) (map untimed l).
Proof.
  induction l as [|r t IH]; simpl; [reflexivity|].
  now rewrite map_app, join_users_untimed, IH.
Qed.

(** The list of active subscriptions, up to last-checked times, is a
    function of the rows up to last-checked times. *)
Lemma listing_untimed (d : Database) :
  map untimed_s (get_active_subscriptions d)
  = order_by_desc (fun s => created_at (row s))
      (flat_map (join_users (users d)) (filter is_active (map untimed (subscriptions d)))).
Proof.
  unfold get_active_subscriptions.
  rewrite (map_order_by_desc _ (fun s => created_at (row s)) untimed_s)
    by reflexivity.
  rewrite flat_map_join_untimed.
  rewrite (map_filter_commute untimed is_active is_active) by reflexivity.
  reflexivity.
Qed.

Lemma same_rows_listing (d d' : Database) :
  same_rows d d' ->
  map untimed_s (get_active_subscriptions d') = map untimed_s (get_active_subscriptions d).
Proof.
  intros [Hs Hu]. rewrite !listing_untimed, Hs, Hu. reflexivity.
Qed.

Lemma same_rows_refl (d : Database) : same_rows d d.
Proof. split; reflexivity. Qed.

Lemma same_rows_trans (d1 d2 d3 : Database) :
  same_rows d1 d2 -> same_rows d2 d3 -> same_rows d1 d3.
Proof. intros [A1 B1] [A2 B2]. split; congruence. Qed.

Lemma untimed_touch (now : Z) (r : subscription_row) : untimed (touch now r) = untimed r.
Proof. reflexivity. Qed.

Lemma map_untimed_touch cond now l :
  map untimed (update_where cond (touch now) l) = map untimed l.
Proof.
  unfold update_where. rewrite map_map. apply map_ext.
  intros r. destruct (cond r); reflexivity.
Qed.

(** What a check reads of a subscription does not involve its
    last-checked time. *)
Lemma untimed_s_fields (s s' : subscription) :
  untimed_s s' = untimed_s s ->
  sub_id (row s') = sub_id (row s) /\ s_telegram_id s' = s_telegram_id s
  /\ query_of s' = query_of s
  /\ forall stamp info,
       _format_notification_message stamp s' info
       = _format_notification_message stamp s info.
Proof.
  intros H.
  pose proof (f_equal (fun x => sub_id (row x)) H) as H1.
  pose proof (f_equal s_telegram_id H) as H2.
  pose proof (f_equal (fun x => train_number (row x)) H) as H3.
  pose proof (f_equal (fun x => departure_station (row x)) H) as H4.
  pose proof (f_equal (fun x => arrival_station (row x)) H) as H5.
  pose proof (f_equal (fun x => departure_date (row x)) H) as H6.
  pose proof (f_equal (fun x => seat_type (row x)) H) as H7.
  pose proof (f_equal (fun x => berth_position (row x)) H) as H8.
  simpl in *. repeat split; try assumption.
  - unfold query_of. congruence.
  - intros stamp info. unfold _format_notification_message.
    rewrite H3, H4, H5, H6, H7, H8. reflexivity.
Qed.

Lemma check_events_untimed svc env (s s' : subscription) :
  untimed_s s' = untimed_s s -> check_events svc env s' = check_events svc env s.
Proof.
  intros H. destruct (untimed_s_fields _ _ H) as [H1 [H2 [H3 H4]]].
  unfold check_events, notify_events. rewrite H1, H2, H3.
  destruct (parser env (query_of s)); [|reflexivity].
  rewrite H4. reflexivity.
Qed.

Lemma history_entry_untimed env (s s' : subscription) :
  untimed_s s' = untimed_s s -> history_entry env s' = history_entry env s.
Proof.
  intros H. destruct (untimed_s_fields _ _ H) as [H1 [H2 [H3 H4]]].
  unfold history_entry. rewrite H1, H3. reflexivity.
Qed.

Lemma find_map_eq {A B : Type} (g : A -> B) (p : A -> bool) (q : B -> bool)
      (l l' : list A) :
  (forall x, q (g x) = p x) -> map g l' = map g l ->
  option_map g (find p l') = option_map g (find p l).
Proof.
  intros H. revert l'. induction l as [|a t IH]; intros [|a' t'] E;
    simpl in *; try discriminate; [reflexivity|].
  injection E as E1 E2.
  rewrite <- (H a), <- (H a'), E1. destruct (q (g a)); simpl.
  - now rewrite E1.
  - apply IH, E2.
Qed.

Lemma find_unique {A : Type} (f : A -> Z) (l : list A) (s : A) :
  NoDup (map f l) -> In s l -> find (fun x => f x =? f s) l = Some s.
Proof.
  induction l as [|a t IH]; simpl; intros ND Hin; [contradiction|].
  inversion ND as [|? ? Hnot ND']; subst.
  destruct Hin as [->|Hin].
  - now rewrite Z.eqb_refl.
  - destruct (f a =? f s) eqn:E; [|auto].
    apply Z.eqb_eq in E. exfalso. apply Hnot. rewrite E. now apply in_map.
Qed.

Lemma NoDup_map_filter {A : Type} (f : A -> Z) (p : A -> bool) (l : list A) :
  NoDup (map f l) -> NoDup (map f (filter p l)).
Proof.
  induction l as [|a t IH]; simpl; intros ND; [constructor|].
  inversion ND as [|? ? Hnot ND']; subst.
  destruct (p a); simpl; [|auto].
  constructor; [|auto].
  intros Hin. apply Hnot. apply in_map_iff in Hin. destruct Hin as [x [E Hx]].
  apply filter_In in Hx. apply in_map_iff. exists x. tauto.
Qed.

Lemma filter_none {A : Type} (p : A -> bool) (l : list A) :
  (forall x, In x l -> p x = false) -> filter p l = [].
Proof.
  induction l as [|a t IH]; simpl; intros H; [reflexivity|].
  rewrite (H a (or_introl eq_refl)). apply IH. intros x Hx. apply H. now right.
Qed.

Lemma join_users_at_most_one (us : list user_row) (r : subscription_row) :
  NoDup (map telegram_id us) ->
  join_users us r = []
  \/ exists u, In u us /\ user_id r = telegram_id u
               /\ join_users us r = [mk_joined r (telegram_id u) (first_name u)].
Proof.
  unfold join_users. induction us as [|u t IH]; simpl; intros ND; [now left|].
  inversion ND as [|? ? Hnot ND']; subst.
  destruct (user_id r =? telegram_id u) eqn:E.
  - right. exists u. apply Z.eqb_eq in E. split; [now left|]. split; [exact E|].
    simpl. f_equal.
    assert (F : filter (fun u0 => user_id r =? telegram_id u0) t = []).
    { apply filter_none. intros x Hx. apply Z.eqb_neq. intros E'.
      apply Hnot. rewrite <- E, E'. now apply in_map. }
    now rewrite F.
  - destruct (IH ND') as [H|[u' [H1 [H2 H3]]]]; [now left|].
    right. exists u'. split; [now right|]. split; assumption.
Qed.

Lemma in_join_users us r s : In s (join_users us r) -> row s = r.
Proof.
  unfold join_users. rewrite in_map_iff. intros [u [E _]]. now subst s.
Qed.

(** Under the key constraints no identifier is listed twice. *)
Lemma listing_NoDup (d : Database) :
  keys_unique d ->
  NoDup (map (fun s => sub_id (row s)) (get_active_subscriptions d)).
Proof.
  intros [Hs Hu]. unfold get_active_subscriptions.
  eapply Permutation_NoDup.
  { apply Permutation_map, Permutation_sym, order_by_desc_perm. }
  pose proof (NoDup_map_filter sub_id is_active _ Hs) as ND.
  induction (filter is_active (subscriptions d)) as [|r t IH]; simpl; [constructor|].
  inversion ND as [|? ? Hnot ND']; subst. rewrite map_app.
  destruct (join_users_at_most_one (users d) r Hu) as [E|[u [_ [_ E]]]]; rewrite E; simpl.
  - apply IH, ND'.
  - constructor; [|apply IH, ND'].
    intros Hin. apply Hnot. apply in_map_iff in Hin. destruct Hin as [x [Ex Hx]].
    apply in_flat_map in Hx. destruct Hx as [r' [Hr' Hx]].
    apply in_join_users in Hx. subst r'. rewrite <- Ex. now apply in_map.
Qed.

(** ** The key constraints hold in every state the operations reach *)

Lemma keys_unique_empty : keys_unique empty_db.
Proof. split; constructor. Qed.

Lemma NoDup_map_snoc {A : Type} (f : A -> Z) (l : list A) (x : A) :
  NoDup (map f l) -> ~ In (f x) (map f l) -> NoDup (map f (l ++ [x])).
Proof.
  intros ND Hnot. rewrite map_app. simpl.
  apply NoDup_app; [exact ND | repeat constructor; intros [] |].
  intros a Ha [<-|[]]. contradiction.
Qed.

Lemma keys_unique_add_user now tg uname fname lname d :
  keys_unique d -> keys_unique (snd (add_user now tg uname fname lname d)).
Proof.
  intros [Ks Ku]. unfold add_user.
  destruct (find _ (users d)) eqn:F; [now split|].
  split; [exact Ks|]. cbn [snd users].
  apply NoDup_map_snoc; [exact Ku|]. simpl.
  intros Hin. apply in_map_iff in Hin. destruct Hin as [u [E Hu]].
  rewrite find_none_iff in F. specialize (F u Hu). simpl in F.
  apply Z.eqb_neq in F. congruence.
Qed.

Lemma keys_unique_create now user dep arr date train seat berth d :
  keys_unique d ->
  keys_unique (snd (create_subscription now user dep arr date train seat berth d)).
Proof.
  intros [Ks Ku]. unfold create_subscription.
  destruct (find _ (subscriptions d)); [now split|].
  split; [|exact Ku]. cbn [snd subscriptions].
  apply NoDup_map_snoc; [exact Ks|]. simpl.
  apply (next_rowid_fresh (subscriptions_seq d) (map sub_id (subscriptions d))).
Qed.

Lemma keys_unique_update cond f d :
  (forall r, sub_id (f r) = sub_id r) ->
  keys_unique d ->
  keys_unique (set_subscriptions d (update_where cond f (subscriptions d))).
Proof.
  intros Hf [Ks Ku]. split; [|exact Ku]. cbn [set_subscriptions subscriptions].
  unfold update_where. rewrite map_map.
  erewrite map_ext; [exact Ks|].
  intros r. simpl. destruct (cond r); [apply Hf | reflexivity].
Qed.

Lemma keys_unique_delete id d :
  keys_unique d -> keys_unique (snd (delete_subscription id d)).
Proof.
  intros [Ks Ku]. split; [|exact Ku]. cbn [snd delete_subscription set_subscriptions
                                            subscriptions].
  now apply NoDup_map_filter.
Qed.

(* ================================================================== *)
(** * One check of one subscription *)
(* ================================================================== *)

(** A check of an identifier that is not listed only reads the list. *)
Lemma check_not_found svc env id w :
  find (fun s => sub_id (row s) =? id) (get_active_subscriptions (db w)) = None ->
  _check_subscription svc env id w = (Ok tt, log EvGetActiveSubscriptions w).
Proof.
  intros F. unfold _check_subscription, try_except, bind, db_get_active_subscriptions,
    db_call. simpl. rewrite F. reflexivity.
Qed.

(** A check of a listed subscription returns, and leaves [checked_world]. *)
Lemma check_found svc env id w s :
  find (fun s => sub_id (row s) =? id) (get_active_subscriptions (db w)) = Some s ->
  _check_subscription svc env id w = (Ok tt, checked_world svc env s w).
Proof.
  intros F. destruct (find_some _ _ F) as [_ Hid]. apply Z.eqb_eq in Hid. subst id.
  unfold _check_subscription, try_except, bind, db_get_active_subscriptions, db_call.
  simpl. rewrite F. unfold call_parser, checked_world, check_events, delivered,
    notify_events, log. simpl.
  destruct (parser env (query_of s)) as [info|e]; simpl.
  - fold (available_of info).
    destruct (truthy (available_of info)); simpl.
    + unfold _send_notification, try_except, bind, call_send_message, db_call, log.
      destruct (has_bot svc); simpl.
      * destruct (bot_send_message env _ _) as [u|e]; [|destruct e]; simpl;
          unfold ret, checked_db; simpl; rewrite <- !app_assoc; reflexivity.
      * unfold ret, checked_db. simpl. rewrite <- !app_assoc. reflexivity.
    + unfold ret, checked_db. simpl. rewrite <- !app_assoc. reflexivity.
  - rewrite <- !app_assoc. reflexivity.
Qed.

Lemma same_rows_keys (d d' : Database) :
  same_rows d d' -> keys_unique d -> keys_unique d'.
Proof.
  intros [Hs Hu] [K1 K2]. split; [|now rewrite Hu].
  assert (E : forall l, map sub_id l = map sub_id (map untimed l))
    by (intros l; rewrite map_map; reflexivity).
  rewrite E, Hs, <- E. exact K1.
Qed.

Lemma checked_db_same_rows env id info d : same_rows d (checked_db env id info d).
Proof.
  split; [|reflexivity]. unfold checked_db. simpl. apply map_untimed_touch.
Qed.

Lemma checked_world_same_rows svc env s w :
  same_rows (db w) (db (checked_world svc env s w)).
Proof.
  unfold checked_world. destruct (parser env (query_of s)); [|apply same_rows_refl].
  destruct (delivered svc env s a); simpl; [|apply checked_db_same_rows].
  destruct (checked_db_same_rows env (sub_id (row s)) a (db w)) as [H1 H2].
  split; assumption.
Qed.

Lemma checked_world_trace svc env s w :
  trace (checked_world svc env s w) = trace w ++ check_events svc env s.
Proof.
  unfold checked_world. destruct (parser env (query_of s)); [|reflexivity].
  destruct (delivered svc env s a); reflexivity.
Qed.

(** A check appends to the history exactly its own entry. *)
Lemma checked_world_history svc env s w :
  exists rows,
    check_history (db (checked_world svc env s w)) = check_history (db w) ++ rows
    /\ map check_fields rows = history_entry env s.
Proof.
  unfold checked_world, history_entry.
  destruct (parser env (query_of s)) as [info|e].
  - exists [mk_check (next_rowid (check_history_seq (db w))
                                  (map c_id (check_history (db w))))
                      (sub_id (row s)) (current_timestamp env) (available_of info)
                      (if dict_truthy info then Some (py_str env info) else None)].
    split; [|reflexivity].
    destruct (delivered svc env s info); reflexivity.
  - exists []. simpl. now rewrite app_nil_r.
Qed.

(** A subscription of the list is found in the list at any later point
    of the cycle, up to its last-checked time. *)
Lemma find_listed d0 d s :
  keys_unique d0 -> same_rows d0 d -> In s (get_active_subscriptions d0) ->
  exists s',
    find (fun x => sub_id (row x) =? sub_id (row s)) (get_active_subscriptions d)
    = Some s'
    /\ untimed_s s' = untimed_s s.
Proof.
  intros K R Hin.
  pose proof (find_unique (fun x => sub_id (row x)) _ s (listing_NoDup d0 K) Hin) as F.
  pose proof (find_map_eq untimed_s
                (fun x => sub_id (row x) =? sub_id (row s))
                (fun x => sub_id (row x) =? sub_id (row s))
                (get_active_subscriptions d0) (get_active_subscriptions d)
                (fun x => eq_refl) (same_rows_listing _ _ R)) as E.
  rewrite F in E. simpl in E.
  destruct (find _ (get_active_subscriptions d)) as [s'|] eqn:F'; [|discriminate].
  assert (Es : untimed_s s' = untimed_s s) by (simpl in E; congruence).
  now exists s'.
Qed.

(** A check of a subscription of the list, run at any later point of the
    cycle, finds the subscription and goes through. *)
Lemma check_listed svc env d0 w s :
  keys_unique d0 -> same_rows d0 (db w) -> In s (get_active_subscriptions d0) ->
  exists s', untimed_s s' = untimed_s s
             /\ _check_subscription svc env (sub_id (row s)) w
                = (Ok tt, checked_world svc env s' w).
Proof.
  intros K R Hin. destruct (find_listed d0 (db w) s K R Hin) as [s' [F Es]].
  exists s'. split; [exact Es | apply check_found, F].
Qed.

(* ================================================================== *)
(** * One cycle over the active subscriptions *)
(* ================================================================== *)

Lemma gather_checks svc env d0 :
  keys_unique d0 ->
  forall L w,
    incl L (get_active_subscriptions d0) -> same_rows d0 (db w) ->
    exists rs w',
      gather (map (fun s => _check_subscription svc env (sub_id (row s))) L) w
      = (Ok rs, w')
      /\ same_rows d0 (db w')
      /\ trace w' = trace w ++ flat_map (check_events svc env) L
      /\ exists rows,
           check_history (db w') = check_history (db w) ++ rows
           /\ map check_fields rows = flat_map (history_entry env) L.
Proof.
  intros K. induction L as [|s L IH]; intros w Hincl R.
  - exists [], w. simpl. rewrite app_nil_r.
    split; [reflexivity|]. split; [exact R|]. split; [reflexivity|].
    exists []. now rewrite app_nil_r.
  - destruct (check_listed svc env d0 w s K R (Hincl s (or_introl eq_refl)))
      as [s' [Es Hrun]].
    set (w1 := checked_world svc env s' w) in *.
    assert (R1 : same_rows d0 (db w1)).
    { eapply same_rows_trans; [exact R | apply checked_world_same_rows]. }
    destruct (IH w1 (fun x Hx => Hincl x (or_intror Hx)) R1)
      as [rs [w' [Hg [R' [Ht [rows [Hh Hf]]]]]]].
    exists (Ok tt :: rs), w'. simpl. rewrite Hrun, Hg.
    split; [reflexivity|]. split; [exact R'|]. split.
    + rewrite Ht. unfold w1. rewrite checked_world_trace, <- app_assoc.
      now rewrite (check_events_untimed svc env s s' Es).
    + destruct (checked_world_history svc env s' w) as [rows1 [Hh1 Hf1]].
      exists (rows1 ++ rows). split.
      * rewrite Hh. unfold w1. rewrite Hh1, <- app_assoc. reflexivity.
      * rewrite map_app, Hf, Hf1. now rewrite (history_entry_untimed env s s' Es).
Qed.

(** One cycle: it returns; the calls it makes are the read of the list
    followed by the calls of one check per listed subscription; the
    history grows by the entries of those checks; nothing but last-checked
    times changes in the subscriptions. *)
Lemma cycle_spec svc env w :
  keys_unique (db w) ->
  exists w',
    _check_all_subscriptions svc env w = (Ok tt, w')
    /\ same_rows (db w) (db w')
    /\ trace w'
       = trace w ++ EvGetActiveSubscriptions
                    :: flat_map (check_events svc env) (get_active_subscriptions (db w))
    /\ exists rows,
         check_history (db w') = check_history (db w) ++ rows
         /\ map check_fields rows
            = flat_map (history_entry env) (get_active_subscriptions (db w)).
Proof.
  intros K.
  destruct (gather_checks svc env (db w) K (get_active_subscriptions (db w))
              (log EvGetActiveSubscriptions w) (incl_refl _) (same_rows_refl _))
    as [rs [w' [Hg [R [Ht Hh]]]]].
  exists w'. unfold _check_all_subscriptions, try_except, bind,
    db_get_active_subscriptions, db_call. simpl.
  unfold log in Hg. rewrite Hg. simpl.
  split; [reflexivity|]. split; [exact R|]. split; [|exact Hh].
  rewrite Ht. simpl. rewrite <- app_assoc. reflexivity.
Qed.

Lemma new_events_app (w w' : World) (evs : list event) :
  trace w' = trace w ++ evs -> new_events w w' = evs.
Proof.
  intros H. unfold new_events. rewrite H.
  rewrite skipn_app, skipn_all, Nat.sub_diag. reflexivity.
Qed.

Lemma count_events_app p (l1 l2 : list event) :
  count_events p (l1 ++ l2) = (count_events p l1 + count_events p l2)%nat.
Proof. unfold count_events. now rewrite filter_app, length_app. Qed.

(** The calls of a check are made for its own subscription. *)
Lemma check_events_own svc env s e :
  In e (check_events svc env s) ->
  event_subscription e = None \/ event_subscription e = Some (sub_id (row s)).
Proof.
  unfold check_events, notify_events. simpl.
  intros [<-|[<-|H]]; [now left | now right |].
  destruct (parser env (query_of s)); [|contradiction].
  destruct H as [<-|[<-|H]]; [now right | now right |].
  destruct (truthy (available_of a) && has_bot svc); [|contradiction].
  destruct H as [<-|H]; [now right|].
  destruct (bot_send_message env _ _); [|contradiction].
  destruct H as [<-|[]]. now right.
Qed.

Lemma count_events_none p (l : list event) :
  (forall e, In e l -> p e = false) -> count_events p l = O.
Proof. intros H. unfold count_events. now rewrite filter_none. Qed.

(** In a cycle, the calls made for one listed subscription are the calls
    of its own check. *)
Lemma count_cycle_events svc env (p : event -> bool) (L : list subscription)
      (s : subscription) :
  (forall e, p e = true -> event_subscription e = Some (sub_id (row s))) ->
  NoDup (map (fun x => sub_id (row x)) L) -> In s L ->
  count_events p (flat_map (check_events svc env) L)
  = count_events p (check_events svc env s).
Proof.
  intros Hp.
  assert (Other : forall s0, sub_id (row s0) <> sub_id (row s) ->
                             count_events p (check_events svc env s0) = O).
  { intros s0 Hne. apply count_events_none. intros e He.
    destruct (p e) eqn:E; [|reflexivity]. exfalso.
    apply Hp in E. destruct (check_events_own _ _ _ _ He) as [H|H]; congruence. }
  induction L as [|a L IH]; intros ND Hin; [destruct Hin|].
  cbn [map] in ND. cbn [flat_map].
  inversion ND as [|? ? Hnot ND']; subst. rewrite count_events_app.
  destruct Hin as [->|Hin].
  - assert (Z' : count_events p (flat_map (check_events svc env) L) = O).
    { apply count_events_none. intros e He. apply in_flat_map in He.
      destruct He as [s0 [Hs0 He]].
      destruct (p e) eqn:E; [|reflexivity]. exfalso.
      apply Hp in E. destruct (check_events_own _ _ _ _ He) as [H|H]; [congruence|].
      apply Hnot. replace (sub_id (row s)) with (sub_id (row s0)) by congruence.
      now apply (in_map (fun x => sub_id (row x))). }
    rewrite Z'. lia.
  - rewrite (IH ND' Hin), Other; [reflexivity|].
    intros E. apply Hnot. rewrite E. now apply (in_map (fun x => sub_id (row x))).
Qed.

Lemma is_probe_own id e : is_probe id e = true -> event_subscription e = Some id.
Proof. destruct e; simpl; try discriminate. now intros ->%Z.eqb_eq. Qed.

Lemma is_touch_own id e : is_touch id e = true -> event_subscription e = Some id.
Proof. destruct e; simpl; try discriminate. now intros ->%Z.eqb_eq. Qed.

Lemma is_history_own id e : is_history id e = true -> event_subscription e = Some id.
Proof. destruct e; simpl; try discriminate. now intros ->%Z.eqb_eq. Qed.

Lemma is_dispatch_own id e : is_dispatch id e = true -> event_subscription e = Some id.
Proof. destruct e; simpl; try discriminate. now intros ->%Z.eqb_eq. Qed.

(** A check dispatches one notification when the verdict is "available"
    and the bot is configured, and none otherwise. *)
Lemma count_dispatch_check svc env s :
  count_events (is_dispatch (sub_id (row s))) (check_events svc env s)
  = if verdict env s && has_bot svc then 1%nat else O.
Proof.
  unfold check_events, notify_events, verdict, count_events. simpl.
  destruct (parser env (query_of s)) as [info|e]; [|reflexivity]. simpl.
  destruct (truthy (available_of info) && has_bot svc); [|reflexivity].
  simpl. rewrite Z.eqb_refl.
  destruct (bot_send_message env _ _); reflexivity.
Qed.

Lemma count_probe_check svc env s :
  count_events (is_probe (sub_id (row s))) (check_events svc env s) = 1%nat.
Proof.
  unfold check_events, notify_events, count_events. simpl. rewrite Z.eqb_refl.
  destruct (parser env (query_of s)) as [info|e]; [|reflexivity]. simpl.
  destruct (truthy (available_of info) && has_bot svc); [|reflexivity].
  simpl. destruct (bot_send_message env _ _); reflexivity.
Qed.

(* ================================================================== *)
(** * Notification policy *)
(* ================================================================== *)

(** During one cycle the number of notifications dispatched for a listed
    subscription grows by one if the verdict is "available" and the bot
    is configured, and not at all otherwise. *)
Lemma cycle_dispatch svc env w s :
  keys_unique (db w) -> In s (get_active_subscriptions (db w)) ->
  exists w',
    _check_all_subscriptions svc env w = (Ok tt, w')
    /\ same_rows (db w) (db w')
    /\ count_events (is_dispatch (sub_id (row s))) (trace w')
       = (count_events (is_dispatch (sub_id (row s))) (trace w)
          + if verdict env s && has_bot svc then 1 else 0)%nat.
Proof.
  intros K Hin. destruct (cycle_spec svc env w K) as [w' [Hrun [R [Ht _]]]].
  exists w'. split; [exact Hrun|]. split; [exact R|].
  rewrite Ht, count_events_app. f_equal.
  change (EvGetActiveSubscriptions :: ?l) with ([EvGetActiveSubscriptions] ++ l).
  rewrite count_events_app.
  rewrite (count_cycle_events svc env _ _ s (is_dispatch_own _)
             (listing_NoDup _ K) Hin).
  rewrite count_dispatch_check. reflexivity.
Qed.

(** The loop of [run] goes from cycle to cycle and never stops on an
    exception: the world after the cycles is the world the cycles leave
    one after the other. *)
Lemma run_cycles_worlds svc envs :
  forall w,
    keys_unique (db w) ->
    run_cycles svc envs w
    = (Ok tt,
       fold_left (fun w' env => snd (_check_all_subscriptions svc env w')) envs w).
Proof.
  induction envs as [|env envs IH]; intros w K; [reflexivity|].
  destruct (cycle_spec svc env w K) as [w' [Hrun [R _]]].
  cbn [run_cycles fold_left]. unfold bind, try_except. rewrite Hrun. cbn [snd].
  apply IH. exact (same_rows_keys _ _ R K).
Qed.

Lemma listed_after (d d' : Database) (s : subscription) :
  same_rows d d' -> In s (get_active_subscriptions d) ->
  exists s', In s' (get_active_subscriptions d') /\ untimed_s s' = untimed_s s.
Proof.
  intros R Hin. apply (in_map untimed_s) in Hin.
  rewrite <- (same_rows_listing _ _ R) in Hin.
  apply in_map_iff in Hin. destruct Hin as [s' [E H]]. now exists s'.
Qed.

Lemma verdict_untimed env (s s' : subscription) :
  untimed_s s' = untimed_s s -> verdict env s' = verdict env s.
Proof.
  intros H. destruct (untimed_s_fields _ _ H) as [_ [_ [Hq _]]].
  unfold verdict. now rewrite Hq.
Qed.

Lemma notified_cycles_spec svc envs :
  has_bot svc = true ->
  forall i w s,
    keys_unique (db w) -> In s (get_active_subscriptions (db w)) ->
    notified_cycles svc (sub_id (row s)) i envs w
    = true_indices i (map (fun env => verdict env s) envs).
Proof.
  intros Hbot. induction envs as [|env envs IH]; intros i w s K Hin; [reflexivity|].
  cbn [notified_cycles map true_indices].
  destruct (cycle_dispatch svc env w s K Hin) as [w' [Hrun [R Hc]]].
  rewrite Hrun. cbn [snd]. rewrite Hc, Hbot, andb_true_r.
  destruct (listed_after _ _ s R Hin) as [s' [Hin' Es]].
  destruct (untimed_s_fields _ _ Es) as [Hid _].
  f_equal.
  - destruct (verdict env s).
    + replace (Nat.ltb _ _) with true; [reflexivity|].
      symmetry. apply Nat.ltb_lt. lia.
    + rewrite Nat.add_0_r, Nat.ltb_irrefl. reflexivity.
  - rewrite <- Hid. rewrite (IH (S i) w' s' (same_rows_keys _ _ R K) Hin').
    f_equal. apply map_ext. intros e. apply verdict_untimed, Es.
Qed.

(** C1, as the code has it. With the bot configured, a notification for
    a listed subscription is dispatched in every cycle whose verdict is
    "available", whatever the verdict of the cycle before: the notified
    cycles are the positions of the [true] verdicts, and for the verdicts
    [false, true, true, false, true] they are the cycles 1, 2 and 4. *)
Theorem notify_on_every_available_cycle svc envs w s :
  has_bot svc = true -> keys_unique (db w) ->
  In s (get_active_subscriptions (db w)) ->
  notified_cycles svc (sub_id (row s)) 0 envs w
  = true_indices 0 (map (fun env => verdict env s) envs)
  /\ (map (fun env => verdict env s) envs = five_verdicts ->
      notified_cycles svc (sub_id (row s)) 0 envs w = [1; 2; 4]%nat).
Proof.
  intros Hbot K Hin.
  pose proof (notified_cycles_spec svc envs Hbot 0%nat w s K Hin) as H.
  split; [exact H|]. intros E. rewrite H, E. reflexivity.
Qed.

(* ================================================================== *)
(** * Failures of the availability source *)
(* ================================================================== *)

(** C4. A cycle over the listed subscriptions returns normally whatever
    the source does, and every listed subscription gets its call to the
    source; every one the source answers gets its history entry, also
    when the source raised for other subscriptions of the cycle. *)
Theorem check_failure_isolated svc env w :
  keys_unique (db w) ->
  exists w' evs rows,
    _check_all_subscriptions svc env w = (Ok tt, w')
    /\ trace w' = trace w ++ evs
    /\ check_history (db w') = check_history (db w) ++ rows
    /\ forall s,
         In s (get_active_subscriptions (db w)) ->
         In (EvCheckSeatAvailability (sub_id (row s))) evs
         /\ forall info,
              parser env (query_of s) = Ok info ->
              exists c, In c rows
                        /\ c_subscription_id c = sub_id (row s)
                        /\ c_checked_at c = current_timestamp env
                        /\ c_seats_available c = available_of info.
Proof.
  intros K. destruct (cycle_spec svc env w K) as [w' [Hrun [_ [Ht [rows [Hh Hf]]]]]].
  exists w', (EvGetActiveSubscriptions
              :: flat_map (check_events svc env) (get_active_subscriptions (db w))), rows.
  split; [exact Hrun|]. split; [exact Ht|]. split; [exact Hh|].
  intros s Hin. split.
  - right. apply in_flat_map. exists s. split; [exact Hin|].
    unfold check_events. right. now left.
  - intros info Hok.
    assert (Hentry : In (sub_id (row s), current_timestamp env, available_of info,
                         if dict_truthy info then Some (py_str env info) else None)
                        (map check_fields rows)).
    { rewrite Hf. apply in_flat_map. exists s. split; [exact Hin|].
      unfold history_entry. rewrite Hok. now left. }
    apply in_map_iff in Hentry. destruct Hentry as [c [Ec Hc]].
    exists c. unfold check_fields in Ec. injection Ec as E1 E2 E3 E4.
    repeat split; assumption.
Qed.

(** C6. When the call to the source raises, the check returns normally
    and the store is exactly as before: no last-checked time is written,
    no history entry is added and nothing is sent; the check made one
    call to the source, and so does the whole cycle for that
    subscription, with no write and no dispatch for it. *)
Theorem source_failure_leaves_state svc env w s e :
  keys_unique (db w) -> In s (get_active_subscriptions (db w)) ->
  parser env (query_of s) = Raise e ->
  (exists w1,
     _check_subscription svc env (sub_id (row s)) w = (Ok tt, w1)
     /\ db w1 = db w /\ sent w1 = sent w
     /\ trace w1 = trace w ++ [EvGetActiveSubscriptions;
                               EvCheckSeatAvailability (sub_id (row s))])
  /\ (exists w',
        _check_all_subscriptions svc env w = (Ok tt, w')
        /\ count_events (is_probe (sub_id (row s))) (new_events w w') = 1%nat
        /\ count_events (is_touch (sub_id (row s))) (new_events w w') = 0%nat
        /\ count_events (is_history (sub_id (row s))) (new_events w w') = 0%nat
        /\ count_events (is_dispatch (sub_id (row s))) (new_events w w') = 0%nat).
Proof.
  intros K Hin Hraise.
  assert (Hev : check_events svc env s
                = [EvGetActiveSubscriptions; EvCheckSeatAvailability (sub_id (row s))]).
  { unfold check_events. now rewrite Hraise. }
  split.
  - pose proof (find_unique (fun x => sub_id (row x)) _ s (listing_NoDup _ K) Hin) as F.
    exists (checked_world svc env s w). split; [apply check_found, F|].
    unfold checked_world. rewrite Hraise, Hev. repeat split.
  - destruct (cycle_spec svc env w K) as [w' [Hrun [_ [Ht _]]]].
    exists w'. split; [exact Hrun|].
    rewrite (new_events_app _ _ _ Ht).
    change (EvGetActiveSubscriptions :: ?l) with ([EvGetActiveSubscriptions] ++ l).
    rewrite !count_events_app.
    rewrite (count_cycle_events svc env _ _ s (is_probe_own _) (listing_NoDup _ K) Hin).
    rewrite (count_cycle_events svc env _ _ s (is_touch_own _) (listing_NoDup _ K) Hin).
    rewrite (count_cycle_events svc env _ _ s (is_history_own _) (listing_NoDup _ K) Hin).
    rewrite (count_cycle_events svc env _ _ s (is_dispatch_own _) (listing_NoDup _ K) Hin).
    rewrite Hev. unfold count_events. simpl. rewrite Z.eqb_refl. repeat split.
Qed.

(* ================================================================== *)
(** * A cycle under any interleaving of its tasks *)
(* ================================================================== *)

(** What one step does, point by point. *)
Lemma step_eq svc env t w :
  step svc env t w
  = match t with
    | AtListing id =>
        (match find (fun s => sub_id (row s) =? id)
                    (get_active_subscriptions (db w)) with
         | None => Finished
         | Some s => AtProbe s
         end, log EvGetActiveSubscriptions w)
    | AtProbe s =>
        (match parser env (query_of s) with
         | Ok info => AtTouch s info
         | Raise _ => Finished
         end, log (EvCheckSeatAvailability (sub_id (row s))) w)
    | AtTouch s info =>
        (AtHistory s info,
         mk_world (snd (update_last_checked (current_timestamp env)
                                            (sub_id (row s)) (db w)))
                  (sent w) (trace w ++ [EvUpdateLastChecked (sub_id (row s))]))
    | AtHistory s info =>
        (if truthy (available_of info) && has_bot svc
         then AtSend s info else Finished,
         mk_world (snd (add_check_history (current_timestamp env) (sub_id (row s))
                          (available_of info)
                          (if dict_truthy info then Some (py_str env info) else None)
                          (db w)))
                  (sent w)
                  (trace w ++ [EvAddCheckHistory (sub_id (row s)) (available_of info)]))
    | AtSend s info =>
        let message := _format_notification_message (now_text env) s info in
        match bot_send_message env (s_telegram_id s) message with
        | Ok _ =>
            (AtNotification s message,
             mk_world (db w) (sent w ++ [(s_telegram_id s, message)])
                      (trace w ++ [EvSendMessage (sub_id (row s)) (s_telegram_id s)]))
        | Raise _ =>
            (Finished, log (EvSendMessage (sub_id (row s)) (s_telegram_id s)) w)
        end
    | AtNotification s message =>
        (Finished,
         mk_world (snd (add_notification (current_timestamp env) (sub_id (row s))
                                         message (db w)))
                  (sent w) (trace w ++ [EvAddNotification (sub_id (row s))]))
    | Finished => (Finished, w)
    end.
Proof.
  destruct t; unfold step, db_get_active_subscriptions, db_call, call_parser,
    call_send_message, log; cbn [fst snd].
  - destruct (find _ _); reflexivity.
  - destruct (parser env _); reflexivity.
  - reflexivity.
  - reflexivity.
  - destruct (bot_send_message env _ _); reflexivity.
  - reflexivity.
  - reflexivity.
Qed.

(** Run alone from its start, a task goes through the waiting points of
    [_check_subscription] and leaves the world that function leaves. *)
Lemma check_as_steps svc env id w :
  Nat.iter 6 (fun tw => step svc env (fst tw) (snd tw)) (AtListing id, w)
  = (Finished, snd (_check_subscription svc env id w)).
Proof.
  unfold Nat.iter. cbn [nat_rect fst snd].
  destruct (find (fun s => sub_id (row s) =? id) (get_active_subscriptions (db w)))
    as [s|] eqn:F.
  - rewrite (check_found _ _ _ _ _ F). destruct (find_some _ _ F) as [_ Hid].
    apply Z.eqb_eq in Hid. subst id.
    rewrite (step_eq svc env (AtListing _)), F. cbn [fst snd].
    rewrite (step_eq svc env (AtProbe _)). cbn [fst snd].
    unfold checked_world, check_events, notify_events, delivered, checked_db.
    destruct (parser env (query_of s)) as [info|e].
    + rewrite (step_eq svc env (AtTouch _ _)). cbn [fst snd].
      rewrite (step_eq svc env (AtHistory _ _)). cbn [fst snd].
      destruct (truthy (available_of info) && has_bot svc).
      * rewrite (step_eq svc env (AtSend _ _)). cbv zeta.
        destruct (bot_send_message env _ _); cbn [fst snd].
        -- rewrite (step_eq svc env (AtNotification _ _)). cbn [fst snd].
           cbn [andb].
           unfold log. cbn [db sent trace]. rewrite <- !app_assoc. reflexivity.
        -- rewrite !(step_eq svc env Finished). cbn [fst snd andb].
           unfold log. cbn [db sent trace]. rewrite <- !app_assoc. reflexivity.
      * rewrite !(step_eq svc env Finished). cbn [fst snd andb].
        unfold log. cbn [db sent trace]. rewrite <- !app_assoc. reflexivity.
    + rewrite !(step_eq svc env Finished). cbn [fst snd].
      unfold log. cbn [db sent trace]. rewrite <- !app_assoc. reflexivity.
  - rewrite (check_not_found _ _ _ _ F).
    rewrite (step_eq svc env (AtListing _)), F. cbn [fst snd].
    rewrite !(step_eq svc env Finished). reflexivity.
Qed.

Lemma recorded_grows rows rows1 s info :
  recorded rows s info -> recorded (rows ++ rows1) s info.
Proof.
  intros [c [Hc H]]. exists c. split; [apply in_or_app; now left | exact H].
Qed.

Lemma task_inv_grows env evs rows evs1 rows1 s t :
  task_inv env evs rows s t -> task_inv env (evs ++ evs1) (rows ++ rows1) s t.
Proof.
  destruct t; simpl; intuition (auto using in_or_app, recorded_grows).
Qed.

Section Interleaving.

Variables (svc : MonitoringService) (env : Env) (d0 : Database).
Hypothesis K : keys_unique d0.

(** A step of the task of a listed subscription adds calls and history
    rows, changes nothing but last-checked times in the subscriptions,
    and takes the task to a point where [task_inv] holds again. *)
Lemma step_inv w evs rows s t :
  In s (get_active_subscriptions d0) -> same_rows d0 (db w) ->
  task_inv env evs rows s t ->
  exists evs1 rows1,
    trace (snd (step svc env t w)) = trace w ++ evs1
    /\ check_history (db (snd (step svc env t w))) = check_history (db w) ++ rows1
    /\ same_rows d0 (db (snd (step svc env t w)))
    /\ task_inv env (evs ++ evs1) (rows ++ rows1) s (fst (step svc env t w)).
Proof.
  intros Hin R Inv. rewrite step_eq.
  destruct t as [id|s'|s' info|s' info|s' info|s' msg|]; cbn [task_inv] in Inv.
  - subst id. destruct (find_listed d0 (db w) s K R Hin) as [s' [F Es]].
    rewrite F. exists [EvGetActiveSubscriptions], []. cbn [fst snd log db trace].
    rewrite !app_nil_r. repeat split; try assumption; apply R.
  - destruct (untimed_s_fields _ _ Inv) as [Hid [_ [Hq _]]].
    exists [EvCheckSeatAvailability (sub_id (row s'))], [].
    cbn [fst snd log db trace]. rewrite !app_nil_r, Hq, Hid.
    split; [reflexivity|]. split; [reflexivity|]. split; [exact R|].
    destruct (parser env (query_of s)) as [info|e] eqn:P; cbn [task_inv].
    + split; [exact Inv|]. split; [exact P|]. apply in_or_app. right. now left.
    + split; [apply in_or_app; right; now left|]. intros info H. congruence.
  - destruct Inv as [Es [P Hp]].
    exists [EvUpdateLastChecked (sub_id (row s'))], [].
    cbn [fst snd db trace check_history update_last_checked set_subscriptions].
    rewrite !app_nil_r. split; [reflexivity|]. split; [reflexivity|]. split.
    + destruct R as [R1 R2]. split; [|exact R2].
      simpl. rewrite map_untimed_touch. exact R1.
    + cbn [task_inv]. split; [exact Es|]. split; [exact P|].
      apply in_or_app. now left.
  - destruct Inv as [Es [P Hp]].
    destruct (untimed_s_fields _ _ Es) as [Hid _].
    eexists [EvAddCheckHistory (sub_id (row s')) (available_of info)], [_].
    cbn [fst snd db trace check_history add_check_history].
    split; [reflexivity|]. split; [reflexivity|]. split; [exact R|].
    assert (Rec : recorded
                    (rows ++ [mk_check
                                (next_rowid (check_history_seq (db w))
                                            (map c_id (check_history (db w))))
                                (sub_id (row s')) (current_timestamp env)
                                (available_of info)
                                (if dict_truthy info
                                 then Some (py_str env info) else None)])
                    s info).
    { eexists. split; [apply in_or_app; right; now left|].
      split; [exact Hid | reflexivity]. }
    destruct (truthy (available_of info) && has_bot svc); cbn [task_inv].
    + split; [exact Es|]. split; [exact P|].
      split; [apply in_or_app; now left | exact Rec].
    + split; [apply in_or_app; now left|].
      intros info' P'. assert (info' = info) by congruence. subst info'. exact Rec.
  - destruct Inv as [Es [P [Hp Rec]]]. cbv zeta.
    exists [EvSendMessage (sub_id (row s')) (s_telegram_id s')], [].
    rewrite !app_nil_r.
    destruct (bot_send_message env _ _); cbn [fst snd log db trace task_inv].
    + split; [reflexivity|]. split; [reflexivity|]. split; [exact R|].
      split; [exact Es|]. split; [apply in_or_app; now left|].
      intros info' P'. assert (info' = info) by congruence. subst info'. exact Rec.
    + split; [reflexivity|]. split; [reflexivity|]. split; [exact R|].
      split; [apply in_or_app; now left|].
      intros info' P'. assert (info' = info) by congruence. subst info'. exact Rec.
  - destruct Inv as [Es [Hp Rec]].
    exists [EvAddNotification (sub_id (row s'))], [].
    cbn [fst snd db trace check_history add_notification task_inv].
    rewrite !app_nil_r. split; [reflexivity|]. split; [reflexivity|].
    split; [exact R|]. split; [apply in_or_app; now left | exact Rec].
  - exists [], []. cbn [fst snd]. rewrite !app_nil_r.
    split; [reflexivity|]. split; [reflexivity|]. split; [exact R | exact Inv].
Qed.

Lemma resume_inv :
  forall i L tasks w evs rows,
    incl L (get_active_subscriptions d0) -> same_rows d0 (db w) ->
    Forall2 (task_inv env evs rows) L tasks ->
    exists evs1 rows1,
      trace (snd (resume svc env i tasks w)) = trace w ++ evs1
      /\ check_history (db (snd (resume svc env i tasks w)))
         = check_history (db w) ++ rows1
      /\ same_rows d0 (db (snd (resume svc env i tasks w)))
      /\ Forall2 (task_inv env (evs ++ evs1) (rows ++ rows1)) L
                 (fst (resume svc env i tasks w)).
Proof.
  induction i as [|j IH]; intros L tasks w evs rows Hincl R F.
  - destruct F as [|s t L tasks Hst F].
    + exists [], []. cbn [resume fst snd]. rewrite !app_nil_r.
      repeat split; try apply R. constructor.
    + destruct (step_inv w evs rows s t (Hincl s (or_introl eq_refl)) R Hst)
        as [evs1 [rows1 [Ht [Hh [R' Inv']]]]].
      exists evs1, rows1. cbn [resume].
      destruct (step svc env t w) as [t' w'] eqn:S. cbn [fst snd] in *.
      split; [exact Ht|]. split; [exact Hh|]. split; [exact R'|].
      constructor; [exact Inv'|].
      eapply Forall2_impl; [|exact F]. intros a b. apply task_inv_grows.
  - destruct F as [|s t L tasks Hst F].
    + exists [], []. cbn [resume fst snd]. rewrite !app_nil_r.
      repeat split; try apply R. constructor.
    + destruct (IH L tasks w evs rows (fun x Hx => Hincl x (or_intror Hx)) R F)
        as [evs1 [rows1 [Ht [Hh [R' F']]]]].
      exists evs1, rows1. cbn [resume].
      destruct (resume svc env j tasks w) as [tasks' w'] eqn:S. cbn [fst snd] in *.
      split; [exact Ht|]. split; [exact Hh|]. split; [exact R'|].
      constructor; [now apply task_inv_grows | exact F'].
Qed.

Lemma run_schedule_inv :
  forall schedule L tasks w evs rows,
    incl L (get_active_subscriptions d0) -> same_rows d0 (db w) ->
    Forall2 (task_inv env evs rows) L tasks ->
    exists evs1 rows1,
      trace (snd (run_schedule svc env schedule tasks w)) = trace w ++ evs1
      /\ check_history (db (snd (run_schedule svc env schedule tasks w)))
         = check_history (db w) ++ rows1
      /\ Forall2 (task_inv env (evs ++ evs1) (rows ++ rows1)) L
                 (fst (run_schedule svc env schedule tasks w)).
Proof.
  induction schedule as [|i later IH]; intros L tasks w evs rows Hincl R F.
  - exists [], []. cbn [run_schedule fst snd]. rewrite !app_nil_r.
    repeat split. exact F.
  - destruct (resume_inv i L tasks w evs rows Hincl R F)
      as [evs1 [rows1 [Ht [Hh [R' F']]]]].
    cbn [run_schedule]. destruct (resume svc env i tasks w) as [tasks' w'] eqn:S.
    cbn [fst snd] in *.
    destruct (IH L tasks' w' (evs ++ evs1) (rows ++ rows1) Hincl R' F')
      as [evs2 [rows2 [Ht2 [Hh2 F2]]]].
    exists (evs1 ++ evs2), (rows1 ++ rows2).
    rewrite Ht2, Hh2, Ht, Hh, <- !app_assoc.
    split; [reflexivity|]. split; [reflexivity|].
    rewrite <- !app_assoc in F2. exact F2.
Qed.

End Interleaving.

(** ** Every task ends after six steps *)

Lemma step_remaining svc env t w :
  (remaining (fst (step svc env t w)) <= pred (remaining t))%nat.
Proof.
  rewrite step_eq. destruct t; cbv zeta;
    repeat match goal with
           | |- context [match ?x with _ => _ end] => destruct x
           end;
    cbn [fst remaining pred]; lia.
Qed.

Lemma remaining_zero t : remaining t = 0%nat -> t = Finished.
Proof. destruct t; simpl; intros H; [discriminate H ..|reflexivity]. Qed.

Lemma resume_length svc env :
  forall i tasks w,
    List.length (fst (resume svc env i tasks w)) = List.length tasks.
Proof.
  induction i as [|j IH]; intros [|t tasks] w; cbn [resume]; try reflexivity.
  - destruct (step svc env t w). reflexivity.
  - specialize (IH tasks w). destruct (resume svc env j tasks w).
    cbn [fst List.length] in *. now rewrite IH.
Qed.

Lemma run_schedule_length svc env :
  forall schedule tasks w,
    List.length (fst (run_schedule svc env schedule tasks w)) = List.length tasks.
Proof.
  induction schedule as [|i later IH]; intros tasks w; [reflexivity|].
  cbn [run_schedule]. pose proof (resume_length svc env i tasks w) as H.
  destruct (resume svc env i tasks w) as [tasks' w']. cbn [fst] in H.
  now rewrite IH.
Qed.

Lemma resume_remaining svc env :
  forall i j tasks w,
    (remaining (nth j (fst (resume svc env i tasks w)) Finished)
     <= if Nat.eqb i j then pred (remaining (nth j tasks Finished))
        else remaining (nth j tasks Finished))%nat.
Proof.
  induction i as [|i IH]; intros j [|t tasks] w; cbn [resume].
  - destruct j; cbn; lia.
  - pose proof (step_remaining svc env t w) as H.
    destruct (step svc env t w) as [t' w']. destruct j; cbn [fst nth Nat.eqb] in *;
      [exact H | lia].
  - destruct j; cbn; lia.
  - specialize (IH (pred j) tasks w).
    destruct (resume svc env i tasks w) as [tasks' w'].
    destruct j; cbn [fst nth Nat.eqb pred] in *; [lia | exact IH].
Qed.

Lemma run_schedule_remaining svc env :
  forall schedule j tasks w,
    (remaining (nth j (fst (run_schedule svc env schedule tasks w)) Finished)
     <= remaining (nth j tasks Finished) - count_occ Nat.eq_dec schedule j)%nat.
Proof.
  induction schedule as [|i later IH]; intros j tasks w.
  - cbn. lia.
  - cbn [run_schedule]. pose proof (resume_remaining svc env i j tasks w) as H.
    destruct (resume svc env i tasks w) as [tasks' w']. cbn [fst] in H.
    specialize (IH j tasks' w'). cbn [count_occ].
    destruct (Nat.eq_dec i j) as [->|Hne].
    + rewrite Nat.eqb_refl in H. lia.
    + apply Nat.eqb_neq in Hne. rewrite Hne in H. lia.
Qed.

Lemma Forall2_nth_error {A B : Type} (P : A -> B -> Prop) (l1 : list A) (l2 : list B) :
  Forall2 P l1 l2 ->
  forall i a b, nth_error l1 i = Some a -> nth_error l2 i = Some b -> P a b.
Proof.
  induction 1 as [|x y l1 l2 Hxy F IH]; intros [|i] a b Ha Hb;
    cbn [nth_error] in *; try discriminate.
  - congruence.
  - eapply IH; eassumption.
Qed.

Lemma initial_tasks_inv env (L : list subscription) :
  Forall2 (task_inv env [] []) L (map (fun s => AtListing (sub_id (row s))) L).
Proof. induction L; cbn [map]; constructor; [reflexivity | assumption]. Qed.

(** Isolation under interleaving. However the event loop interleaves the
    checks of a cycle, a task that has finished has made its call to the
    source, and has left its history entry if the source answered it,
    whatever happened to the other tasks; and once every task has been
    resumed six times, all of them have finished. *)
Theorem isolation_under_interleaving svc env schedule w :
  keys_unique (db w) ->
  let L := get_active_subscriptions (db w) in
  let tasks := fst (check_all_interleaved svc env schedule w) in
  let w' := snd (check_all_interleaved svc env schedule w) in
  List.length tasks = List.length L
  /\ (forall i s,
        nth_error L i = Some s -> nth_error tasks i = Some Finished ->
        In (EvCheckSeatAvailability (sub_id (row s))) (new_events w w')
        /\ forall info, parser env (query_of s) = Ok info ->
                        recorded (new_history w w') s info)
  /\ (resumes_each 6 (List.length L) schedule -> Forall (eq Finished) tasks).
Proof.
  intros K L tasks w'. unfold check_all_interleaved, db_get_active_subscriptions,
    db_call in tasks, w'. cbn [fst snd] in tasks, w'. fold L in tasks, w'.
  set (w1 := mk_world (db w) (sent w) (trace w ++ [EvGetActiveSubscriptions])) in *.
  set (start := map (fun s => AtListing (sub_id (row s))) L) in *.
  assert (Hlen : List.length tasks = List.length L).
  { unfold tasks. rewrite run_schedule_length. unfold start. apply length_map. }
  split; [exact Hlen|]. split.
  - destruct (run_schedule_inv svc env (db w) K schedule L start w1 [] []
                (incl_refl _) (same_rows_refl _) (initial_tasks_inv env L))
      as [evs1 [rows1 [Ht [Hh F]]]].
    fold tasks w' in Ht, Hh, F. cbn [app] in F.
    assert (Ev : new_events w w' = EvGetActiveSubscriptions :: evs1).
    { apply new_events_app. rewrite Ht. unfold w1. cbn [trace].
      now rewrite <- app_assoc. }
    assert (Hi : new_history w w' = rows1).
    { unfold new_history. rewrite Hh. unfold w1. cbn [db].
      now rewrite skipn_app, skipn_all, Nat.sub_diag. }
    intros i s Hs Hf.
    pose proof (Forall2_nth_error _ _ _ F i s Finished Hs Hf) as [Hp Hr].
    rewrite Ev, Hi. split; [now right | exact Hr].
  - intros Hfair. apply Forall_forall. intros t Ht.
    destruct (In_nth _ _ Finished Ht) as [j [Hj Hn]].
    pose proof (run_schedule_remaining svc env schedule j start w1) as H.
    fold tasks in H. rewrite Hn in H.
    assert (Hstart : (remaining (nth j start Finished) <= 6)%nat).
    { destruct (nth j start Finished); cbn; lia. }
    rewrite Hlen in Hj. specialize (Hfair j Hj).
    symmetry. apply remaining_zero. lia.
Qed.

(** ** The tasks run one after the other *)

Lemma run_schedule_app svc env (s1 s2 : list nat) :
  forall tasks w,
    run_schedule svc env (s1 ++ s2) tasks w
    = run_schedule svc env s2 (fst (run_schedule svc env s1 tasks w))
                   (snd (run_schedule svc env s1 tasks w)).
Proof.
  induction s1 as [|i s1 IH]; intros tasks w; [reflexivity|].
  cbn [app run_schedule]. destruct (resume svc env i tasks w). apply IH.
Qed.

Lemma run_schedule_shift svc env (t : task) :
  forall schedule tasks w,
    run_schedule svc env (map S schedule) (t :: tasks) w
    = (t :: fst (run_schedule svc env schedule tasks w),
       snd (run_schedule svc env schedule tasks w)).
Proof.
  induction schedule as [|i later IH]; intros tasks w; [reflexivity|].
  cbn [map run_schedule resume]. destruct (resume svc env i tasks w). apply IH.
Qed.

Lemma run_schedule_head svc env (tasks : list task) :
  forall n t w,
    run_schedule svc env (repeat 0%nat n) (t :: tasks) w
    = (fst (Nat.iter n (fun tw => step svc env (fst tw) (snd tw)) (t, w)) :: tasks,
       snd (Nat.iter n (fun tw => step svc env (fst tw) (snd tw)) (t, w))).
Proof.
  induction n as [|n IH]; intros t w; [reflexivity|].
  cbn [repeat run_schedule resume]. rewrite Nat.iter_succ_r. cbn [fst snd].
  destruct (step svc env t w) as [t' w']. apply IH.
Qed.

Lemma sequential_succ (n : nat) :
  sequential (S n) = repeat 0%nat 6 ++ map S (sequential n).
Proof.
  unfold sequential. rewrite <- cons_seq, <- seq_shift. cbn [flat_map]. f_equal.
  induction (seq 0 n) as [|i l IH]; [reflexivity|].
  cbn [map flat_map]. rewrite map_app, IH. reflexivity.
Qed.

Lemma gather_cons {A : Type} (t : M A) (rest : list (M A)) (w : World) :
  snd (gather (t :: rest) w) = snd (gather rest (snd (t w))).
Proof.
  cbn [gather]. destruct (t w) as [r w1]. cbn [snd].
  destruct (gather rest w1) as [[rs|e] w2]; reflexivity.
Qed.

Lemma gather_returns {A : Type} (tasks : list (M A)) :
  forall w, exists rs, fst (gather tasks w) = Ok rs.
Proof.
  induction tasks as [|t rest IH]; intros w; [now exists []|].
  cbn [gather]. destruct (t w) as [r w1]. destruct (IH w1) as [rs H].
  destruct (gather rest w1) as [[rs'|e] w2]; cbn [fst] in *; [|discriminate].
  now exists (r :: rs').
Qed.

(** Resuming each task six times before the next is resumed is what
    [gather] does in [_check_all_subscriptions]. *)
Lemma sequential_is_gather svc env :
  forall ids w,
    run_schedule svc env (sequential (List.length ids)) (map AtListing ids) w
    = (map (fun _ => Finished) ids,
       snd (gather (map (_check_subscription svc env) ids) w)).
Proof.
  induction ids as [|id ids IH]; intros w; [reflexivity|].
  cbn [List.length map]. rewrite sequential_succ, run_schedule_app.
  rewrite run_schedule_head, check_as_steps. cbn [fst snd].
  rewrite run_schedule_shift, IH. cbn [fst snd]. now rewrite gather_cons.
Qed.

Lemma check_all_sequential svc env w :
  snd (check_all_interleaved svc env
         (sequential (List.length (get_active_subscriptions (db w)))) w)
  = snd (_check_all_subscriptions svc env w).
Proof.
  unfold check_all_interleaved, _check_all_subscriptions, try_except, bind,
    db_get_active_subscriptions, db_call. cbn [fst snd].
  set (w1 := mk_world (db w) (sent w) (trace w ++ [EvGetActiveSubscriptions])).
  pose proof (sequential_is_gather svc env
                (map (fun s => sub_id (row s)) (get_active_subscriptions (db w))) w1)
    as H.
  rewrite length_map, !map_map in H. rewrite H. cbn [snd].
  destruct (gather_returns
              (map (fun s => _check_subscription svc env (sub_id (row s)))
                   (get_active_subscriptions (db w))) w1) as [rs Hr].
  destruct (gather _ w1) as [[rs'|e] w2]; cbn [fst] in Hr; [reflexivity|discriminate].
Qed.

(* ================================================================== *)
(** * Order of the calls of a check *)
(* ================================================================== *)

Lemma truthy_dispatch_count svc env s info :
  count_events (is_dispatch (sub_id (row s))) (notify_events svc env s info)
  = if truthy (available_of info) && has_bot svc then 1%nat else 0%nat.
Proof.
  unfold notify_events, count_events.
  destruct (truthy (available_of info) && has_bot svc); [|reflexivity].
  simpl. rewrite Z.eqb_refl. destruct (bot_send_message env _ _); reflexivity.
Qed.

(** C5, as the code has it. In a check that gets an answer the calls are,
    in this order: the verdict is fetched, the last-checked time is
    written, the history entry is recorded, and then the notification is
    dispatched if the verdict is "available" and the bot is configured
    (followed by its record when the delivery succeeded). *)
Theorem check_calls_in_order svc env id w s info :
  find (fun x => sub_id (row x) =? id) (get_active_subscriptions (db w)) = Some s ->
  parser env (query_of s) = Ok info ->
  let evs := new_events w (snd (_check_subscription svc env id w)) in
  evs = [EvGetActiveSubscriptions; EvCheckSeatAvailability id;
         EvUpdateLastChecked id; EvAddCheckHistory id (available_of info)]
        ++ notify_events svc env s info
  /\ code_order id evs = true
  /\ spec_order id evs = false.
Proof.
  intros F Hok evs.
  destruct (find_some _ _ F) as [_ Hid]. apply Z.eqb_eq in Hid.
  assert (E : evs = [EvGetActiveSubscriptions; EvCheckSeatAvailability id;
                     EvUpdateLastChecked id; EvAddCheckHistory id (available_of info)]
                    ++ notify_events svc env s info).
  { unfold evs. rewrite (check_found _ _ _ _ _ F). cbn [snd].
    apply new_events_app. rewrite checked_world_trace.
    unfold check_events. rewrite Hok, Hid. reflexivity. }
  split; [exact E|].
  pose proof (truthy_dispatch_count svc env s info) as Hc. rewrite Hid in Hc.
  rewrite E. unfold code_order, spec_order, precedes.
  change ([?a; ?b; ?c; ?d] ++ ?l) with ([a; b; c; d] ++ l).
  rewrite count_events_app, Hc.
  unfold notify_events. subst id. simpl. rewrite !Z.eqb_refl. simpl.
  destruct (truthy (available_of info) && has_bot svc); simpl.
  - rewrite Z.eqb_refl. split; reflexivity.
  - split; reflexivity.
Qed.

(* ================================================================== *)
(** * Reconfiguration *)
(* ================================================================== *)

(** C3. [update_check_interval] sets the interval to 60 when less than 60
    seconds are requested and to the requested value otherwise, and
    changes nothing else; a request for 10 seconds gives 60. *)
Theorem update_check_interval_floor (svc : MonitoringService) (interval : Z) :
  (interval < 60 -> check_interval (update_check_interval svc interval) = 60)
  /\ (60 <= interval -> check_interval (update_check_interval svc interval) = interval)
  /\ check_interval (update_check_interval svc 10) = 60
  /\ 60 <= check_interval (update_check_interval svc interval)
  /\ bot_token (update_check_interval svc interval) = bot_token svc
  /\ is_running (update_check_interval svc interval) = is_running svc
  /\ max_retries (update_check_interval svc interval) = max_retries svc
  /\ retry_delay (update_check_interval svc interval) = retry_delay svc.
Proof.
  unfold update_check_interval. simpl.
  destruct (interval <? 60) eqn:E;
    [apply Z.ltb_lt in E | apply Z.ltb_ge in E];
    repeat split; try reflexivity; lia.
Qed.

(* ================================================================== *)
(** * The examples, evaluated *)
(* ================================================================== *)

Lemma example_keys : keys_unique example_db.
Proof. solve_keys. Qed.

Lemma two_subscriptions_keys : keys_unique two_subscriptions_db.
Proof. solve_keys. Qed.

(** The verdicts [false, true, true, false, true] lead to three
    notifications, in the cycles 1, 2 and 4: the cycle 2 repeats the
    notification of the cycle 1. *)
Lemma three_notifications_for_five_verdicts :
  notified_cycles example_service 1 0 five_cycles example_world = [1; 2; 4]%nat
  /\ List.length (sent (snd (run_cycles example_service five_cycles example_world)))
     = 3%nat
  /\ List.length (notifications
                    (db (snd (run_cycles example_service five_cycles example_world))))
     = 3%nat
  /\ Nat.eqb (List.length
                (sent (snd (run_cycles example_service five_cycles example_world))))
             2 = false.
Proof. vm_compute. repeat split. Qed.

(** In a check that gets an answer the last-checked time is written
    before the history entry is recorded, not after it. *)
Lemma history_is_recorded_after_last_checked :
  new_events example_world
    (snd (_check_subscription example_service (example_env (always true) delivers)
                              1 example_world))
  = [EvGetActiveSubscriptions; EvCheckSeatAvailability 1; EvUpdateLastChecked 1;
     EvAddCheckHistory 1 (VBool true); EvSendMessage 1 42; EvAddNotification 1]
  /\ spec_order 1
       (new_events example_world
          (snd (_check_subscription example_service
                  (example_env (always true) delivers) 1 example_world)))
     = false.
Proof. vm_compute. split; reflexivity. Qed.

Lemma update_check_interval_floor_witness :
  check_interval (update_check_interval example_service 10) = 60
  /\ check_interval (update_check_interval example_service 900) = 900.
Proof.
  split.
  - apply (proj1 (update_check_interval_floor example_service 10)). lia.
  - apply (proj1 (proj2 (update_check_interval_floor example_service 900))). lia.
Defined.

Lemma notify_on_every_available_cycle_witness :
  notified_cycles example_service 1 0 five_cycles example_world = [1; 2; 4]%nat.
Proof.
  apply (proj2 (notify_on_every_available_cycle example_service five_cycles
                  example_world example_subscription
                  eq_refl example_keys (or_introl eq_refl))).
  reflexivity.
Defined.

(* ================================================================== *)
(** * The notification message *)
(* ================================================================== *)

Lemma append_assoc (a b c : string) :
  ((a ++ b) ++ c = a ++ (b ++ c))%string.
Proof. induction a as [|x a IH]; simpl; [reflexivity | now rewrite IH]. Qed.

Lemma append_nil_r (a : string) : (a ++ "" = a)%string.
Proof. induction a as [|x a IH]; simpl; [reflexivity | now rewrite IH]. Qed.

Lemma occurs_in_head (x rest : string) : occurs_in x (x ++ rest).
Proof. exists EmptyString, rest. reflexivity. Qed.

Lemma occurs_in_skip (x a t : string) : occurs_in x t -> occurs_in x (a ++ t).
Proof.
  intros [before [after ->]]. exists (a ++ before)%string, after.
  now rewrite append_assoc.
Qed.

(** The line of an optional detail, as the code builds it. *)
Lemma optional_detail (label k : string) (info : dict) (message : string) :
  (if dict_get_truthy k info
   then message ++ label ++ format_value (dict_get_default k VNone info) ++ nl
   else message)%string
  = (message ++ optional_line label (present k info))%string.
Proof.
  unfold dict_get_truthy, dict_get_default, present, optional_line.
  destruct (dict_get k info) as [[|[|]|t]|]; simpl;
    try (now rewrite append_nil_r); try reflexivity.
  destruct (String.eqb t ""); simpl; [now rewrite append_nil_r | reflexivity].
Qed.

(** C8. The message is the text of the subscription's train, route, date
    and class, then one line for the berth exactly when the preference is
    not "любая", one line each for the price, the car and the seat
    exactly when the availability result holds it, then the text of the
    time of the notification; so it contains the five fields of the
    subscription, and equal inputs and equal times give equal messages. *)
Theorem notification_message_contents (stamp : string) (s : subscription)
        (info : dict) :
  let message := _format_notification_message stamp s info in
  (message
   = message_head s
     ++ optional_line berth_label (berth_shown s)
     ++ optional_line price_label (present "price" info)
     ++ optional_line car_label (present "car_number" info)
     ++ optional_line seat_label (present "seat_number" info)
     ++ message_foot stamp)%string
  /\ occurs_in (train_number (row s)) message
  /\ occurs_in (departure_station (row s)) message
  /\ occurs_in (arrival_station (row s)) message
  /\ occurs_in (departure_date (row s)) message
  /\ occurs_in (seat_type (row s)) message
  /\ occurs_in stamp message
  /\ (berth_shown s = None <-> berth_position (row s) = "любая"%string)
  /\ (forall shown, berth_shown s = Some shown -> occurs_in shown message)
  /\ (forall shown, present "price" info = Some shown -> occurs_in shown message)
  /\ (forall shown, present "car_number" info = Some shown -> occurs_in shown message)
  /\ (forall shown, present "seat_number" info = Some shown -> occurs_in shown message).
Proof.
  intros message.
  assert (E : (message
               = message_head s
                 ++ optional_line berth_label (berth_shown s)
                 ++ optional_line price_label (present "price" info)
                 ++ optional_line car_label (present "car_number" info)
                 ++ optional_line seat_label (present "seat_number" info)
                 ++ message_foot stamp)%string).
  { unfold message, _format_notification_message.
    fold (message_head s). fold berth_label price_label car_label seat_label.
    rewrite !optional_detail.
    replace (if negb (String.eqb (berth_position (row s)) "любая")
             then (message_head s ++ berth_label ++ berth_position (row s) ++ nl)%string
             else message_head s)
      with (message_head s ++ optional_line berth_label (berth_shown s))%string.
    - unfold message_foot. now rewrite !append_assoc.
    - unfold berth_shown, optional_line.
      destruct (String.eqb (berth_position (row s)) "любая"); simpl;
        [now rewrite append_nil_r | reflexivity]. }
  split; [exact E|]. rewrite E. clear E message.
  unfold message_head, message_foot. rewrite !append_assoc.
  repeat split;
    try solve [repeat first [apply occurs_in_head | apply occurs_in_skip]].
  - unfold berth_shown. destruct (String.eqb _ _) eqn:B; [|intros H; discriminate H].
    intros _. now apply String.eqb_eq.
  - intros B. unfold berth_shown. apply String.eqb_eq in B. now rewrite B.
  - intros shown H. rewrite H. unfold optional_line.
    rewrite !append_assoc.
    repeat first [apply occurs_in_head | apply occurs_in_skip].
  - intros shown H. rewrite H. unfold optional_line.
    rewrite !append_assoc.
    repeat first [apply occurs_in_head | apply occurs_in_skip].
  - intros shown H. rewrite H. unfold optional_line.
    rewrite !append_assoc.
    repeat first [apply occurs_in_head | apply occurs_in_skip].
  - intros shown H. rewrite H. unfold optional_line.
    rewrite !append_assoc.
    repeat first [apply occurs_in_head | apply occurs_in_skip].
Qed.

(* ================================================================== *)
(** * The availability adapter *)
(* ================================================================== *)

Local Open Scope string_scope.

Lemma dict_mem_set {V : Type} (k k' : string) (v : V) (d : list (string * V)) :
  dict_mem k (dict_set k' v d) = String.eqb k k' || dict_mem k d.
Proof.
  unfold dict_mem. induction d as [|[k0 v0] d IH]; simpl.
  - destruct (String.eqb k k'); reflexivity.
  - destruct (String.eqb k' k0) eqn:E; simpl.
    + apply String.eqb_eq in E. subst k0.
      destruct (String.eqb k k'); reflexivity.
    + destruct (String.eqb k k0) eqn:E0; [now rewrite orb_true_r | exact IH].
Qed.

Lemma general_availability_has_available net page seat_type berth_position :
  dict_mem "available"
    (RZDParser._check_general_availability net page seat_type berth_position) = true.
Proof.
  unfold RZDParser._check_general_availability, res_catch, res_bind.
  destruct (RZDParser.s_get_text page); [|reflexivity].
  repeat match goal with |- context [if ?c then _ else _] => destruct c end;
    reflexivity.
Qed.

Lemma scan_blocks_has_available net seat_type berth_position blocks seat_info :
  dict_mem "available" seat_info = true ->
  dict_mem "available"
    (RZDParser.scan_blocks net seat_type berth_position blocks seat_info) = true.
Proof.
  intros H. induction blocks as [|b rest IH]; simpl; [exact H|].
  destruct (RZDParser._is_seat_available net b seat_type berth_position); [|exact IH].
  rewrite !dict_mem_set, H. reflexivity.
Qed.

(** [_parse_seat_availability] returns a dictionary with an [available]
    entry for every page. *)
Lemma parse_has_available net html seat_type berth_position :
  dict_mem "available"
    (RZDParser._parse_seat_availability net html seat_type berth_position) = true.
Proof.
  unfold RZDParser._parse_seat_availability, res_catch, res_bind.
  destruct (RZDParser.BeautifulSoup net html) as [page|e]; [|reflexivity].
  destruct (RZDParser.select_first page RZDParser.seat_selectors) as [blocks|e];
    [|reflexivity].
  destruct blocks as [|b bs];
    [destruct (RZDParser.s_find_all_text_parents page) as [bs|e]; [|reflexivity]|];
    (match goal with |- context [if ?c then _ else _] => destruct c end;
     [apply general_availability_has_available
     |apply scan_blocks_has_available; reflexivity]).
Qed.

Lemma failed_available_of (d : dict) : failed d -> available_of d = VBool false.
Proof. intros [H _]. unfold available_of, dict_get_default. now rewrite H. Qed.

Lemma scan_blocks_find net seat_type berth_position blocks seat_info :
  RZDParser.scan_blocks net seat_type berth_position blocks seat_info
  = match find (fun b => RZDParser._is_seat_available net b seat_type berth_position)
               blocks with
    | Some b =>
        dict_set "seat_number" (of_opt_str (RZDParser._extract_seat_number b))
          (dict_set "car_number" (of_opt_str (RZDParser._extract_car_number b))
             (dict_set "price" (of_opt_str (RZDParser._extract_price b))
                (dict_set "available" (VBool true) seat_info)))
    | None => seat_info
    end.
Proof.
  induction blocks as [|b rest IH]; cbn [RZDParser.scan_blocks find]; [reflexivity|].
  destruct (RZDParser._is_seat_available net b seat_type berth_position);
    [reflexivity | exact IH].
Qed.

Lemma failed_error_pair (m : string) :
  failed [("available", VBool false); ("error", VStr m)].
Proof. split; reflexivity. Qed.

(** The handler of [_check_general_availability] is reached exactly when
    the text of the page cannot be read. *)
Lemma general_availability_cases net page seat_type berth_position :
  let d := RZDParser._check_general_availability net page seat_type berth_position in
  (forall e, RZDParser.s_get_text page = Raise e -> failed d)
  /\ (forall t, RZDParser.s_get_text page = Ok t -> dict_mem "error" d = false).
Proof.
  cbv zeta. unfold RZDParser._check_general_availability, res_catch, res_bind.
  destruct (RZDParser.s_get_text page) as [t|e].
  - split; [intros e H; discriminate H|]. intros t' _.
    repeat match goal with |- context [if ?c then _ else _] => destruct c end;
      reflexivity.
  - split; [|intros t H; discriminate H]. intros e' _. split; reflexivity.
Qed.

(** What [_parse_seat_availability] returns, by what happens on the way. *)
Lemma parse_seat_availability_cases net html seat_type berth_position :
  let d := RZDParser._parse_seat_availability net html seat_type berth_position in
  (forall e, RZDParser.BeautifulSoup net html = Raise e -> failed d)
  /\ (forall page,
        RZDParser.BeautifulSoup net html = Ok page ->
        (forall e, seat_blocks page = Raise e -> failed d)
        /\ (forall blocks,
              seat_blocks page = Ok blocks ->
              (forall b,
                 find (fun b => RZDParser._is_seat_available net b seat_type
                                                             berth_position) blocks
                 = Some b ->
                 d = seat_found seat_type berth_position b)
              /\ (find (fun b => RZDParser._is_seat_available net b seat_type
                                                              berth_position) blocks
                  = None ->
                  d = RZDParser._check_general_availability net page seat_type
                                                            berth_position))).
Proof.
  cbv zeta. unfold RZDParser._parse_seat_availability, seat_blocks.
  destruct (RZDParser.BeautifulSoup net html) as [page|e]; cbn [res_bind res_catch].
  2:{ split; [intros e' _; apply failed_error_pair | intros page H; discriminate H]. }
  split; [intros e H; discriminate H|]. intros page' E. injection E as <-.
  destruct (RZDParser.select_first page RZDParser.seat_selectors) as [selected|e];
    cbn [res_bind res_catch].
  2:{ split; [intros e' _; apply failed_error_pair | intros blocks H; discriminate H]. }
  destruct selected as [|b0 bs].
  - destruct (RZDParser.s_find_all_text_parents page) as [parents|e];
      cbn [res_bind res_catch].
    + split; [intros e H; discriminate H|]. intros blocks E'. injection E' as <-.
      rewrite scan_blocks_find.
      split; [intros b F | intros F]; rewrite F; reflexivity.
    + split; [intros e' _; apply failed_error_pair | intros blocks H; discriminate H].
  - cbn [res_bind res_catch].
    split; [intros e H; discriminate H|]. intros blocks E'. injection E' as <-.
    rewrite scan_blocks_find.
    split; [intros b F | intros F]; rewrite F; reflexivity.
Qed.

(** C9, as the code has it. [check_seat_availability] returns for every
    input, and what it returns has an [available] entry. The result is
    "not available" with an [error] entry
    - when a station code is not found, when the request raises, when the
      response is not a 200 or when its body cannot be read (the checks
      and the handler of [check_seat_availability]);
    - when the page cannot be parsed or its blocks cannot be selected
      (the handler of [_parse_seat_availability]);
    - when no block is available and the text of the page cannot be read
      (the handler of [_check_general_availability]).
    An exception raised while a block is examined stays inside the helper
    that examines it: a block whose text cannot be read counts as not
    available, and a price, car or seat that cannot be read is [None]. The
    result then has no [error] entry, and it is "available" when a block
    is. The monitoring service handles a result with [available] false
    and an [error] entry like the verdict "not available": it writes the
    last-checked time, records a history entry with [False], and
    dispatches nothing. *)
Theorem check_seat_availability_total (net : RZDParser.Net)
        (train dep arr date seat berth : string) :
  exists d,
    RZDParser.check_seat_availability net train dep arr date seat berth = Ok d
    /\ dict_mem "available" d = true
    /\ (let departure_code := RZDParser._get_station_code net dep in
        let arrival_code := RZDParser._get_station_code net arr in
        let request :=
          RZDParser.http_get net RZDParser.check_url
            (RZDParser.check_params departure_code arrival_code date train) in
        (opt_str_truthy departure_code = false -> failed d)
        /\ (opt_str_truthy arrival_code = false -> failed d)
        /\ (opt_str_truthy departure_code = true ->
            opt_str_truthy arrival_code = true ->
            (forall e, request = Raise e -> failed d)
            /\ (forall r, request = Ok r -> RZDParser.status r <> 200 -> failed d)
            /\ (forall r e, request = Ok r -> RZDParser.status r = 200 ->
                            RZDParser.text r = Raise e -> failed d)
            /\ (forall r html, request = Ok r -> RZDParser.status r = 200 ->
                               RZDParser.text r = Ok html ->
                               d = RZDParser._parse_seat_availability net html
                                     seat berth)))
    /\ (forall html,
          let parsed := RZDParser._parse_seat_availability net html seat berth in
          let available b := RZDParser._is_seat_available net b seat berth in
          (forall e, RZDParser.BeautifulSoup net html = Raise e -> failed parsed)
          /\ (forall page,
                RZDParser.BeautifulSoup net html = Ok page ->
                (forall e, seat_blocks page = Raise e -> failed parsed)
                /\ (forall blocks,
                      seat_blocks page = Ok blocks ->
                      (forall b, find available blocks = Some b ->
                                 parsed = seat_found seat berth b)
                      /\ (find available blocks = None ->
                          (forall e, RZDParser.s_get_text page = Raise e ->
                                     failed parsed)
                          /\ (forall t, RZDParser.s_get_text page = Ok t ->
                                        dict_mem "error" parsed = false)))))
    /\ (forall b : RZDParser.block,
          (forall e, RZDParser.b_get_text b = Raise e ->
                     RZDParser._is_seat_available net b seat berth = false)
          /\ (forall e, RZDParser.b_find_price b = Raise e ->
                        RZDParser._extract_price b = None)
          /\ (forall e, RZDParser.b_find_car b = Raise e ->
                        RZDParser._extract_car_number b = None)
          /\ (forall e, RZDParser.b_find_seat b = Raise e ->
                        RZDParser._extract_seat_number b = None)
          /\ available_of (seat_found seat berth b) = VBool true
          /\ dict_mem "error" (seat_found seat berth b) = false)
    /\ (failed d ->
        forall svc env s,
          parser env (query_of s) = Ok d ->
          check_events svc env s
          = [EvGetActiveSubscriptions; EvCheckSeatAvailability (sub_id (row s));
             EvUpdateLastChecked (sub_id (row s));
             EvAddCheckHistory (sub_id (row s)) (VBool false)]).
Proof.
  assert (Hsched : forall d, failed d ->
            forall svc env s,
              parser env (query_of s) = Ok d ->
              check_events svc env s
              = [EvGetActiveSubscriptions; EvCheckSeatAvailability (sub_id (row s));
                 EvUpdateLastChecked (sub_id (row s));
                 EvAddCheckHistory (sub_id (row s)) (VBool false)]).
  { intros d Hf svc env s Hp. unfold check_events, notify_events.
    rewrite Hp, (failed_available_of d Hf). reflexivity. }
  assert (Hfail : forall m, failed [("available", VBool false); ("error", VStr m)])
    by (intros m; split; reflexivity).
  assert (Hparse : forall html,
            let parsed := RZDParser._parse_seat_availability net html seat berth in
            let available b := RZDParser._is_seat_available net b seat berth in
            (forall e, RZDParser.BeautifulSoup net html = Raise e -> failed parsed)
            /\ (forall page,
                  RZDParser.BeautifulSoup net html = Ok page ->
                  (forall e, seat_blocks page = Raise e -> failed parsed)
                  /\ (forall blocks,
                        seat_blocks page = Ok blocks ->
                        (forall b, find available blocks = Some b ->
                                   parsed = seat_found seat berth b)
                        /\ (find available blocks = None ->
                            (forall e, RZDParser.s_get_text page = Raise e ->
                                       failed parsed)
                            /\ (forall t, RZDParser.s_get_text page = Ok t ->
                                          dict_mem "error" parsed = false))))).
  { intros html parsed available.
    destruct (parse_seat_availability_cases net html seat berth) as [Hsoup Hpage].
    split; [exact Hsoup|]. intros page E. destruct (Hpage page E) as [Hsel Hblocks].
    split; [exact Hsel|]. intros blocks B. destruct (Hblocks blocks B) as [Hsome Hnone].
    split; [exact Hsome|]. intros F. unfold parsed. rewrite (Hnone F).
    apply general_availability_cases. }
  assert (Hblock : forall b : RZDParser.block,
            (forall e, RZDParser.b_get_text b = Raise e ->
                       RZDParser._is_seat_available net b seat berth = false)
            /\ (forall e, RZDParser.b_find_price b = Raise e ->
                          RZDParser._extract_price b = None)
            /\ (forall e, RZDParser.b_find_car b = Raise e ->
                          RZDParser._extract_car_number b = None)
            /\ (forall e, RZDParser.b_find_seat b = Raise e ->
                          RZDParser._extract_seat_number b = None)
            /\ available_of (seat_found seat berth b) = VBool true
            /\ dict_mem "error" (seat_found seat berth b) = false).
  { intros b.
    unfold RZDParser._is_seat_available, RZDParser._extract_price,
      RZDParser._extract_car_number, RZDParser._extract_seat_number.
    split; [intros e ->; reflexivity|]. split; [intros e ->; reflexivity|].
    split; [intros e ->; reflexivity|]. split; [intros e ->; reflexivity|].
    split; reflexivity. }
  unfold RZDParser.check_seat_availability, res_try, res_bind.
  destruct (opt_str_truthy (RZDParser._get_station_code net dep)) eqn:Cd; simpl.
  2:{ eexists. split; [reflexivity|]. split; [reflexivity|].
      split; [|split; [exact Hparse|split; [exact Hblock|apply Hsched]]].
      split; [intros _; apply Hfail|]. split; [intros _; apply Hfail|].
      intros H; discriminate H. }
  destruct (opt_str_truthy (RZDParser._get_station_code net arr)) eqn:Ca; simpl.
  2:{ eexists. split; [reflexivity|]. split; [reflexivity|].
      split; [|split; [exact Hparse|split; [exact Hblock|apply Hsched]]].
      split; [intros H; discriminate H|]. split; [intros _; apply Hfail|].
      intros _ H; discriminate H. }
  destruct (RZDParser.http_get net RZDParser.check_url _) as [r|e] eqn:Rq.
  2:{ eexists. split; [reflexivity|]. split; [reflexivity|].
      split; [|split; [exact Hparse|split; [exact Hblock|apply Hsched]]].
      split; [intros H; discriminate H|]. split; [intros H; discriminate H|].
      intros _ _. split; [intros e' _; apply Hfail|].
      split; [intros r H; discriminate H|].
      split; intros r; intros; discriminate. }
  destruct (RZDParser.status r =? 200)%Z eqn:St; simpl.
  2:{ apply Z.eqb_neq in St.
      eexists. split; [reflexivity|]. split; [reflexivity|].
      split; [|split; [exact Hparse|split; [exact Hblock|apply Hsched]]].
      split; [intros H; discriminate H|]. split; [intros H; discriminate H|].
      intros _ _. split; [intros e' H; discriminate H|].
      split; [intros r' _ _; apply Hfail|].
      split; intros r'; intros; exfalso; congruence. }
  apply Z.eqb_eq in St.
  destruct (RZDParser.text r) as [html|e] eqn:Tx.
  - eexists. split; [reflexivity|]. split; [apply parse_has_available|].
    split; [|split; [exact Hparse|split; [exact Hblock|apply Hsched]]].
    split; [intros H; discriminate H|]. split; [intros H; discriminate H|].
    intros _ _. split; [intros e' H; discriminate H|].
    split; [intros r' E Hs; exfalso; congruence|].
    split; [intros r' e' E _ Ht; exfalso; congruence|].
    intros r' html' E _ Ht. congruence.
  - eexists. split; [reflexivity|]. split; [reflexivity|].
    split; [|split; [exact Hparse|split; [exact Hblock|apply Hsched]]].
    split; [intros H; discriminate H|]. split; [intros H; discriminate H|].
    intros _ _. split; [intros e' H; discriminate H|].
    split; [intros r' E Hs; exfalso; congruence|].
    split; [intros r' e' _ _ _; apply Hfail|].
    intros r' html' E _ Ht. exfalso. congruence.
Qed.

(** An exception inside the adapter that leaves no trace in the result.
    On a page with two seat blocks, the text of the first cannot be read
    and the second is a free lower berth in a compartment whose price
    cannot be read: both accesses raise, and the result is "available",
    with the price [None] and without an [error] entry. *)
Lemma swallowed_exceptions_read_available :
  RZDParser.b_get_text unreadable_block
  = Raise (Exception "'NoneType' object is not callable")
  /\ RZDParser.b_find_price unpriced_block
     = Raise (Exception "'NoneType' object is not callable")
  /\ RZDParser.check_seat_availability (example_net seats_page)
       "001М" "москва" "казань" "2025-06-01" "купе" "нижняя"
     = Ok [("available", VBool true); ("seat_type", VStr "купе");
           ("berth_position", VStr "нижняя"); ("price", VNone);
           ("car_number", VStr "07"); ("seat_number", VStr "15")]
  /\ dict_mem "error"
       [("available", VBool true); ("seat_type", VStr "купе");
        ("berth_position", VStr "нижняя"); ("price", VNone);
        ("car_number", VStr "07"); ("seat_number", VStr "15")] = false.
Proof. repeat split; reflexivity. Qed.

(* ================================================================== *)
(** * Housekeeping *)
(* ================================================================== *)

Lemma in_order_by_desc {A : Type} (key : A -> Z) (l : list A) (x : A) :
  In x (order_by_desc key l) <-> In x l.
Proof.
  split; apply Permutation_in;
    [apply order_by_desc_perm | apply Permutation_sym, order_by_desc_perm].
Qed.

(** The listed subscriptions are the active rows joined with their
    users. *)
Lemma in_get_active (d : Database) (s : subscription) :
  In s (get_active_subscriptions d)
  <-> In (row s) (subscriptions d) /\ is_active (row s) = true
      /\ exists u, In u (users d) /\ user_id (row s) = telegram_id u
                   /\ s = mk_joined (row s) (telegram_id u) (first_name u).
Proof.
  unfold get_active_subscriptions. rewrite in_order_by_desc, in_flat_map. split.
  - intros [r [Hr Hs]]. apply filter_In in Hr. destruct Hr as [Hr Ha].
    unfold join_users in Hs. apply in_map_iff in Hs. destruct Hs as [u [E Hu]].
    apply filter_In in Hu. destruct Hu as [Hu Hm]. apply Z.eqb_eq in Hm.
    subst s. simpl. repeat split; try assumption. now exists u.
  - intros [Hr [Ha [u [Hu [Hm E]]]]]. exists (row s). split.
    + apply filter_In. now split.
    + unfold join_users. apply in_map_iff. exists u. split; [now symmetry|].
      apply filter_In. split; [exact Hu | now apply Z.eqb_eq].
Qed.

Lemma listed_true (d : Database) (r : subscription_row) :
  listed d r = true
  <-> is_active r = true /\ exists u, In u (users d) /\ user_id r = telegram_id u.
Proof.
  unfold listed. rewrite andb_true_iff, existsb_exists.
  split; intros [Ha [u [Hu Hm]]]; (split; [exact Ha|]); exists u;
    (split; [exact Hu|]); now apply Z.eqb_eq.
Qed.

Lemma NoDup_map_inj {A : Type} (f : A -> Z) (l : list A) (a b : A) :
  NoDup (map f l) -> In a l -> In b l -> f a = f b -> a = b.
Proof.
  induction l as [|x l IH]; simpl; intros ND Ha Hb E; [contradiction|].
  inversion ND as [|? ? Hnot ND']; subst.
  destruct Ha as [->|Ha], Hb as [->|Hb]; try reflexivity.
  - exfalso. apply Hnot. rewrite E. now apply in_map.
  - exfalso. apply Hnot. rewrite <- E. now apply in_map.
  - now apply IH.
Qed.

Lemma update_where_twice (p q : subscription_row -> bool) (l : list subscription_row) :
  (forall r, q (deactivate r) = q r) ->
  update_where q deactivate (update_where p deactivate l)
  = update_where (fun r => p r || q r) deactivate l.
Proof.
  intros Hq. unfold update_where. rewrite map_map. apply map_ext. intros r.
  destruct (p r); simpl.
  - rewrite Hq. destruct (q r); reflexivity.
  - reflexivity.
Qed.

(** The loop of the cleanup deactivates, by identifier, the past-date
    subscriptions it reaches, and reaches all of them unless a date fails
    to parse. *)
Lemma cleanup_loop_effect env :
  forall subs count w,
  exists r w' ids,
    cleanup_loop env subs count w = (r, w')
    /\ subscriptions (db w')
       = update_where (fun x => existsb (Z.eqb (sub_id x)) ids) deactivate
                      (subscriptions (db w))
    /\ users (db w') = users (db w)
    /\ incl ids (map (fun s => sub_id (row s)) (filter (fun s => past env (row s)) subs))
    /\ ((forall s, In s subs -> exists d, strptime env (departure_date (row s)) = Ok d)
        -> ids = map (fun s => sub_id (row s)) (filter (fun s => past env (row s)) subs)
           /\ exists n, r = Ok n).
Proof.
  induction subs as [|s subs IH]; intros count w.
  - exists (Ok count), w, []. simpl. split; [reflexivity|]. split.
    + unfold update_where. rewrite <- (map_id (subscriptions (db w))) at 1.
      reflexivity.
    + split; [reflexivity|]. split; [apply incl_refl|].
      intros _. split; [reflexivity | now exists count].
  - cbn [cleanup_loop filter]. unfold bind at 1, lift_res.
    assert (Hpast : past env (row s)
                    = match strptime env (departure_date (row s)) with
                      | Ok d => date_ltb d (today env)
                      | Raise _ => false
                      end) by reflexivity.
    rewrite Hpast. clear Hpast.
    destruct (strptime env (departure_date (row s))) as [dt|e] eqn:P.
    + destruct (date_ltb dt (today env)) eqn:L.
      * unfold bind at 1, db_call. cbn [deactivate_subscription fst snd].
        match goal with |- context [cleanup_loop env subs ?c ?w1] =>
          destruct (IH c w1) as [r [w' [ids [Hrun [Hsub [Hus [Hinc Hall]]]]]]]
        end.
        exists r, w', (sub_id (row s) :: ids). rewrite Hrun.
        split; [reflexivity|]. split; [|split; [exact Hus|split]].
        -- rewrite Hsub. cbn [db subscriptions set_subscriptions].
           rewrite update_where_twice by reflexivity.
           unfold update_where. apply map_ext. intros x. reflexivity.
        -- cbn [map]. intros i [<-|Hi]; [now left | right; now apply Hinc].
        -- intros Hp. destruct (Hall (fun x Hx => Hp x (or_intror Hx))) as [E Hr].
           split; [cbn [map]; now rewrite E | exact Hr].
      * destruct (IH count w) as [r [w' [ids [Hrun [Hsub [Hus [Hinc Hall]]]]]]].
        exists r, w', ids. rewrite Hrun.
        split; [reflexivity|]. split; [exact Hsub|]. split; [exact Hus|].
        split; [exact Hinc|].
        intros Hp. apply Hall. intros x Hx. apply Hp. now right.
    + exists (Raise e), w, []. split; [reflexivity|]. split.
      * unfold update_where. rewrite <- (map_id (subscriptions (db w))) at 1.
        reflexivity.
      * split; [reflexivity|]. split; [intros i []|].
        intros Hp. destruct (Hp s (or_introl eq_refl)) as [d0 Hd]. congruence.
Qed.

(** What [cleanup_old_subscriptions] does when every listed date parses:
    it returns; exactly the listed rows with a past date are set
    inactive, every other row is left as it was and no row is deleted;
    and no subscription with a past date is listed afterwards. *)
Lemma cleanup_when_dates_parse env w :
  keys_unique (db w) ->
  (forall s, In s (get_active_subscriptions (db w)) ->
             exists d, strptime env (departure_date (row s)) = Ok d) ->
  exists w',
    cleanup_old_subscriptions env w = (Ok tt, w')
    /\ subscriptions (db w')
       = update_where (fun r => listed (db w) r && past env r) deactivate
                      (subscriptions (db w))
    /\ users (db w') = users (db w)
    /\ forall s, In s (get_active_subscriptions (db w')) -> past env (row s) = false.
Proof.
  intros K Hp.
  destruct (cleanup_loop_effect env (get_active_subscriptions (db w)) 0
              (log EvGetActiveSubscriptions w))
    as [r [w' [ids [Hrun [Hsub [Hus [_ Hall]]]]]]].
  cbn [log db] in Hsub, Hus.
  destruct (Hall Hp) as [Eids [n Hr]]. subst r.
  assert (Hrows : subscriptions (db w')
                  = update_where (fun r => listed (db w) r && past env r) deactivate
                                 (subscriptions (db w))).
  { rewrite Hsub. unfold update_where. apply map_ext_in.
    intros x Hx.
    replace (existsb (Z.eqb (sub_id x)) ids) with (listed (db w) x && past env x);
      [reflexivity|].
    apply eq_true_iff_eq. rewrite andb_true_iff, existsb_exists, listed_true. split.
    - intros [[Ha [u [Hu Hm]]] Hpast].
      exists (sub_id x). split; [|apply Z.eqb_refl].
      rewrite Eids. apply in_map_iff.
      exists (mk_joined x (telegram_id u) (first_name u)). split; [reflexivity|].
      apply filter_In. split; [|exact Hpast].
      apply in_get_active. simpl. split; [exact Hx|]. split; [exact Ha|].
      exists u. repeat split; assumption.
    - intros [i [Hi Ei]]. apply Z.eqb_eq in Ei. subst i.
      rewrite Eids in Hi. apply in_map_iff in Hi. destruct Hi as [s [Es Hs]].
      apply filter_In in Hs. destruct Hs as [Hs Hpast].
      apply in_get_active in Hs. destruct Hs as [Hr [Ha [u [Hu [Hm _]]]]].
      assert (row s = x) by (apply (NoDup_map_inj sub_id _ _ _ (proj1 K) Hr Hx Es)).
      subst x. split; [|exact Hpast]. split; [exact Ha|]. now exists u. }
  exists w'. split.
  - unfold cleanup_old_subscriptions, try_except, bind, db_get_active_subscriptions,
      db_call. cbn [fst snd]. unfold log in Hrun. rewrite Hrun. reflexivity.
  - split; [exact Hrows|]. split; [exact Hus|].
    intros s Hs. apply in_get_active in Hs. destruct Hs as [Hr [Ha [u [Hu [Hm _]]]]].
    rewrite Hrows in Hr. apply update_where_in in Hr. destruct Hr as [r0 [Hr0 E]].
    destruct (listed (db w) r0 && past env r0) eqn:C.
    + rewrite E in Ha. discriminate Ha.
    + rewrite E in *. destruct (past env r0) eqn:Pr; [|reflexivity].
      rewrite andb_true_r in C.
      assert (listed (db w) r0 = true);
        [|congruence].
      apply listed_true. split; [exact Ha|]. exists u. rewrite <- Hus. now split.
Qed.

(** C7, on a subscription whose user has no row in [users] (no code path
    of the program adds one before creating a subscription). The
    subscription is active and its departure date, 22 May 2025, is before
    the current date, 23 May 2025; [cleanup_old_subscriptions] leaves the
    store as it was, the subscription stays active and the user still
    sees it, while [cleanup_old_data] deactivates it. *)
Lemma cleanup_skips_subscription_without_user :
  let env := example_env (always false) delivers in
  let after := snd (cleanup_old_subscriptions env (mk_world orphan_db [] [])) in
  map (fun r => (sub_id r, is_active r, strptime env (departure_date r)))
      (subscriptions orphan_db)
  = [(1, true, Ok (mk_date 2025 5 22))]
  /\ date_ltb (mk_date 2025 5 22) (today env) = true
  /\ db after = orphan_db
  /\ trace after = [EvGetActiveSubscriptions]
  /\ map (fun r => (sub_id r, is_active r)) (get_user_subscriptions 42 (db after))
     = [(1, true)]
  /\ map (fun r => (sub_id r, is_active r))
         (subscriptions (snd (cleanup_old_data (current_timestamp env) "2025-05-23"
                                               30 orphan_db)))
     = [(1, false)].
Proof. vm_compute. repeat split. Qed.

(** C7, on a user with two active subscriptions, when the one listed
    first carries a date that is not in the format of the cleanup: the
    pass stops there, and the subscription for 22 May 2025 stays active
    and listed. *)
Lemma cleanup_stops_at_unparsable_date :
  let env := example_env (always false) delivers in
  let after := snd (cleanup_old_subscriptions env (mk_world unparsable_db [] [])) in
  map (fun s => (sub_id (row s), strptime env (departure_date (row s))))
      (get_active_subscriptions unparsable_db)
  = [(2, Raise (ValueError "time data does not match format"));
     (1, Ok (mk_date 2025 5 22))]
  /\ db after = unparsable_db
  /\ map (fun s => sub_id (row s)) (get_active_subscriptions (db after)) = [2; 1].
Proof. vm_compute. repeat split. Qed.

(* ================================================================== *)
(** * The properties on the examples *)
(* ================================================================== *)

Lemma create_subscription_idempotent_witness :
  create_subscription 1747000300 42 "Москва" "Казань" "2025-06-01" "001М"
                      "купе" "нижняя" example_db
  = (1, example_db)
  /\ create_subscription 1747000400 42 "Москва" "Казань" "2025-06-01" "001М"
                         "купе" "нижняя"
       (snd (create_subscription 1747000300 42 "Москва" "Казань" "2025-06-01"
                                 "001М" "купе" "нижняя" example_db))
     = (1, example_db).
Proof.
  destruct (create_subscription_idempotent 42 "Москва" "Казань" "2025-06-01" "001М"
              "купе" "нижняя" 1747000300 1747000400 example_db
              (row example_subscription))
    as [_ [Hone Htwice]].
  - left. reflexivity.
  - reflexivity.
  - repeat split.
  - assert (E : create_subscription 1747000300 42 "Москва" "Казань" "2025-06-01"
                  "001М" "купе" "нижняя" example_db = (1, example_db)).
    { apply Hone. intros r' [<-|[]] _ _. reflexivity. }
    split; [exact E|]. rewrite Htwice. exact E.
Defined.

Lemma create_after_deactivate_fresh_witness :
  iso_date "2025-06-01"
  /\ fst (create_subscription 1747000300 42 "Москва" "Казань" "2025-06-01" "001М"
                              "купе" "нижняя"
            (snd (deactivate_subscription 1 example_db))) <> 1
  /\ map (fun r => (sub_id r, is_active r))
         (subscriptions
            (snd (create_subscription 1747000300 42 "Москва" "Казань" "2025-06-01"
                                      "001М" "купе" "нижняя"
                    (snd (deactivate_subscription 1 example_db)))))
     = [(1, false); (2, true)].
Proof.
  destruct (create_after_deactivate_fresh 42 "Москва" "Казань" "2025-06-01" "001М"
              "купе" "нижняя" 1747000300 example_db (row example_subscription))
    as [Hne [_ [Happ _]]].
  - exists (mk_date 2025 6 1). reflexivity.
  - left. reflexivity.
  - repeat split.
  - intros r' [<-|[]] _ _. reflexivity.
  - split; [exists (mk_date 2025 6 1); reflexivity|]. split; [exact Hne|].
    change (sub_id (row example_subscription)) with 1 in Happ.
    rewrite Happ. reflexivity.
Defined.

Lemma check_failure_isolated_witness :
  exists w',
    _check_all_subscriptions example_service
      (example_env (fails_for "016А") delivers) two_subscriptions_world = (Ok tt, w')
    /\ exists c, In c (check_history (db w'))
                 /\ c_subscription_id c = 1 /\ c_seats_available c = VBool false.
Proof.
  destruct (check_failure_isolated example_service
              (example_env (fails_for "016А") delivers) two_subscriptions_world
              two_subscriptions_keys)
    as [w' [evs [rows [Hrun [_ [Hh Hall]]]]]].
  exists w'. split; [exact Hrun|].
  destruct (Hall example_subscription (or_intror (or_introl eq_refl))) as [_ Hhist].
  destruct (Hhist [("available", VBool false)] eq_refl) as [c [Hc [E1 [_ E3]]]].
  exists c. rewrite Hh. split; [apply in_or_app; right; exact Hc|].
  split; [exact E1 | exact E3].
Defined.

Lemma source_failure_leaves_state_witness :
  _check_subscription example_service (example_env (fails_for "016А") delivers)
                      2 two_subscriptions_world
  = (Ok tt,
     mk_world two_subscriptions_db []
              [EvGetActiveSubscriptions; EvCheckSeatAvailability 2]).
Proof.
  destruct (source_failure_leaves_state example_service
              (example_env (fails_for "016А") delivers) two_subscriptions_world
              second_subscription (Exception "connection reset")
              two_subscriptions_keys (or_introl eq_refl) eq_refl)
    as [[w1 [Hrun [Hdb [Hsent Htrace]]]] _].
  change (sub_id (row second_subscription)) with 2 in Hrun.
  rewrite Hrun. f_equal. destruct w1 as [d1 s1 t1]. simpl in *.
  now rewrite Hdb, Hsent, Htrace.
Defined.

Lemma check_calls_in_order_witness :
  code_order 1
    (new_events example_world
       (snd (_check_subscription example_service (example_env (always true) delivers)
                                 1 example_world)))
  = true.
Proof.
  exact (proj1 (proj2 (check_calls_in_order example_service
                         (example_env (always true) delivers) 1 example_world
                         example_subscription [("available", VBool true)]
                         eq_refl eq_refl))).
Defined.

(** The message of the scenario: train 001М with price, car and seat. *)
Lemma notification_message_contents_witness :
  occurs_in "001М"
    (_format_notification_message "23.05.2025 14:00" example_subscription
       [("available", VBool true); ("price", VStr "3200₽");
        ("car_number", VStr "5"); ("seat_number", VStr "12")])
  /\ occurs_in "3200₽"
       (_format_notification_message "23.05.2025 14:00" example_subscription
          [("available", VBool true); ("price", VStr "3200₽");
           ("car_number", VStr "5"); ("seat_number", VStr "12")]).
Proof.
  pose proof (notification_message_contents "23.05.2025 14:00" example_subscription
                [("available", VBool true); ("price", VStr "3200₽");
                 ("car_number", VStr "5"); ("seat_number", VStr "12")]) as H.
  cbv zeta in H. destruct H as [_ [Htrain [_ [_ [_ [_ [_ [_ [_ [Hprice _]]]]]]]]]].
  split; [exact Htrain | exact (Hprice "3200₽" eq_refl)].
Defined.

Lemma past_keys : keys_unique past_db.
Proof. solve_keys. Qed.

Lemma cleanup_when_dates_parse_witness :
  map (fun r => (sub_id r, departure_date r, is_active r))
      (subscriptions
         (db (snd (cleanup_old_subscriptions (example_env (always false) delivers)
                                             (mk_world past_db [] [])))))
  = [(1, "2025-05-22", false); (2, "2025-06-01", true)].
Proof.
  destruct (cleanup_when_dates_parse (example_env (always false) delivers)
              (mk_world past_db [] []) past_keys)
    as [w' [Hrun [Hrows _]]].
  - intros s [<-|[<-|[]]]; eexists; reflexivity.
  - rewrite Hrun. cbn [snd]. rewrite Hrows. reflexivity.
Defined.

Lemma create_keeps_one_active_per_tuple_witness :
  one_active_per_tuple
    (snd (create_subscription 1747000300 42 "Москва" "Казань" "2025-06-01" "001М"
                              "купе" "нижняя" example_db))
  /\ one_active_per_tuple
       (snd (create_subscription 1747000300 42 "Москва" "Казань" "2025-06-01" "001М"
                                 "купе" "верхняя" example_db)).
Proof.
  assert (Inv : one_active_per_tuple example_db).
  { intros r1 r2 [<-|[]] [<-|[]] _ _ _. reflexivity. }
  split; apply create_keeps_one_active_per_tuple; exact Inv.
Defined.

Lemma isolation_under_interleaving_witness :
  Forall (eq Finished)
    (fst (check_all_interleaved example_service
            (example_env (fails_for "016А") delivers) in_turns
            two_subscriptions_world))
  /\ recorded
       (new_history two_subscriptions_world
          (snd (check_all_interleaved example_service
                  (example_env (fails_for "016А") delivers) in_turns
                  two_subscriptions_world)))
       example_subscription [("available", VBool false)].
Proof.
  destruct (isolation_under_interleaving example_service
              (example_env (fails_for "016А") delivers) in_turns
              two_subscriptions_world two_subscriptions_keys)
    as [_ [Hdone Hall]].
  assert (Fin : Forall (eq Finished)
                  (fst (check_all_interleaved example_service
                          (example_env (fails_for "016А") delivers) in_turns
                          two_subscriptions_world))).
  { apply Hall. intros i Hi. destruct i as [|[|i]]; cbn in *; lia. }
  split; [exact Fin|].
  apply (Hdone 1%nat example_subscription); reflexivity.
Defined.

Local Close Scope string_scope.

(* ================================================================== *)
(** * Writes to the store, listings and statistics *)
(* ================================================================== *)

(** [add_user] registers a Telegram id once. For an id that SQLite
    stores (for another one the call returns [False] and writes nothing),
    the call adds a row exactly when the id has none, the user is found in
    [users] afterwards, and a second call for the same id, with whatever
    names, returns [False] and changes nothing, so the first names stay.
    Subscriptions are not touched. *)
Lemma add_user_registers_once now now' tg un fn ln un' fn' ln' d :
  sqlite_integer tg ->
  let d1 := snd (add_user now tg un fn ln d) in
  fst (add_user now tg un fn ln d)
  = negb (existsb (fun u => telegram_id u =? tg) (users d))
  /\ (exists u, In u (users d1) /\ telegram_id u = tg)
  /\ add_user now' tg un' fn' ln' d1 = (false, d1)
  /\ (existsb (fun u => telegram_id u =? tg) (users d) = true -> d1 = d)
  /\ subscriptions d1 = subscriptions d.
Proof.
  intros _. cbv zeta. unfold add_user.
  destruct (find (fun u => telegram_id u =? tg) (users d)) as [u|] eqn:F.
  - pose proof (find_some _ _ F) as [Hin Htg]. apply Z.eqb_eq in Htg.
    assert (Ex : existsb (fun u => telegram_id u =? tg) (users d) = true).
    { apply existsb_exists. exists u. split; [exact Hin | now apply Z.eqb_eq]. }
    cbn [fst snd]. rewrite Ex, F. repeat split.
    exists u. now split.
  - assert (Ex : existsb (fun u => telegram_id u =? tg) (users d) = false).
    { apply not_true_is_false. intros H. apply existsb_exists in H.
      destruct H as [u [Hin Hu]]. pose proof (proj1 (find_none_iff _ _) F u Hin).
      congruence. }
    cbn [fst snd users subscriptions]. rewrite Ex. repeat split.
    + eexists. split; [apply in_or_app; right; left; reflexivity | reflexivity].
    + rewrite find_app_none by exact F. cbn [find telegram_id].
      rewrite Z.eqb_refl. reflexivity.
    + intros H; discriminate H.
Qed.

(** ids never reused *)
Lemma update_where_ids cond f l :
  (forall r, sub_id (f r) = sub_id r) ->
  map sub_id (update_where cond f l) = map sub_id l.
Proof.
  intros Hf. unfold update_where. rewrite map_map. apply map_ext.
  intros r. destruct (cond r); [apply Hf | reflexivity].
Qed.

Lemma apply_op_seq op d : subscriptions_seq d <= subscriptions_seq (apply_op op d).
Proof.
  destruct op; cbn [apply_op]; try (cbn; lia).
  - unfold add_user. destruct (find _ _); cbn; lia.
  - unfold create_subscription. destruct (find _ _); cbn [snd subscriptions_seq]; [lia|].
    pose proof (fold_max_ge (subscriptions_seq d) (map sub_id (subscriptions d)))
      as [Hs _].
    unfold next_rowid. lia.
Qed.

Lemma apply_op_ids op d i :
  In i (map sub_id (subscriptions (apply_op op d))) ->
  In i (map sub_id (subscriptions d))
  \/ (subscriptions_seq d < i /\ i <= subscriptions_seq (apply_op op d)).
Proof.
  destruct op; cbn [apply_op].
  - unfold add_user. destruct (find _ _); cbn; auto.
  - unfold create_subscription. destruct (find _ _); cbn [snd]; [auto|].
    cbn [subscriptions subscriptions_seq]. rewrite map_app. intros H.
    apply in_app_or in H. destruct H as [H|[H|[]]]; [now left|right].
    cbn [map sub_id] in H. subst i.
    pose proof (next_rowid_fresh (subscriptions_seq d) (map sub_id (subscriptions d)))
      as [_ Hlt].
    lia.
  - cbn [snd update_last_checked set_subscriptions subscriptions].
    rewrite update_where_ids by reflexivity. auto.
  - cbn. auto.
  - cbn. auto.
  - cbn [snd deactivate_subscription set_subscriptions subscriptions].
    rewrite update_where_ids by reflexivity. auto.
  - cbn [snd delete_subscription set_subscriptions subscriptions].
    intros H. left. apply in_map_iff in H. destruct H as [r [E Hr]].
    apply filter_In in Hr. apply in_map_iff. exists r. split; [exact E | apply Hr].
  - cbn [snd cleanup_old_data subscriptions].
    rewrite update_where_ids by reflexivity. auto.
Qed.

Lemma apply_op_covers op d : sequence_covers d -> sequence_covers (apply_op op d).
Proof.
  intros Hc r Hr.
  destruct (apply_op_ids op d (sub_id r) (in_map _ _ _ Hr)) as [H|[_ H]]; [|exact H].
  apply in_map_iff in H. destruct H as [r0 [E Hr0]]. rewrite <- E.
  pose proof (Hc r0 Hr0). pose proof (apply_op_seq op d). lia.
Qed.

Lemma sequence_covers_reachable ops : sequence_covers (apply_ops ops empty_db).
Proof.
  unfold apply_ops. rewrite <- fold_left_rev_right.
  induction (rev ops) as [|op l IH]; cbn [fold_right].
  - intros r [].
  - apply apply_op_covers, IH.
Qed.

Lemma apply_ops_absent ops :
  forall d id,
    sequence_covers d -> id <= subscriptions_seq d ->
    ~ In id (map sub_id (subscriptions d)) ->
    ~ In id (map sub_id (subscriptions (apply_ops ops d))).
Proof.
  induction ops as [|op ops IH]; intros d id Hc Hid Hn; cbn [apply_ops fold_left].
  - exact Hn.
  - apply IH.
    + now apply apply_op_covers.
    + pose proof (apply_op_seq op d). lia.
    + intros H. apply apply_op_ids in H. destruct H as [H|[H _]]; [now apply Hn | lia].
Qed.

(** A row identifier of [subscriptions] is used once ([AUTOINCREMENT]):
    after [delete_subscription] has removed a row, no sequence of writes
    to the store brings a row with its identifier back, so an identifier
    kept outside the table (in a delete button, in a history row) never
    comes to denote another subscription. *)
Theorem deleted_id_never_reused (d : Database) (id : Z) (ops : list store_op) :
  sequence_covers d -> In id (map sub_id (subscriptions d)) ->
  ~ In id (map sub_id
             (subscriptions (apply_ops ops (snd (delete_subscription id d))))).
Proof.
  intros Hc Hin. apply apply_ops_absent.
  - apply (apply_op_covers (OpDeleteSubscription id)), Hc.
  - cbn. apply in_map_iff in Hin. destruct Hin as [r [<- Hr]]. now apply Hc.
  - cbn. intros H. apply in_map_iff in H. destruct H as [r [E Hr]].
    apply filter_In in Hr. destruct Hr as [_ Hr]. apply negb_true_iff in Hr.
    apply Z.eqb_neq in Hr. contradiction.
Qed.

(** ** The listing of a user and the listing that is monitored *)

(** What a user is shown as their subscriptions and what the monitoring
    service checks for them come from two queries: the first selects the
    active rows of the user, the second joins the active rows with
    [users]. Every subscription that is monitored for the user is one
    they are shown, and it is monitored on behalf of that user. With a row
    in [users] for the user, the two listings hold the same
    subscriptions; without one, none of the subscriptions the user is
    shown is monitored. *)
Theorem own_listing_is_monitored (user : Z) (d : Database) :
  keys_unique d ->
  let mine := get_user_subscriptions user d in
  let monitored :=
    filter (fun s => user_id (row s) =? user) (get_active_subscriptions d) in
  (forall s, In s monitored -> s_telegram_id s = user /\ In (row s) mine)
  /\ (existsb (fun u => telegram_id u =? user) (users d) = true ->
      Permutation (map row monitored) mine)
  /\ (existsb (fun u => telegram_id u =? user) (users d) = false ->
      monitored = []).
Proof.
  intros K mine monitored.
  assert (Hmine : forall r, In r mine
                            <-> In r (subscriptions d) /\ user_id r = user
                                /\ is_active r = true).
  { intros r. unfold mine, get_user_subscriptions.
    rewrite in_order_by_desc, filter_In, andb_true_iff, Z.eqb_eq. tauto. }
  assert (Hmon : forall s, In s monitored -> s_telegram_id s = user /\ In (row s) mine).
  { intros s Hs. apply filter_In in Hs. destruct Hs as [Hl Hu]. apply Z.eqb_eq in Hu.
    apply in_get_active in Hl. destruct Hl as [Hr [Ha [u [_ [Hm E]]]]]. split.
    - rewrite E. cbn [s_telegram_id]. congruence.
    - apply Hmine. tauto. }
  split; [exact Hmon|]. split.
  - intros Hreg. apply existsb_exists in Hreg. destruct Hreg as [u [Hu Htg]].
    apply Z.eqb_eq in Htg. apply NoDup_Permutation.
    + apply (NoDup_map_inv sub_id). rewrite map_map.
      apply NoDup_map_filter, listing_NoDup, K.
    + apply (NoDup_map_inv sub_id). eapply Permutation_NoDup.
      { apply Permutation_map, Permutation_sym, order_by_desc_perm. }
      apply NoDup_map_filter, K.
    + intros r. rewrite in_map_iff. split.
      * intros [s [<- Hs]]. apply Hmon, Hs.
      * intros Hr. apply Hmine in Hr. destruct Hr as [Hr [Hus Ha]].
        exists (mk_joined r (telegram_id u) (first_name u)). split; [reflexivity|].
        apply filter_In. cbn [row]. split; [|now apply Z.eqb_eq].
        apply in_get_active. cbn [row]. split; [exact Hr|]. split; [exact Ha|].
        exists u. split; [exact Hu|]. split; [congruence | reflexivity].
  - intros Hno. apply filter_none. intros s Hs. apply Z.eqb_neq. intros Hus.
    apply in_get_active in Hs. destruct Hs as [_ [_ [u [Hu [Hm _]]]]].
    assert (X : existsb (fun u => telegram_id u =? user) (users d) = true).
    { apply existsb_exists. exists u. split; [exact Hu|]. apply Z.eqb_eq. congruence. }
    congruence.
Qed.

(** ** Deactivated and deleted subscriptions *)

Lemma listing_after_deactivate d id s :
  In s (get_active_subscriptions (snd (deactivate_subscription id d)))
  <-> In s (get_active_subscriptions d) /\ sub_id (row s) <> id.
Proof.
  rewrite !in_get_active.
  cbn [snd deactivate_subscription set_subscriptions subscriptions users].
  rewrite update_where_in. split.
  - intros [[r0 [Hr0 E]] [Ha Hu]].
    destruct (sub_id r0 =? id) eqn:Eid.
    + rewrite E in Ha. discriminate Ha.
    + apply Z.eqb_neq in Eid. rewrite E. repeat split; try assumption.
      * now rewrite <- E.
      * now rewrite <- E.
  - intros [[Hr [Ha Hu]] Hid]. repeat split; try assumption.
    exists (row s). split; [exact Hr|].
    apply Z.eqb_neq in Hid. now rewrite Hid.
Qed.

Lemma listing_after_delete d id s :
  In s (get_active_subscriptions (snd (delete_subscription id d)))
  <-> In s (get_active_subscriptions d) /\ sub_id (row s) <> id.
Proof.
  rewrite !in_get_active.
  cbn [snd delete_subscription set_subscriptions subscriptions users].
  rewrite filter_In, negb_true_iff, Z.eqb_neq. tauto.
Qed.

Lemma keys_unique_deactivate id d :
  keys_unique d -> keys_unique (snd (deactivate_subscription id d)).
Proof. intros K. apply keys_unique_update; [reflexivity | exact K]. Qed.

(** After [deactivate_subscription] or [delete_subscription] the
    subscription is no longer listed, and the next cycle makes no call
    for it, while every other listed subscription is still probed
    once. *)
Theorem removed_subscription_not_monitored svc env (w : World) (id : Z) (d' : Database) :
  keys_unique (db w) ->
  d' = snd (deactivate_subscription id (db w))
  \/ d' = snd (delete_subscription id (db w)) ->
  let w1 := mk_world d' (sent w) (trace w) in
  (forall s, In s (get_active_subscriptions d')
             <-> In s (get_active_subscriptions (db w)) /\ sub_id (row s) <> id)
  /\ exists w',
       _check_all_subscriptions svc env w1 = (Ok tt, w')
       /\ (forall e, In e (new_events w1 w') -> event_subscription e <> Some id)
       /\ forall s, In s (get_active_subscriptions (db w)) -> sub_id (row s) <> id ->
                    count_events (is_probe (sub_id (row s))) (new_events w1 w') = 1%nat.
Proof.
  intros K Hd w1.
  assert (L : forall s, In s (get_active_subscriptions d')
                        <-> In s (get_active_subscriptions (db w))
                            /\ sub_id (row s) <> id).
  { intros s. destruct Hd as [->| ->];
      [apply listing_after_deactivate | apply listing_after_delete]. }
  assert (K' : keys_unique d').
  { destruct Hd as [->| ->];
      [now apply keys_unique_deactivate | now apply keys_unique_delete]. }
  split; [exact L|].
  destruct (cycle_spec svc env w1 K') as [w' [Hrun [_ [Htr _]]]].
  exists w'. split; [exact Hrun|].
  rewrite (new_events_app w1 w' _ Htr). cbn [db w1]. split.
  - intros e [<-|He]; [discriminate|].
    apply in_flat_map in He. destruct He as [s [Hs He]].
    apply L in Hs. destruct Hs as [_ Hid].
    destruct (check_events_own svc env s e He) as [E|E]; rewrite E;
      [discriminate | congruence].
  - intros s Hs Hid.
    change (EvGetActiveSubscriptions :: ?l) with ([EvGetActiveSubscriptions] ++ l).
    rewrite count_events_app.
    assert (Hs' : In s (get_active_subscriptions d')) by (apply L; now split).
    rewrite (count_cycle_events svc env (is_probe (sub_id (row s))) _ s
               (is_probe_own _) (listing_NoDup d' K') Hs').
    rewrite count_probe_check. reflexivity.
Qed.

(** ** The retention sweep *)

Lemma ascii_compare_N (a b : ascii) :
  Ascii.compare a b = N.compare (N_of_ascii a) (N_of_ascii b).
Proof. reflexivity. Qed.

Lemma string_compare_lt_trans :
  forall a b c : string,
    String.compare a b = Lt -> String.compare b c <> Gt -> String.compare a c = Lt.
Proof.
  induction a as [|x a IH]; intros [|y b] [|z c]; cbn [String.compare];
    try congruence.
  rewrite !ascii_compare_N.
  destruct (N.compare_spec (N_of_ascii x) (N_of_ascii y)) as [E|L|G];
    destruct (N.compare_spec (N_of_ascii y) (N_of_ascii z)) as [E'|L'|G'];
    try congruence; intros H1 H2.
  - rewrite E, E', N.compare_refl. now apply (IH b c).
  - assert (X : (N_of_ascii x ?= N_of_ascii z)%N = Lt)
      by (apply N.compare_lt_iff; lia).
    now rewrite X.
  - assert (X : (N_of_ascii x ?= N_of_ascii z)%N = Lt)
      by (apply N.compare_lt_iff; lia).
    now rewrite X.
  - assert (X : (N_of_ascii x ?= N_of_ascii z)%N = Lt)
      by (apply N.compare_lt_iff; lia).
    now rewrite X.
Qed.

Lemma string_ltb_leb_trans (a b c : string) :
  String.ltb a b = true -> String.leb b c = true -> String.ltb a c = true.
Proof.
  unfold String.ltb, String.leb. intros H1 H2.
  rewrite (string_compare_lt_trans a b c); [reflexivity | |].
  - destruct (String.compare a b); congruence.
  - destruct (String.compare b c); congruence.
Qed.

Lemma filter_filter_weaker {A : Type} (p q : A -> bool) (l : list A) :
  (forall x, q x = true -> p x = true) ->
  filter q (filter p l) = filter q l.
Proof.
  intros H. induction l as [|x l IH]; cbn [filter]; [reflexivity|].
  destruct (p x) eqn:P; cbn [filter].
  - now rewrite IH.
  - destruct (q x) eqn:Q; [|exact IH]. apply H in Q. congruence.
Qed.

(** [cleanup_old_data] absorbs an earlier run: with the same retention,
    cleaning at a later time a store that was cleaned before gives the
    same result and the same store as cleaning it at the later time
    alone; in particular a second run at the same time changes
    nothing. *)
Theorem cleanup_old_data_absorbs (now now' : Z) (today today' : string) (days : Z)
        (d : Database) :
  0 <= days -> now <= now' -> String.leb today today' = true ->
  cleanup_old_data now' today' days (snd (cleanup_old_data now today days d))
  = cleanup_old_data now' today' days d.
Proof.
  intros _ Hn Ht. unfold cleanup_old_data.
  cbn [snd users subscriptions subscriptions_seq notifications notifications_seq
       check_history check_history_seq].
  f_equal. f_equal.
  - rewrite update_where_twice by reflexivity.
    unfold update_where. apply map_ext. intros r.
    destruct (String.ltb (departure_date r) today) eqn:E; [|reflexivity].
    now rewrite (string_ltb_leb_trans _ _ _ E Ht).
  - apply filter_filter_weaker. intros n. rewrite !negb_true_iff, !Z.ltb_ge. nia.
  - apply filter_filter_weaker. intros c. rewrite !negb_true_iff, !Z.ltb_ge. nia.
Qed.

(** ** Statistics *)









(* ================================================================== *)
(** * What a cycle leaves behind *)
(* ================================================================== *)

Lemma gather_checks_fold svc env d0 :
  keys_unique d0 ->
  forall L w,
    incl L (get_active_subscriptions d0) -> same_rows d0 (db w) ->
    exists rs L',
      Forall2 (fun s s' => untimed_s s' = untimed_s s) L L'
      /\ gather (map (fun s => _check_subscription svc env (sub_id (row s))) L) w
         = (Ok rs, fold_left (fun w s' => checked_world svc env s' w) L' w).
Proof.
  intros K. induction L as [|s L IH]; intros w Hin Hsame.
  - exists [], []. split; [constructor | reflexivity].
  - destruct (check_listed svc env d0 w s K Hsame (Hin s (or_introl eq_refl)))
      as [s' [Hs' Hrun]].
    assert (Hsame' : same_rows d0 (db (checked_world svc env s' w))).
    { eapply same_rows_trans; [exact Hsame | apply checked_world_same_rows]. }
    destruct (IH (checked_world svc env s' w)
                 (fun x Hx => Hin x (or_intror Hx)) Hsame') as [rs [L' [HF Hg]]].
    exists (Ok tt :: rs), (s' :: L'). split; [constructor; assumption|].
    cbn [map gather fold_left]. rewrite Hrun, Hg. reflexivity.
Qed.

Lemma cycle_fold svc env w :
  keys_unique (db w) ->
  exists L',
    Forall2 (fun s s' => untimed_s s' = untimed_s s)
            (get_active_subscriptions (db w)) L'
    /\ _check_all_subscriptions svc env w
       = (Ok tt, fold_left (fun w s' => checked_world svc env s' w) L'
                           (log EvGetActiveSubscriptions w)).
Proof.
  intros K.
  destruct (gather_checks_fold svc env (db w) K (get_active_subscriptions (db w))
              (log EvGetActiveSubscriptions w) (incl_refl _) (same_rows_refl _))
    as [rs [L' [HF Hg]]].
  exists L'. split; [exact HF|].
  unfold _check_all_subscriptions, try_except, bind, db_get_active_subscriptions,
    db_call.
  cbn [fst snd]. unfold log in Hg. rewrite Hg. reflexivity.
Qed.

(** ** Deliveries and notifications under any interleaving *)

Section Deliveries.

Variables (svc : MonitoringService) (env : Env) (d0 : Database).
Hypothesis K : keys_unique d0.

Lemma step_delivers w s t :
  In s (get_active_subscriptions d0) -> same_rows d0 (db w) ->
  delivery_inv svc env s t ->
  exists msgs rows,
    sent (snd (step svc env t w)) = sent w ++ msgs
    /\ notifications (db (snd (step svc env t w))) = notifications (db w) ++ rows
    /\ task_sent svc env s (fst (step svc env t w)) = task_sent svc env s t ++ msgs
    /\ task_recorded svc env s (fst (step svc env t w))
       = task_recorded svc env s t ++ map notification_of rows
    /\ same_rows d0 (db (snd (step svc env t w)))
    /\ delivery_inv svc env s (fst (step svc env t w)).
Proof.
  intros Hin R Inv. rewrite step_eq.
  destruct t as [id|s'|s' info|s' info|s' info|s' msg|]; cbn [delivery_inv] in Inv.
  - subst id. destruct (find_listed d0 (db w) s K R Hin) as [s' [F Es]].
    rewrite F. exists [], []. cbn [fst snd log db sent task_sent task_recorded map].
    rewrite !app_nil_r. repeat split; first [assumption | apply R].
  - destruct (untimed_s_fields _ _ Inv) as [Hid [_ [Hq _]]].
    exists [], []. cbn [fst snd log db sent map]. rewrite !app_nil_r, Hq.
    split; [reflexivity|]. split; [reflexivity|].
    destruct (parser env (query_of s)) as [info|e] eqn:P;
      cbn [task_sent task_recorded delivery_inv app].
    + repeat split; first [assumption | apply R].
    + unfold records, deliveries. rewrite P. repeat split; first [assumption | apply R].
  - destruct Inv as [Es P].
    exists [], []. cbn [fst snd db sent notifications update_last_checked
                        set_subscriptions task_sent task_recorded delivery_inv map app].
    rewrite !app_nil_r. split; [reflexivity|]. split; [reflexivity|].
    split; [reflexivity|]. split; [reflexivity|]. split; [|now split].
    destruct R as [R1 R2]. split; [|exact R2].
    simpl. rewrite map_untimed_touch. exact R1.
  - destruct Inv as [Es P].
    exists [], []. cbn [fst snd db sent notifications add_check_history map].
    rewrite !app_nil_r. split; [reflexivity|]. split; [reflexivity|].
    destruct (truthy (available_of info) && has_bot svc) eqn:C;
      cbn [task_sent task_recorded delivery_inv app].
    + repeat split; first [assumption | apply R].
    + unfold records, deliveries, delivered. rewrite P, C. cbn [andb map].
      repeat split; first [assumption | apply R].
  - destruct Inv as [Es [P C]]. cbv zeta.
    destruct (untimed_s_fields _ _ Es) as [Hid [Htg [Hq Hm]]].
    rewrite Hm, Htg.
    destruct (bot_send_message env (s_telegram_id s)
                (_format_notification_message (now_text env) s info)) as [[]|e] eqn:B.
    + eexists [_], []. cbn [fst snd log db sent map]. rewrite !app_nil_r.
      split; [reflexivity|]. split; [reflexivity|].
      cbn [task_sent task_recorded delivery_inv app].
      assert (D : deliveries svc env s
                  = [(s_telegram_id s,
                      _format_notification_message (now_text env) s info)]).
      { unfold deliveries, delivered. rewrite P, C, B. reflexivity. }
      rewrite D. repeat split; first [assumption | apply R].
    + exists [], []. cbn [fst snd log db sent map]. rewrite !app_nil_r.
      split; [reflexivity|]. split; [reflexivity|].
      cbn [task_sent task_recorded delivery_inv app].
      unfold records, deliveries, delivered. rewrite P, C, B. cbn [map].
      repeat split; first [assumption | apply R].
  - destruct Inv as [Es D].
    destruct (untimed_s_fields _ _ Es) as [Hid _].
    exists [], [mk_notification
                  (next_rowid (notifications_seq (db w)) (map n_id (notifications (db w))))
                  (sub_id (row s')) msg (current_timestamp env)].
    cbn [fst snd db sent notifications add_notification task_sent task_recorded
         delivery_inv].
    rewrite !app_nil_r. split; [reflexivity|]. split; [reflexivity|].
    split; [reflexivity|]. split; [|split; [exact R | exact I]].
    unfold records. rewrite D, Hid. reflexivity.
  - exists [], []. cbn [fst snd map]. rewrite !app_nil_r. repeat split; apply R.
Qed.

Lemma resume_delivers :
  forall i L tasks w,
    incl L (get_active_subscriptions d0) -> same_rows d0 (db w) ->
    Forall2 (delivery_inv svc env) L tasks ->
    exists msgs rows,
      sent (snd (resume svc env i tasks w)) = sent w ++ msgs
      /\ notifications (db (snd (resume svc env i tasks w)))
         = notifications (db w) ++ rows
      /\ Permutation (gathered (task_sent svc env) L (fst (resume svc env i tasks w)))
                     (gathered (task_sent svc env) L tasks ++ msgs)
      /\ Permutation (gathered (task_recorded svc env) L
                               (fst (resume svc env i tasks w)))
                     (gathered (task_recorded svc env) L tasks
                      ++ map notification_of rows)
      /\ same_rows d0 (db (snd (resume svc env i tasks w)))
      /\ Forall2 (delivery_inv svc env) L (fst (resume svc env i tasks w)).
Proof.
  induction i as [|j IH]; intros L tasks w Hincl R F.
  - destruct F as [|s t L tasks Hst F].
    + exists [], []. cbn [resume fst snd map]. rewrite !app_nil_r.
      repeat split; try apply R; constructor.
    + destruct (step_delivers w s t (Hincl s (or_introl eq_refl)) R Hst)
        as [msgs [rows [Hs [Hn [Ts [Tr [R' Inv']]]]]]].
      exists msgs, rows. cbn [resume].
      destruct (step svc env t w) as [t' w'] eqn:S. cbn [fst snd] in *.
      split; [exact Hs|]. split; [exact Hn|].
      unfold gathered. cbn [combine flat_map fst snd]. rewrite Ts, Tr.
      split; [|split; [|split; [exact R' | now constructor]]];
        rewrite <- !app_assoc; apply Permutation_app_head, Permutation_app_comm.
  - destruct F as [|s t L tasks Hst F].
    + exists [], []. cbn [resume fst snd map]. rewrite !app_nil_r.
      repeat split; try apply R; constructor.
    + destruct (IH L tasks w (fun x Hx => Hincl x (or_intror Hx)) R F)
        as [msgs [rows [Hs [Hn [Ps [Pr [R' F']]]]]]].
      exists msgs, rows. cbn [resume].
      destruct (resume svc env j tasks w) as [tasks' w'] eqn:S. cbn [fst snd] in *.
      split; [exact Hs|]. split; [exact Hn|].
      unfold gathered in *. cbn [combine flat_map fst snd].
      split; [|split; [|split; [exact R' | now constructor]]];
        rewrite <- app_assoc; now apply Permutation_app_head.
Qed.

Lemma run_schedule_delivers :
  forall schedule L tasks w,
    incl L (get_active_subscriptions d0) -> same_rows d0 (db w) ->
    Forall2 (delivery_inv svc env) L tasks ->
    exists msgs rows,
      sent (snd (run_schedule svc env schedule tasks w)) = sent w ++ msgs
      /\ notifications (db (snd (run_schedule svc env schedule tasks w)))
         = notifications (db w) ++ rows
      /\ Permutation (gathered (task_sent svc env) L
                               (fst (run_schedule svc env schedule tasks w)))
                     (gathered (task_sent svc env) L tasks ++ msgs)
      /\ Permutation (gathered (task_recorded svc env) L
                               (fst (run_schedule svc env schedule tasks w)))
                     (gathered (task_recorded svc env) L tasks
                      ++ map notification_of rows).
Proof.
  induction schedule as [|i later IH]; intros L tasks w Hincl R F.
  - exists [], []. cbn [run_schedule fst snd map]. rewrite !app_nil_r.
    repeat split; apply Permutation_refl.
  - destruct (resume_delivers i L tasks w Hincl R F)
      as [msgs [rows [Hs [Hn [Ps [Pr [R' F']]]]]]].
    cbn [run_schedule]. destruct (resume svc env i tasks w) as [tasks' w'] eqn:S.
    cbn [fst snd] in *.
    destruct (IH L tasks' w' Hincl R' F') as [msgs2 [rows2 [Hs2 [Hn2 [Ps2 Pr2]]]]].
    exists (msgs ++ msgs2), (rows ++ rows2).
    rewrite Hs2, Hn2, Hs, Hn, <- !app_assoc, map_app.
    split; [reflexivity|]. split; [reflexivity|]. split.
    + eapply Permutation_trans; [exact Ps2|]. rewrite app_assoc.
      now apply Permutation_app_tail.
    + eapply Permutation_trans; [exact Pr2|]. rewrite app_assoc.
      now apply Permutation_app_tail.
Qed.

End Deliveries.

Lemma initial_tasks_delivery svc env (L : list subscription) :
  Forall2 (delivery_inv svc env) L (map (fun s => AtListing (sub_id (row s))) L)
  /\ gathered (task_sent svc env) L (map (fun s => AtListing (sub_id (row s))) L) = []
  /\ gathered (task_recorded svc env) L (map (fun s => AtListing (sub_id (row s))) L)
     = [].
Proof.
  unfold gathered.
  induction L as [|s L [IH1 [IH2 IH3]]]; cbn [map combine flat_map fst snd];
    [repeat split; constructor|].
  split; [constructor; [reflexivity | exact IH1]|]. split; assumption.
Qed.

Lemma finished_tasks_gathered {A : Type} (f : subscription -> task -> list A)
      (L : list subscription) :
  forall tasks,
    List.length tasks = List.length L -> Forall (eq Finished) tasks ->
    gathered f L tasks = flat_map (fun s => f s Finished) L.
Proof.
  unfold gathered. induction L as [|s L IH]; intros [|t tasks] Hlen Hfin;
    try discriminate Hlen; [reflexivity|].
  inversion Hfin as [|? ? Ht Hrest]; subst.
  cbn [combine flat_map fst snd]. f_equal. apply IH; [|exact Hrest].
  now injection Hlen.
Qed.

Lemma no_bot_no_deliveries svc env (L : list subscription) :
  has_bot svc = false ->
  flat_map (deliveries svc env) L = [] /\ flat_map (records svc env) L = [].
Proof.
  intros Hb.
  assert (E : forall s, deliveries svc env s = []).
  { intros s. unfold deliveries, delivered.
    destruct (parser env (query_of s)); [|reflexivity].
    now rewrite Hb, andb_false_r. }
  induction L as [|s L [IH1 IH2]]; [now split|].
  cbn [flat_map]. unfold records at 1. rewrite IH1, IH2, E. now split.
Qed.

(** Every task has finished once each has been resumed six times. *)
Lemma fair_schedule_finishes svc env schedule (L : list subscription) w :
  resumes_each 6 (List.length L) schedule ->
  Forall (eq Finished)
         (fst (run_schedule svc env schedule
                 (map (fun s => AtListing (sub_id (row s))) L) w)).
Proof.
  intros Hfair. apply Forall_forall. intros t Ht.
  destruct (In_nth _ _ Finished Ht) as [j [Hj Hn]].
  pose proof (run_schedule_remaining svc env schedule j
                (map (fun s => AtListing (sub_id (row s))) L) w) as H.
  rewrite Hn in H.
  assert (Hstart : (remaining (nth j (map (fun s => AtListing (sub_id (row s))) L)
                                   Finished) <= 6)%nat).
  { destruct (nth j (map (fun s => AtListing (sub_id (row s))) L) Finished);
      cbn; lia. }
  rewrite run_schedule_length, length_map in Hj. specialize (Hfair j Hj).
  symmetry. apply remaining_zero. lia.
Qed.

(** Running the tasks one after the other resumes each six times. *)
Lemma sequential_resumes_each (n : nat) : resumes_each 6 n (sequential n).
Proof.
  intros i Hi. unfold sequential.
  assert (G : forall len start,
            (start <= i < start + len)%nat ->
            (6 <= count_occ Nat.eq_dec
                    (flat_map (fun k => repeat k 6) (seq start len)) i)%nat).
  { induction len as [|len IH]; intros start Hr; [lia|].
    cbn [seq flat_map]. rewrite count_occ_app.
    destruct (Nat.eq_dec start i) as [->|Hne].
    - rewrite count_occ_repeat_eq by reflexivity. lia.
    - specialize (IH (S start)). lia. }
  apply G. lia.
Qed.

(** The notification log records the deliveries of a cycle. The checks
    of a cycle run as concurrent tasks, and the event loop may resume
    them in any order; for every order that lets each task finish, and
    so for the order in which [_check_all_subscriptions] runs them here,
    the messages Telegram accepted during the cycle are those of the
    listed subscriptions for which the source reported seats and the
    message was accepted, and each of them has left one row in
    [notifications], with the identifier of its subscription and the
    text that was sent; no other message is sent and no other row is
    written. Neither the order of the messages nor that of the rows is
    the order of the listing, and the two orders need not agree. A
    service without a bot sends and records nothing. *)
Theorem notifications_match_deliveries svc env (w : World) :
  keys_unique (db w) ->
  delivered_and_recorded svc env w (snd (_check_all_subscriptions svc env w))
  /\ forall schedule,
       resumes_each 6 (List.length (get_active_subscriptions (db w))) schedule ->
       delivered_and_recorded svc env w
         (snd (check_all_interleaved svc env schedule w)).
Proof.
  intros K.
  assert (Hall : forall schedule,
            resumes_each 6 (List.length (get_active_subscriptions (db w))) schedule ->
            delivered_and_recorded svc env w
              (snd (check_all_interleaved svc env schedule w))).
  { intros schedule Hfair.
    unfold check_all_interleaved, db_get_active_subscriptions, db_call. cbn [fst snd].
    set (L := get_active_subscriptions (db w)) in *.
    set (w1 := mk_world (db w) (sent w) (trace w ++ [EvGetActiveSubscriptions])).
    set (start := map (fun s => AtListing (sub_id (row s))) L).
    destruct (initial_tasks_delivery svc env L) as [F0 [S0 R0]]. fold start in F0, S0, R0.
    destruct (run_schedule_delivers svc env (db w) K schedule L start w1
                (incl_refl _) (same_rows_refl _) F0)
      as [msgs [rows [Hs [Hn [Ps Pr]]]]].
    rewrite S0 in Ps. rewrite R0 in Pr. cbn [app] in Ps, Pr.
    pose proof (fair_schedule_finishes svc env schedule L w1 Hfair) as Hfin.
    fold start in Hfin.
    assert (Hlen : List.length (fst (run_schedule svc env schedule start w1))
                   = List.length L).
    { rewrite run_schedule_length. unfold start. apply length_map. }
    rewrite (finished_tasks_gathered (task_sent svc env) L _ Hlen Hfin) in Ps.
    rewrite (finished_tasks_gathered (task_recorded svc env) L _ Hlen Hfin) in Pr.
    assert (Ps' : Permutation msgs (flat_map (deliveries svc env) L))
      by (apply Permutation_sym; exact Ps).
    assert (Pr' : Permutation (map notification_of rows)
                              (flat_map (records svc env) L))
      by (apply Permutation_sym; exact Pr).
    clear Ps Pr. rename Ps' into Ps, Pr' into Pr.
    exists msgs, rows. fold L.
    split; [exact Hs|]. split; [exact Hn|]. split; [exact Ps|]. split; [exact Pr|].
    intros Hb. destruct (no_bot_no_deliveries svc env L Hb) as [E1 E2].
    rewrite E1 in Ps. rewrite E2 in Pr.
    apply Permutation_sym, Permutation_nil in Ps.
    apply Permutation_sym, Permutation_nil in Pr.
    split; [exact Ps|]. destruct rows; [reflexivity | discriminate Pr]. }
  split; [|exact Hall].
  rewrite <- check_all_sequential. apply Hall.
  apply sequential_resumes_each.
Qed.

(** ** Last-checked times after a cycle *)

Lemma checked_world_rows svc env s w :
  users (db (checked_world svc env s w)) = users (db w)
  /\ subscriptions (db (checked_world svc env s w))
     = map (fun r => if (sub_id r =? sub_id (row s)) && answered env (row s)
                     then touch (current_timestamp env) r else r)
           (subscriptions (db w)).
Proof.
  unfold checked_world, answered.
  change (query_of (mk_joined (row s) (user_id (row s)) None)) with (query_of s).
  destruct (parser env (query_of s)) as [info|e].
  - assert (E : forall r, (sub_id r =? sub_id (row s)) && true
                          = (sub_id r =? sub_id (row s)))
      by (intros; apply andb_true_r).
    destruct (delivered svc env s info); cbn [db]; (split; [reflexivity|]);
      cbn; unfold update_where; apply map_ext; intros r; now rewrite E.
  - cbn [db]. split; [reflexivity|]. rewrite <- (map_id (subscriptions (db w))) at 1.
    apply map_ext. intros r. now rewrite andb_false_r.
Qed.

Lemma fold_checked_rows svc env :
  forall L' w,
    let w' := fold_left (fun w s' => checked_world svc env s' w) L' w in
    users (db w') = users (db w)
    /\ subscriptions (db w')
       = map (fun r => if existsb (fun s => (sub_id r =? sub_id (row s))
                                            && answered env (row s)) L'
                       then touch (current_timestamp env) r else r)
             (subscriptions (db w)).
Proof.
  induction L' as [|s L' IH]; intros w; cbn [fold_left existsb].
  - split; [reflexivity|]. now rewrite map_id.
  - destruct (IH (checked_world svc env s w)) as [Hu Hs].
    destruct (checked_world_rows svc env s w) as [Hu1 Hs1].
    split; [congruence|]. rewrite Hs, Hs1, map_map. apply map_ext. intros r.
    destruct ((sub_id r =? sub_id (row s)) && answered env (row s)) eqn:E;
      cbn [orb]; [|reflexivity].
    change (sub_id (touch (current_timestamp env) r)) with (sub_id r).
    destruct (existsb _ L'); reflexivity.
Qed.

(** What a cycle writes to [subscriptions]: the last-checked time of
    exactly the listed rows whose probe was answered becomes the time of
    the cycle; no other column and no other row changes, and [users] is
    left alone. *)
Theorem cycle_sets_last_checked svc env (w : World) :
  keys_unique (db w) ->
  exists w',
    _check_all_subscriptions svc env w = (Ok tt, w')
    /\ users (db w') = users (db w)
    /\ subscriptions (db w')
       = map (fun r => if listed (db w) r && answered env r
                       then touch (current_timestamp env) r else r)
             (subscriptions (db w)).
Proof.
  intros K. destruct (cycle_fold svc env w K) as [L' [HF Hrun]].
  destruct (fold_checked_rows svc env L' (log EvGetActiveSubscriptions w)) as [Hu Hs].
  cbn [db log] in Hu, Hs.
  eexists. split; [exact Hrun|]. split; [exact Hu|]. rewrite Hs.
  apply map_ext_in. intros r Hr.
  assert (E : existsb (fun s => (sub_id r =? sub_id (row s)) && answered env (row s)) L'
              = existsb (fun s => (sub_id r =? sub_id (row s)) && answered env (row s))
                        (get_active_subscriptions (db w))).
  { clear -HF. induction HF as [|s s' L L' Hs HF IH]; [reflexivity|].
    cbn [existsb]. rewrite IH. f_equal.
    destruct (untimed_s_fields s s' Hs) as [Hid [_ [Hq _]]].
    unfold answered.
    change (query_of (mk_joined (row s') (user_id (row s')) None)) with (query_of s').
    change (query_of (mk_joined (row s) (user_id (row s)) None)) with (query_of s).
    now rewrite Hid, Hq. }
  rewrite E. clear E.
  assert (X : existsb (fun s => (sub_id r =? sub_id (row s)) && answered env (row s))
                      (get_active_subscriptions (db w))
              = listed (db w) r && answered env r).
  { apply eq_true_iff_eq. rewrite existsb_exists, andb_true_iff, listed_true. split.
    - intros [s [Hl Hg]]. apply andb_true_iff in Hg. destruct Hg as [Hid Hans].
      apply Z.eqb_eq in Hid. apply in_get_active in Hl.
      destruct Hl as [Hrow [Ha [u [Hu' [Hm _]]]]].
      assert (Er : row s = r).
      { destruct K as [ND _]. symmetry.
        now apply (NoDup_map_inj sub_id (subscriptions (db w))). }
      rewrite Er in *. split; [|exact Hans]. split; [exact Ha|]. now exists u.
    - intros [[Ha [u [Hu' Hm]]] Hans].
      exists (mk_joined r (telegram_id u) (first_name u)). split.
      + apply in_get_active. cbn [row]. repeat split; try assumption.
        exists u. repeat split; assumption.
      + cbn [row]. now rewrite Z.eqb_refl. }
  now rewrite X.
Qed.

(** Monitoring never ends a subscription: after any number of cycles,
    whatever the source answered and whatever was sent, the store has the
    same users and the same subscriptions up to last-checked times, and
    the same subscriptions are listed. *)
Theorem monitoring_keeps_subscriptions svc (envs : list Env) (w : World) :
  keys_unique (db w) ->
  exists w',
    run_cycles svc envs w = (Ok tt, w')
    /\ same_rows (db w) (db w')
    /\ map untimed_s (get_active_subscriptions (db w'))
       = map untimed_s (get_active_subscriptions (db w)).
Proof.
  revert w. induction envs as [|env envs IH]; intros w K.
  - exists w. split; [reflexivity|]. split; [apply same_rows_refl | reflexivity].
  - destruct (cycle_spec svc env w K) as [w1 [Hrun [Hsame _]]].
    destruct (IH w1 (same_rows_keys _ _ Hsame K)) as [w' [Hrun' [Hsame' Hl]]].
    exists w'. split.
    + cbn [run_cycles]. unfold bind, try_except. rewrite Hrun. exact Hrun'.
    + split; [eapply same_rows_trans; eassumption|].
      rewrite Hl. now apply same_rows_listing.
Qed.

(** ** Subscribing and the first check *)

Section CreateAndStart.

Variables (svc : MonitoringService) (env : Env).
Variables (now user : Z) (dep arr date train seat berth : string).

Lemma create_returns_row (d : Database) :
  let id := fst (create_subscription now user dep arr date train seat berth d) in
  let d1 := snd (create_subscription now user dep arr date train seat berth d) in
  exists r, In r (subscriptions d1) /\ sub_id r = id /\ is_active r = true
            /\ has_tuple user dep arr date train seat berth r
            /\ users d1 = users d.
Proof.
  cbv zeta. unfold create_subscription.
  destruct (find _ (subscriptions d)) as [r|] eqn:F; cbn [fst snd].
  - pose proof (find_some _ _ F) as [Hin Hs].
    apply same_subscription_true in Hs. destruct Hs as [Ht Ha].
    exists r. repeat split; try assumption; apply Ht.
  - eexists. split; [cbn [subscriptions]; apply in_or_app; right; left; reflexivity|].
    repeat split.
Qed.

(** Without a row in [users] for the subscriber, the check that
    [start_monitoring] runs right after [create_subscription] reads the
    listing, does not find the subscription in it and stops: the source
    is not asked and nothing is recorded. *)
Theorem start_monitoring_without_user (d : Database) (msgs : list (Z * string))
        (tr : list event) :
  keys_unique d ->
  existsb (fun u => telegram_id u =? user) (users d) = false ->
  let id := fst (create_subscription now user dep arr date train seat berth d) in
  let d1 := snd (create_subscription now user dep arr date train seat berth d) in
  start_monitoring svc env id (mk_world d1 msgs tr)
  = (Ok tt, mk_world d1 msgs (tr ++ [EvGetActiveSubscriptions])).
Proof.
  intros K Hno id d1. unfold start_monitoring.
  rewrite check_not_found; [reflexivity|]. cbn [db].
  apply find_none_iff. intros s Hs. apply Z.eqb_neq. intros Hid.
  destruct (create_returns_row d) as [r [Hr [Hrid [_ [Ht Hus]]]]].
  fold d1 in Hr, Hus. fold id in Hrid.
  apply in_get_active in Hs. destruct Hs as [Hrow [_ [u [Hu [Hm _]]]]].
  assert (K1 : keys_unique d1) by now apply keys_unique_create.
  assert (Er : row s = r).
  { destruct K1 as [ND _]. apply (NoDup_map_inj sub_id (subscriptions d1)); congruence. }
  rewrite Er in Hm. destruct Ht as [Huser _]. rewrite Hus in Hu.
  assert (X : existsb (fun u => telegram_id u =? user) (users d) = true).
  { apply existsb_exists. exists u. split; [exact Hu|]. apply Z.eqb_eq. congruence. }
  congruence.
Qed.

(** With the subscriber in [users], the check that [start_monitoring]
    runs right after [create_subscription] is the check of the
    subscription just returned: it asks the source for the train, route,
    date, class and berth that were passed to [create_subscription], on
    behalf of the subscriber. The date is one in the format [%Y-%m-%d]:
    the check reads it back from the [DATE] column, which returns such a
    text as it was passed (and a text that reads as a number as that
    number). *)
Theorem start_monitoring_after_create (d : Database) (msgs : list (Z * string))
        (tr : list event) (u : user_row) :
  iso_date date ->
  keys_unique d -> In u (users d) -> telegram_id u = user ->
  let id := fst (create_subscription now user dep arr date train seat berth d) in
  let d1 := snd (create_subscription now user dep arr date train seat berth d) in
  exists s,
    start_monitoring svc env id (mk_world d1 msgs tr)
    = (Ok tt, checked_world svc env s (mk_world d1 msgs tr))
    /\ sub_id (row s) = id /\ s_telegram_id s = user
    /\ query_of s = mk_query train dep arr date seat berth
    /\ In (EvCheckSeatAvailability id)
          (trace (checked_world svc env s (mk_world d1 msgs tr))).
Proof.
  intros _ K Hu Htg id d1.
  destruct (create_returns_row d) as [r [Hr [Hrid [Ha [Ht Hus]]]]].
  fold d1 in Hr, Hus. fold id in Hrid.
  assert (K1 : keys_unique d1) by now apply keys_unique_create.
  set (s := mk_joined r (telegram_id u) (first_name u)).
  assert (Hs : In s (get_active_subscriptions d1)).
  { apply in_get_active. cbn [row s]. repeat split; try assumption.
    exists u. rewrite Hus. repeat split; try assumption.
    destruct Ht as [Huser _]. congruence. }
  exists s. unfold start_monitoring. split.
  - rewrite <- Hrid. apply check_found. cbn [db].
    change (sub_id r) with (sub_id (row s)).
    apply (find_unique (fun x => sub_id (row x))); [now apply listing_NoDup | exact Hs].
  - split; [exact Hrid|]. split; [exact Htg|]. split.
    + unfold query_of. cbn [row s].
      destruct Ht as [_ [-> [-> [-> [-> [-> ->]]]]]]. reflexivity.
    + rewrite checked_world_trace. apply in_or_app. right.
      unfold check_events. right. left. cbn [row s]. now rewrite Hrid.
Qed.

End CreateAndStart.

(* ================================================================== *)
(** * Pages and stations *)
(* ================================================================== *)

Local Open Scope string_scope.

Lemma prefix_of_app (p s : string) :
  prefix_of p s = true <-> exists rest, s = p ++ rest.
Proof.
  revert s. induction p as [|a p IH]; intros s; cbn [prefix_of].
  - split; [intros _; now exists s | reflexivity].
  - destruct s as [|b s].
    + split; [discriminate | intros [rest H]; discriminate H].
    + rewrite andb_true_iff, Ascii.eqb_eq, IH. split.
      * intros [-> [rest ->]]. now exists rest.
      * intros [rest H]. cbn in H. injection H as -> ->. split; [reflexivity|].
        now exists rest.
Qed.

Lemma str_in_occurs (needle haystack : string) :
  str_in needle haystack = true <-> occurs_in needle haystack.
Proof.
  induction haystack as [|c h IH]; cbn [str_in]; rewrite orb_true_iff, prefix_of_app.
  - split.
    + intros [[rest H]|H]; [|discriminate H]. exists "", rest. exact H.
    + intros [[|a before] [after H]]; [left; now exists after|]. discriminate H.
  - rewrite IH. split.
    + intros [[rest H]|[before [after H]]].
      * exists "", rest. exact H.
      * exists (String c before), after. cbn. now rewrite H.
    + intros [[|a before] [after H]]; [left; now exists after|].
      right. cbn in H. injection H as -> ->. now exists before, after.
Qed.

Lemma str_in_trans (a b c : string) :
  str_in a b = true -> str_in b c = true -> str_in a c = true.
Proof.
  rewrite !str_in_occurs. intros [p [q ->]] [p' [q' ->]].
  exists (p' ++ p), (q ++ q'). now rewrite !append_assoc.
Qed.

Lemma scan_blocks_available net seat_type berth_position blocks seat_info :
  truthy (available_of
            (RZDParser.scan_blocks net seat_type berth_position blocks seat_info))
  = true
  \/ RZDParser.scan_blocks net seat_type berth_position blocks seat_info = seat_info.
Proof.
  induction blocks as [|b rest IH]; cbn [RZDParser.scan_blocks]; [now right|].
  destruct (RZDParser._is_seat_available net b seat_type berth_position); [|exact IH].
  left. unfold available_of, dict_get_default.
  assert (E : forall (k' : string) v (d : dict),
             negb (String.eqb "available" k') = true ->
             dict_get "available" (dict_set k' v d) = dict_get "available" d).
  { intros k' v d Hk. induction d as [|[k0 v0] d IHd]; cbn [dict_set dict_get].
    - apply negb_true_iff in Hk. now rewrite Hk.
    - destruct (String.eqb k' k0) eqn:E0; cbn [dict_get].
      + apply String.eqb_eq in E0. subst k0. apply negb_true_iff in Hk. now rewrite Hk.
      + destruct (String.eqb "available" k0); [reflexivity | exact IHd]. }
  rewrite !E by reflexivity.
  assert (S : forall v (d : dict), dict_get "available" (dict_set "available" v d) = Some v).
  { intros v d. induction d as [|[k0 v0] d IHd]; cbn [dict_set dict_get].
    - reflexivity.
    - destruct (String.eqb "available" k0) eqn:E0; cbn [dict_get].
      + reflexivity.
      + now rewrite E0. }
  rewrite S. reflexivity.
Qed.

Lemma general_availability_word net page t seat_type berth_position :
  RZDParser.s_get_text page = Ok t ->
  str_in "недоступно" (RZDParser.lower net t) = true
  \/ str_in "unavailable" (RZDParser.lower net t) = true ->
  RZDParser._check_general_availability net page seat_type berth_position
  = [("available", VBool true); ("seat_type", VStr seat_type);
     ("berth_position", VStr berth_position);
     ("price", VStr "Уточните на сайте"); ("car_number", VStr "Уточните на сайте");
     ("seat_number", VStr "Уточните на сайте")].
Proof.
  intros Ht Hw. unfold RZDParser._check_general_availability, res_catch, res_bind.
  rewrite Ht.
  assert (X : existsb (fun indicator => str_in indicator (RZDParser.lower net t))
                      RZDParser.availability_indicators = true).
  { apply existsb_exists. destruct Hw as [H|H].
    - exists "доступно". split; [now left|].
      apply (str_in_trans _ "недоступно"); [reflexivity | exact H].
    - exists "available". split; [cbn; tauto|].
      apply (str_in_trans _ "unavailable"); [reflexivity | exact H]. }
  now rewrite X.
Qed.

(** A page whose text says "недоступно" or "unavailable" is read as
    available: the words contain the availability indicators "доступно"
    and "available", which [_check_general_availability] looks for
    first. If the page parses, [_parse_seat_availability] reports
    available seats for it, whatever its blocks are. *)
Theorem unavailable_page_reads_available net html page t seat_type berth_position :
  RZDParser.BeautifulSoup net html = Ok page ->
  (forall selector, exists blocks, RZDParser.s_select page selector = Ok blocks) ->
  (exists blocks, RZDParser.s_find_all_text_parents page = Ok blocks) ->
  RZDParser.s_get_text page = Ok t ->
  str_in "недоступно" (RZDParser.lower net t) = true
  \/ str_in "unavailable" (RZDParser.lower net t) = true ->
  truthy (available_of
            (RZDParser._parse_seat_availability net html seat_type berth_position))
  = true
  /\ truthy (available_of
               (RZDParser._check_general_availability net page seat_type
                                                      berth_position))
     = true.
Proof.
  intros Hp Hsel [bs0 Hall] Ht Hw.
  pose proof (general_availability_word net page t seat_type berth_position Ht Hw) as G.
  split; [|now rewrite G].
  unfold RZDParser._parse_seat_availability, res_catch, res_bind. rewrite Hp.
  assert (S : exists blocks,
             RZDParser.select_first page RZDParser.seat_selectors = Ok blocks).
  { induction RZDParser.seat_selectors as [|sel sels IH];
      cbn [RZDParser.select_first]; [now exists []|].
    unfold res_bind. destruct (Hsel sel) as [bs ->].
    destruct bs; [exact IH | eexists; reflexivity]. }
  destruct S as [blocks ->].
  assert (B : exists bs,
             match blocks with
             | [] => RZDParser.s_find_all_text_parents page
             | _ :: _ => Ok blocks
             end = Ok bs).
  { destruct blocks; [now exists bs0 | eexists; reflexivity]. }
  destruct B as [bs ->].
  destruct (scan_blocks_available net seat_type berth_position bs
              [("available", VBool false); ("seat_type", VStr seat_type);
               ("berth_position", VStr berth_position); ("price", VNone);
               ("car_number", VNone); ("seat_number", VNone)]) as [A|A].
  - assert (A' : truthy (dict_get_default "available" VNone
                           (RZDParser.scan_blocks net seat_type berth_position bs
                              [("available", VBool false); ("seat_type", VStr seat_type);
                               ("berth_position", VStr berth_position); ("price", VNone);
                               ("car_number", VNone); ("seat_number", VNone)]))
                 = true).
    { revert A. unfold available_of, dict_get_default.
      destruct (dict_get "available" _); [trivial | discriminate]. }
    rewrite A'. cbn [negb]. exact A.
  - rewrite A. cbn [dict_get_default dict_get String.eqb truthy negb].
    now rewrite G.
Qed.

(** ** Station codes *)

Lemma dict_get_in {V : Type} (k : string) (d : list (string * V)) (v : V) :
  dict_get k d = Some v -> In (k, v) d.
Proof.
  induction d as [|[k0 v0] d IH]; cbn [dict_get]; [discriminate|].
  destruct (String.eqb k k0) eqn:E.
  - apply String.eqb_eq in E. subst k0. intros [= ->]. now left.
  - intros H. right. now apply IH.
Qed.

Lemma dict_get_none {V : Type} (k : string) (d : list (string * V)) :
  dict_get k d = None <-> ~ In k (map fst d).
Proof.
  induction d as [|[k0 v0] d IH]; cbn [dict_get map fst In]; [tauto|].
  destruct (String.eqb k k0) eqn:E.
  - apply String.eqb_eq in E. subst k0. split; [discriminate | tauto].
  - apply String.eqb_neq in E. rewrite IH. split; [intros H [G|G]; congruence | tauto].
Qed.

Lemma str_in_refl (s : string) : str_in s s = true.
Proof. apply str_in_occurs. exists "", "". now rewrite append_nil_r. Qed.

(** [_get_station_code]: a name that is empty after normalisation is
    taken for Moscow (the empty text occurs in the first key of the
    table); a name that contains a key of the table, or occurs in one,
    gets a code of the table; and when no key is related to the name in
    either way the result is that of the suggester. *)
Theorem station_code_lookup (net : RZDParser.Net) (station_name : string) :
  let normalized_name := RZDParser.strip net (RZDParser.lower net station_name) in
  (normalized_name = "" ->
   RZDParser._get_station_code net station_name = Some "2000000")
  /\ (forall key,
        In key (map fst RZDParser.station_codes) ->
        str_in normalized_name key = true \/ str_in key normalized_name = true ->
        exists code,
          RZDParser._get_station_code net station_name = Some code
          /\ In code (map snd RZDParser.station_codes))
  /\ ((forall key,
         In key (map fst RZDParser.station_codes) ->
         str_in normalized_name key = false /\ str_in key normalized_name = false) ->
      RZDParser._get_station_code net station_name
      = RZDParser._search_station_code_api net station_name).
Proof.
  cbv zeta. unfold RZDParser._get_station_code.
  set (n := RZDParser.strip net (RZDParser.lower net station_name)).
  split; [|split].
  - intros ->. vm_compute. reflexivity.
  - intros key Hkey Hrel.
    destruct (dict_get n RZDParser.station_codes) as [code|] eqn:G.
    + exists code. split; [reflexivity|].
      apply dict_get_in in G. apply in_map_iff. now exists (n, code).
    + destruct (find _ RZDParser.station_codes) as [[k code]|] eqn:F.
      * exists code. split; [reflexivity|].
        apply find_some in F. destruct F as [F _].
        apply in_map_iff. now exists (k, code).
      * exfalso. apply in_map_iff in Hkey. destruct Hkey as [[k c] [<- Hin]].
        pose proof (proj1 (find_none_iff _ _) F (k, c) Hin) as X.
        cbv beta in X. cbn [fst] in X.
        apply orb_false_iff in X. destruct X as [X1 X2].
        cbn [fst] in Hrel. destruct Hrel; congruence.
  - intros Hnone.
    assert (G : dict_get n RZDParser.station_codes = None).
    { apply dict_get_none. intros Hin. destruct (Hnone n Hin) as [X _].
      rewrite str_in_refl in X. discriminate X. }
    rewrite G.
    assert (F : find (fun sc : string * string =>
                        str_in n (fst sc) || str_in (fst sc) n)
                     RZDParser.station_codes = None).
    { apply find_none_iff. intros [k c] Hin. cbn [fst].
      destruct (Hnone k (in_map fst _ _ Hin)) as [-> ->]. reflexivity. }
    now rewrite F.
Qed.

(** ** The train search *)

Lemma select_first_trains_ok (page : RZDParser.train_page) (selectors : list string) :
  (forall selector, exists blocks, RZDParser.tp_select page selector = Ok blocks) ->
  exists blocks, RZDParser.select_first_trains page selectors = Ok blocks
                 /\ ((forall selector, RZDParser.tp_select page selector = Ok []) ->
                     blocks = []).
Proof.
  intros Hsel. induction selectors as [|sel sels IH];
    cbn [RZDParser.select_first_trains].
  - exists []. split; reflexivity.
  - unfold res_bind. destruct (Hsel sel) as [bs E]. rewrite E.
    destruct bs as [|b bs].
    + exact IH.
    + eexists. split; [reflexivity|]. intros H. rewrite H in E. discriminate E.
Qed.

(** [search_trains] does not return an empty list for a page it can
    read: with both stations resolved and a 200 response, the result is
    what [_parse_trains_from_html] makes of the page, which is never
    empty; when the page has no train block and no embedded state, it is
    the three canned trains of [_get_fallback_trains], whatever the route
    and the date. *)
Theorem search_falls_back_to_canned_trains (snet : RZDParser.SearchNet)
        (departure_station arrival_station departure_date : string)
        (departure_code arrival_code html : string)
        (response : RZDParser.response) (page : RZDParser.train_page) :
  RZDParser._get_station_code (RZDParser.net snet) departure_station
  = Some departure_code ->
  RZDParser._get_station_code (RZDParser.net snet) arrival_station
  = Some arrival_code ->
  departure_code <> "" -> arrival_code <> "" ->
  RZDParser.http_get (RZDParser.net snet) (RZDParser.base_url ++ "/tickets/public/ru")
    (RZDParser.search_params (Some departure_code) (Some arrival_code) departure_date)
  = Ok response ->
  RZDParser.status response = 200%Z -> RZDParser.text response = Ok html ->
  RZDParser.parse_trains snet html = Ok page ->
  (forall selector, exists blocks, RZDParser.tp_select page selector = Ok blocks) ->
  (exists blocks, RZDParser.tp_find_all_text_parents page = Ok blocks) ->
  RZDParser.search_trains snet departure_station arrival_station departure_date
  = RZDParser._parse_trains_from_html snet html
  /\ RZDParser._parse_trains_from_html snet html <> []
  /\ ((forall selector, RZDParser.tp_select page selector = Ok []) ->
      RZDParser.tp_find_all_text_parents page = Ok [] ->
      RZDParser._parse_trains_alternative snet html = [] ->
      RZDParser.search_trains snet departure_station arrival_station departure_date
      = RZDParser._get_fallback_trains).
Proof.
  intros Hd Ha Hdn Han Hget Hst Htext Hpage Hsel [bs0 Hall].
  assert (S : RZDParser.search_trains snet departure_station arrival_station
                departure_date
              = RZDParser._parse_trains_from_html snet html).
  { unfold RZDParser.search_trains, res_catch, res_bind. rewrite Hd, Ha.
    unfold opt_str_truthy, of_opt_str, truthy.
    apply String.eqb_neq in Hdn, Han. rewrite Hdn, Han. cbn [negb orb].
    rewrite Hget, Hst, Htext. reflexivity. }
  destruct (select_first_trains_ok page RZDParser.train_selectors Hsel)
    as [blocks [Hb Hnone]].
  assert (P : forall bs,
             match blocks with
             | [] => RZDParser.tp_find_all_text_parents page
             | _ :: _ => Ok blocks
             end = Ok bs ->
             RZDParser._parse_trains_from_html snet html
             = match
                 match RZDParser.trains_of_blocks bs with
                 | [] => RZDParser._parse_trains_alternative snet html
                 | _ :: _ => RZDParser.trains_of_blocks bs
                 end
               with
               | [] => RZDParser._get_fallback_trains
               | t :: ts => t :: ts
               end).
  { intros bs E. unfold RZDParser._parse_trains_from_html, res_catch, res_bind.
    rewrite Hpage, Hb, E.
    destruct (RZDParser.trains_of_blocks bs);
      [destruct (RZDParser._parse_trains_alternative snet html)|]; reflexivity. }
  split; [exact S|]. split.
  - assert (B : exists bs,
               match blocks with
               | [] => RZDParser.tp_find_all_text_parents page
               | _ :: _ => Ok blocks
               end = Ok bs).
    { destruct blocks; [now exists bs0 | eexists; reflexivity]. }
    destruct B as [bs E]. rewrite (P bs E).
    destruct (RZDParser.trains_of_blocks bs);
      [destruct (RZDParser._parse_trains_alternative snet html)|]; discriminate.
  - intros Hempty Hparents Halt. rewrite S.
    rewrite (Hnone Hempty) in P. rewrite (P [] Hparents).
    cbn [RZDParser.trains_of_blocks flat_map]. rewrite Halt. reflexivity.
Qed.

Local Close Scope string_scope.

(* ================================================================== *)
(** * The conversation *)
(* ================================================================== *)

Lemma states_get_set (k k' : Z) (v : Bot.user_state) (l : list (Z * Bot.user_state)) :
  Bot.states_get k' (Bot.states_set k v l)
  = if k' =? k then Some v else Bot.states_get k' l.
Proof.
  induction l as [|[k0 v0] l IH]; cbn [Bot.states_set Bot.states_get].
  - destruct (Z.eqb_spec k k'), (Z.eqb_spec k' k); congruence.
  - destruct (Z.eqb_spec k0 k); cbn [Bot.states_get].
    + subst k0. destruct (Z.eqb_spec k k'), (Z.eqb_spec k' k); congruence.
    + destruct (Z.eqb_spec k0 k'); [|exact IH].
      subst k0. destruct (Z.eqb_spec k' k); congruence.
Qed.

Lemma no_date_set (k : Z) (v : Bot.user_state) (l : list (Z * Bot.user_state)) :
  no_date l -> Bot.ud_departure_date (Bot.us_data v) = None ->
  no_date (Bot.states_set k v l).
Proof.
  intros H Hv k' s. rewrite states_get_set.
  destruct (k' =? k); [intros [= <-]; exact Hv | apply H].
Qed.

Lemma no_date_nil : no_date [].
Proof. intros k s H. discriminate H. Qed.

Lemma nothing_subscribed_refl w : nothing_subscribed w w.
Proof. repeat split. apply incl_refl. Qed.

Lemma nothing_subscribed_trans w1 w2 w3 :
  nothing_subscribed w1 w2 -> nothing_subscribed w2 w3 -> nothing_subscribed w1 w3.
Proof.
  intros [A1 [B1 C1]] [A2 [B2 C2]]. repeat split; try congruence.
  eapply incl_tran; eassumption.
Qed.

Lemma nothing_subscribed_delete id w :
  nothing_subscribed w (mk_world (snd (delete_subscription id (db w))) (sent w) (trace w)).
Proof.
  repeat split. cbn. intros r Hr. apply in_map_iff in Hr.
  destruct Hr as [r0 [<- Hr0]]. apply filter_In in Hr0. apply in_map, Hr0.
Qed.

Lemma nothing_subscribed_same_rows w w' :
  same_rows (db w) (db w') -> subscriptions_seq (db w') = subscriptions_seq (db w) ->
  nothing_subscribed w w'.
Proof.
  intros [Hs Hu] Hq. repeat split; try assumption. rewrite Hs. apply incl_refl.
Qed.

(** A check leaves the sequence of [subscriptions] where it is. *)
Lemma checked_world_seq svc env s w :
  subscriptions_seq (db (checked_world svc env s w)) = subscriptions_seq (db w).
Proof.
  unfold checked_world. destruct (parser env (query_of s)) as [info|e]; [|reflexivity].
  destruct (delivered svc env s info); reflexivity.
Qed.

Lemma check_nothing_subscribed svc env id w :
  nothing_subscribed w (snd (_check_subscription svc env id w)).
Proof.
  destruct (find (fun s => sub_id (row s) =? id) (get_active_subscriptions (db w)))
    as [s|] eqn:F.
  - rewrite (check_found svc env id w s F). cbn [snd].
    apply nothing_subscribed_same_rows;
      [apply checked_world_same_rows | apply checked_world_seq].
  - rewrite (check_not_found svc env id w F). repeat split. apply incl_refl.
Qed.

Lemma gather_preserves {A : Type} (R : World -> World -> Prop) (tasks : list (M A)) :
  (forall w, R w w) -> (forall w1 w2 w3, R w1 w2 -> R w2 w3 -> R w1 w3) ->
  (forall t w, In t tasks -> R w (snd (t w))) ->
  forall w, R w (snd (gather tasks w)).
Proof.
  intros Hrefl Htrans. induction tasks as [|t tasks IH]; intros Ht w; cbn [gather].
  - apply Hrefl.
  - pose proof (Ht t w (or_introl eq_refl)) as H1.
    destruct (t w) as [r w1]. cbn [snd] in H1.
    pose proof (IH (fun t' w' Hin => Ht t' w' (or_intror Hin)) w1) as H2.
    destruct (gather tasks w1) as [[rs|e] w2]; cbn [snd] in *;
      eapply Htrans; eassumption.
Qed.


Lemma cycle_preserves (R : World -> World -> Prop) svc env :
  (forall w, R w w) -> (forall w1 w2 w3, R w1 w2 -> R w2 w3 -> R w1 w3) ->
  (forall w, R w (log EvGetActiveSubscriptions w)) ->
  (forall id w, R w (snd (_check_subscription svc env id w))) ->
  forall w, R w (snd (run_cycles svc [env] w)).
Proof.
  intros Hrefl Htrans Hlog Hcheck w.
  cbn [run_cycles].
  unfold _check_all_subscriptions, db_get_active_subscriptions, db_call, try_except,
    bind, ret.
  cbv beta iota.
  pose proof (gather_preserves R
                (map (fun s => _check_subscription svc env (sub_id (row s)))
                     (get_active_subscriptions (db w)))
                Hrefl Htrans) as H.
  specialize (H (fun t w0 Hin =>
                   match proj1 (in_map_iff _ _ _) Hin with
                   | ex_intro _ s (conj E _) =>
                       eq_ind _ (fun t => R w0 (snd (t w0)))
                              (Hcheck (sub_id (row s)) w0) _ E
                   end)
                (mk_world (db w) (sent w) (trace w ++ [EvGetActiveSubscriptions]))).
  pose proof (Hlog w) as H0. unfold log in H0.
  destruct (gather _ _) as [[rs|e] w2]; cbn [snd] in *; eapply Htrans; eassumption.
Qed.

Lemma cycle_nothing_subscribed svc env w :
  nothing_subscribed w (snd (run_cycles svc [env] w)).
Proof.
  apply cycle_preserves.
  - apply nothing_subscribed_refl.
  - apply nothing_subscribed_trans.
  - intros w0. repeat split. apply incl_refl.
  - apply check_nothing_subscribed.
Qed.

Lemma nothing_monitored_refl w : nothing_monitored w w.
Proof. split; reflexivity. Qed.

Lemma quiet_refl w : quiet w w.
Proof. intros H. split; [exact H | apply nothing_monitored_refl]. Qed.

Lemma quiet_trans w1 w2 w3 : quiet w1 w2 -> quiet w2 w3 -> quiet w1 w3.
Proof.
  intros H1 H2 Hu. destruct (H1 Hu) as [Hu2 [A1 B1]].
  destruct (H2 Hu2) as [Hu3 [A2 B2]]. split; [exact Hu3|]. split; congruence.
Qed.

Lemma no_users_no_listing (d : Database) :
  users d = [] -> get_active_subscriptions d = [].
Proof.
  intros H. unfold get_active_subscriptions. rewrite H.
  assert (E : forall l, flat_map (join_users []) l = []).
  { induction l as [|r l IH]; [reflexivity | exact IH]. }
  now rewrite E.
Qed.

Lemma check_quiet svc env id w : quiet w (snd (_check_subscription svc env id w)).
Proof.
  intros Hu. rewrite check_not_found.
  - unfold log. cbn [snd db sent trace]. split; [exact Hu|]. split; [|reflexivity].
    cbn [trace]. rewrite count_events_app. cbn. lia.
  - now rewrite (no_users_no_listing _ Hu).
Qed.

Lemma cycle_quiet svc env w : quiet w (snd (run_cycles svc [env] w)).
Proof.
  apply cycle_preserves.
  - apply quiet_refl.
  - apply quiet_trans.
  - intros w0 Hu. split; [exact Hu|]. split; [|reflexivity].
    unfold log. cbn [trace]. rewrite count_events_app. cbn. lia.
  - apply check_quiet.
Qed.

(** ** What the handlers keep *)

Lemma safe_same {A : Type} (m : Bot.B A) :
  (forall st, Bot.user_states (snd (m st)) = Bot.user_states st
              /\ Bot.world (snd (m st)) = Bot.world st) ->
  safe m.
Proof.
  intros H st. destruct (H st) as [Hs Hw]. rewrite Hs, Hw. split.
  - intros Hn. split; [exact Hn | apply nothing_subscribed_refl].
  - apply quiet_refl.
Qed.

Lemma safe_bret {A : Type} (a : A) : safe (Bot.bret a).
Proof. apply safe_same. intros st. split; reflexivity. Qed.

Lemma safe_braise {A : Type} (e : exn) : safe (@Bot.braise A e).
Proof. apply safe_same. intros st. split; reflexivity. Qed.

Lemma safe_blift {A : Type} (r : res A) : safe (Bot.blift r).
Proof. apply safe_same. intros st. split; reflexivity. Qed.

Lemma safe_get_user_state user_id : safe (Bot.get_user_state user_id).
Proof. apply safe_same. intros st. split; reflexivity. Qed.

Lemma safe_state_of user_id : safe (Bot.state_of user_id).
Proof.
  apply safe_same. intros st. unfold Bot.state_of.
  destruct (Bot.states_get user_id (Bot.user_states st)); split; reflexivity.
Qed.

Lemma safe_db_read {A : Type} (f : Database -> A) : safe (Bot.db_read f).
Proof. apply safe_same. intros st. split; reflexivity. Qed.

Lemma safe_send edit r u text keyboard : safe (Bot.send edit r u text keyboard).
Proof.
  apply safe_same. intros st. unfold Bot.send. destruct r; split; reflexivity.
Qed.

Lemma safe_call_reply_text env u text keyboard :
  safe (Bot.call_reply_text env u text keyboard).
Proof. apply safe_send. Qed.

Lemma safe_call_edit_message_text env u text keyboard :
  safe (Bot.call_edit_message_text env u text keyboard).
Proof. apply safe_send. Qed.

Lemma safe_bind {A C : Type} (m : Bot.B A) (k : A -> Bot.B C) :
  safe m -> (forall a, safe (k a)) -> safe (Bot.bbind m k).
Proof.
  intros Hm Hk st. unfold Bot.bbind. destruct (Hm st) as [H1 Q1].
  destruct (m st) as [[a|e] st1]; cbn [snd] in *; [|split; assumption].
  destruct (Hk a st1) as [H2 Q2]. split.
  - intros Hn. destruct (H1 Hn) as [Hn1 S1]. destruct (H2 Hn1) as [Hn2 S2].
    split; [exact Hn2 | eapply nothing_subscribed_trans; eassumption].
  - eapply quiet_trans; eassumption.
Qed.

Lemma safe_btry {A : Type} (m : Bot.B A) (h : exn -> Bot.B A) :
  safe m -> (forall e, safe (h e)) -> safe (Bot.btry m h).
Proof.
  intros Hm Hh st. unfold Bot.btry. destruct (Hm st) as [H1 Q1].
  destruct (m st) as [[a|e] st1]; cbn [snd] in *; [split; assumption|].
  destruct (Hh e st1) as [H2 Q2]. split.
  - intros Hn. destruct (H1 Hn) as [Hn1 S1]. destruct (H2 Hn1) as [Hn2 S2].
    split; [exact Hn2 | eapply nothing_subscribed_trans; eassumption].
  - eapply quiet_trans; eassumption.
Qed.

Lemma safe_btry_value_error {A : Type} (m h : Bot.B A) :
  safe m -> safe h -> safe (Bot.btry_value_error m h).
Proof.
  intros Hm Hh st. unfold Bot.btry_value_error. destruct (Hm st) as [H1 Q1].
  destruct (m st) as [[a|[msg|msg|msg]] st1]; cbn [snd] in *; try (split; assumption).
  destruct (Hh st1) as [H2 Q2]. split.
  - intros Hn. destruct (H1 Hn) as [Hn1 S1]. destruct (H2 Hn1) as [Hn2 S2].
    split; [exact Hn2 | eapply nothing_subscribed_trans; eassumption].
  - eapply quiet_trans; eassumption.
Qed.

Lemma safe_set_user_state user_id v :
  Bot.ud_departure_date (Bot.us_data v) = None ->
  safe (Bot.set_user_state user_id v).
Proof.
  intros Hv st. cbn. split.
  - intros Hn. split; [now apply no_date_set | apply nothing_subscribed_refl].
  - apply quiet_refl.
Qed.

Lemma safe_update_user_state user_id f :
  (forall s, Bot.ud_departure_date (Bot.us_data s) = None ->
             Bot.ud_departure_date (Bot.us_data (f s)) = None) ->
  safe (Bot.update_user_state user_id f).
Proof.
  intros Hf st. unfold Bot.update_user_state.
  destruct (Bot.states_get user_id (Bot.user_states st)) as [s|] eqn:G; cbn.
  - split; [|apply quiet_refl]. intros Hn.
    split; [|apply nothing_subscribed_refl].
    apply no_date_set; [exact Hn|]. apply Hf. now apply (Hn user_id).
  - split; [|apply quiet_refl]. intros Hn.
    split; [exact Hn | apply nothing_subscribed_refl].
Qed.

Lemma safe_delete id : safe (Bot.db_write (delete_subscription id)).
Proof.
  intros st. cbn. split.
  - intros Hn. split; [exact Hn|]. apply nothing_subscribed_delete.
  - intros Hu. split; [exact Hu | split; reflexivity].
Qed.

Lemma safe_stats svc env : safe (Bot.in_world (get_monitoring_stats svc env)).
Proof. apply safe_same. intros st. split; reflexivity. Qed.

Ltac safe_step :=
  first
    [ apply safe_bind; [|intros ?]
    | apply safe_btry; [|intros ?]
    | apply safe_btry_value_error
    | apply safe_bret | apply safe_braise | apply safe_blift
    | apply safe_get_user_state | apply safe_state_of | apply safe_db_read
    | apply safe_call_reply_text | apply safe_call_edit_message_text
    | apply safe_delete | apply safe_stats
    | apply safe_set_user_state; reflexivity
    | apply safe_update_user_state; intros ? ?; assumption
    | match goal with
      | |- safe (match ?x with _ => _ end) => destruct x
      | |- safe (if ?b then _ else _) => destruct b
      end ].

Lemma safe_start_command env u : safe (Bot.start_command env u).
Proof. unfold Bot.start_command. cbv zeta. repeat safe_step. Qed.

Lemma safe_help_command env u : safe (Bot.help_command env u).
Proof. unfold Bot.help_command. cbv zeta. repeat safe_step. Qed.

Lemma safe_my_subscriptions_command env u : safe (Bot.my_subscriptions_command env u).
Proof. unfold Bot.my_subscriptions_command. cbv zeta. repeat safe_step. Qed.

Lemma safe_stats_command svc env u : safe (Bot.stats_command svc env u).
Proof. unfold Bot.stats_command. cbv zeta. repeat safe_step. Qed.

Lemma safe_search_trains env u user_id : safe (Bot._search_trains env u user_id).
Proof. unfold Bot._search_trains. cbv zeta. repeat safe_step. Qed.

Lemma safe_handle_departure_station env u text :
  safe (Bot._handle_departure_station env u text).
Proof. unfold Bot._handle_departure_station. cbv zeta. repeat safe_step. Qed.

Lemma safe_handle_arrival_station env u text :
  safe (Bot._handle_arrival_station env u text).
Proof. unfold Bot._handle_arrival_station. cbv zeta. repeat safe_step. Qed.

Lemma safe_handle_date_selection env u text :
  safe (Bot._handle_date_selection env u text).
Proof.
  unfold Bot._handle_date_selection. cbv zeta.
  apply safe_btry_value_error; [|apply safe_call_reply_text].
  apply safe_bind; [apply safe_blift | intros parsed].
  apply safe_bind; [apply safe_blift | intros departure].
  unfold Bot.datetime_lt_date.
  apply safe_same. intros st. split; reflexivity.
Qed.

Lemma create_start_quiet svc env now user dep arr date train seat berth w :
  quiet w
    (snd (start_monitoring svc env
            (fst (create_subscription now user dep arr date train seat berth (db w)))
            (mk_world
               (snd (create_subscription now user dep arr date train seat berth (db w)))
               (sent w) (trace w)))).
Proof.
  intros Hu. unfold start_monitoring.
  destruct (create_returns_row now user dep arr date train seat berth (db w))
    as [r [_ [_ [_ [_ Hus]]]]].
  destruct (check_quiet svc env
              (fst (create_subscription now user dep arr date train seat berth (db w)))
              (mk_world
                 (snd (create_subscription now user dep arr date train seat berth
                                           (db w)))
                 (sent w) (trace w))) as [Hu' [Hc Hs]].
  - cbn [db]. congruence.
  - split; [exact Hu'|]. split; [exact Hc | exact Hs].
Qed.

Lemma safe_create_subscription svc env u seat_type berth_position :
  safe (Bot._create_subscription svc env u seat_type berth_position).
Proof.
  intros st.
  remember (Bot._create_subscription svc env u seat_type berth_position st)
    as out eqn:E.
  unfold Bot._create_subscription in E. cbv zeta in E.
  unfold Bot.bbind at 1 in E. unfold Bot.get_user_state at 1 in E.
  cbv beta iota in E.
  set (user_id := Bot.tu_id (Bot.effective_user u)) in E.
  set (user_data := match Bot.states_get user_id (Bot.user_states st) with
                    | Some s => Bot.us_data s
                    | None => Bot.empty_data
                    end) in E.
  assert (Hdate : no_date (Bot.user_states st) ->
                  Bot.ud_departure_date user_data = None).
  { intros Hn. unfold user_data.
    destruct (Bot.states_get user_id (Bot.user_states st)) as [s|] eqn:G;
      [now apply (Hn user_id) | reflexivity]. }
  assert (Hedit : forall text,
             (no_date (Bot.user_states st) ->
              no_date (Bot.user_states
                         (snd (Bot.call_edit_message_text env u text [] st)))
              /\ nothing_subscribed (Bot.world st)
                   (Bot.world (snd (Bot.call_edit_message_text env u text [] st))))
             /\ quiet (Bot.world st)
                  (Bot.world (snd (Bot.call_edit_message_text env u text [] st))))
    by (intros text; apply safe_call_edit_message_text).
  destruct (Bot.ud_departure_station user_data) as [departure_station|];
    [|rewrite E; apply Hedit].
  destruct (Bot.ud_arrival_station user_data) as [arrival_station|];
    [|rewrite E; apply Hedit].
  destruct (Bot.ud_departure_date user_data) as [departure_date|];
    [|rewrite E; apply Hedit].
  destruct (Bot.ud_selected_train user_data) as [train_info|];
    [|rewrite E; apply Hedit].
  destruct (_ || _); [rewrite E; apply Hedit|].
  split; [intros Hn; specialize (Hdate Hn); discriminate Hdate|].
  unfold Bot.bbind, Bot.db_write, Bot.in_world in E. cbv beta iota in E.
  pose proof (create_start_quiet svc (Bot.monitor_env env)
                (current_timestamp (Bot.monitor_env env)) user_id departure_station
                arrival_station departure_date (RZDParser.number train_info)
                seat_type berth_position (Bot.world st)) as Q.
  destruct (create_subscription _ _ _ _ _ _ _ _ _) as [id d1].
  cbn [Bot.world Bot.user_states Bot.outbox fst snd] in E, Q.
  destruct (start_monitoring svc (Bot.monitor_env env) id _) as [[[]|e] w1];
    cbn [snd] in Q; [|rewrite E; exact Q].
  unfold Bot.call_edit_message_text, Bot.send in E.
  destruct (Bot.edit_message_text env u _ []); rewrite E; exact Q.
Qed.

Lemma safe_handle_train_selection env u data :
  safe (Bot._handle_train_selection env u data).
Proof. unfold Bot._handle_train_selection. cbv zeta. repeat safe_step. Qed.

Lemma safe_handle_seat_selection svc env u data :
  safe (Bot._handle_seat_selection svc env u data).
Proof.
  unfold Bot._handle_seat_selection. cbv zeta.
  repeat first [apply safe_create_subscription | safe_step].
Qed.

Lemma safe_handle_berth_selection svc env u data :
  safe (Bot._handle_berth_selection svc env u data).
Proof.
  unfold Bot._handle_berth_selection. cbv zeta.
  repeat first [apply safe_create_subscription | safe_step].
Qed.

Lemma safe_button_callback svc env u data : safe (Bot.button_callback svc env u data).
Proof.
  unfold Bot.button_callback.
  repeat first
    [ apply safe_start_command | apply safe_help_command
    | apply safe_my_subscriptions_command | apply safe_handle_train_selection
    | apply safe_handle_seat_selection | apply safe_handle_berth_selection
    | safe_step ].
Qed.

Lemma safe_handle_message env u text : safe (Bot.handle_message env u text).
Proof.
  unfold Bot.handle_message. cbv zeta.
  repeat first
    [ apply safe_handle_departure_station | apply safe_handle_arrival_station
    | apply safe_handle_date_selection | safe_step ].
Qed.

Lemma safe_handler svc env u : safe (Bot.handler svc env u).
Proof.
  destruct u; cbn [Bot.handler];
    [ apply safe_start_command | apply safe_help_command
    | apply safe_my_subscriptions_command | apply safe_stats_command
    | apply safe_handle_message | apply safe_button_callback ].
Qed.

Lemma perform_safe svc st a :
  (no_date (Bot.user_states st) ->
   no_date (Bot.user_states (Bot.perform svc st a))
   /\ nothing_subscribed (Bot.world st) (Bot.world (Bot.perform svc st a)))
  /\ quiet (Bot.world st) (Bot.world (Bot.perform svc st a)).
Proof.
  destruct a as [env u|env]; cbn [Bot.perform].
  - apply safe_handler.
  - cbn [Bot.user_states Bot.world]. split.
    + intros Hn. split; [exact Hn | apply cycle_nothing_subscribed].
    + apply cycle_quiet.
Qed.

Lemma run_bot_safe svc actions :
  forall st,
    (no_date (Bot.user_states st) ->
     no_date (Bot.user_states (Bot.run_bot svc actions st))
     /\ nothing_subscribed (Bot.world st) (Bot.world (Bot.run_bot svc actions st)))
    /\ quiet (Bot.world st) (Bot.world (Bot.run_bot svc actions st)).
Proof.
  unfold Bot.run_bot. induction actions as [|a actions IH]; intros st; cbn [fold_left].
  - split; [intros Hn; split; [exact Hn | apply nothing_subscribed_refl]
           | apply quiet_refl].
  - destruct (perform_safe svc st a) as [H1 Q1].
    destruct (IH (Bot.perform svc st a)) as [H2 Q2]. split.
    + intros Hn. destruct (H1 Hn) as [Hn1 S1]. destruct (H2 Hn1) as [Hn2 S2].
      split; [exact Hn2 | eapply nothing_subscribed_trans; eassumption].
    + eapply quiet_trans; eassumption.
Qed.

Lemma handle_date_selection_keeps (env : Bot.BotEnv) (u : Bot.update) (text : string)
      (st : Bot.BotState) :
  Bot.user_states (snd (Bot._handle_date_selection env u text st)) = Bot.user_states st
  /\ Bot.world (snd (Bot._handle_date_selection env u text st)) = Bot.world st.
Proof.
  unfold Bot._handle_date_selection, Bot.btry_value_error, Bot.bbind, Bot.blift,
    Bot.datetime_lt_date, Bot.call_reply_text, Bot.send.
  cbv zeta.
  destruct (Bot.strptime_format env text _) as [parsed|[m|m|m]];
    [destruct (Bot.strptime_format env (Bot.strftime_ymd env parsed) _)
       as [departure|[m|m|m]]|..];
    try destruct (Bot.reply_text env u _ []); split; reflexivity.
Qed.

(** [_handle_date_selection] never accepts a date: whatever the text, it
    stores nothing and changes neither the conversations nor the store; a
    text that reads as a date makes the comparison of a [datetime] with a
    [date] raise [TypeError], which the handler does not catch, so the
    user gets no reply either. *)
Theorem date_step_never_accepts (env : Bot.BotEnv) (u : Bot.update) (text : string)
        (st : Bot.BotState) :
  let r := Bot._handle_date_selection env u text st in
  Bot.user_states (snd r) = Bot.user_states st
  /\ Bot.world (snd r) = Bot.world st
  /\ forall parsed departure,
       Bot.strptime_format env text "%d.%m.%Y" = Ok parsed ->
       Bot.strptime_format env (Bot.strftime_ymd env parsed) "%Y-%m-%d" = Ok departure ->
       r = (Raise (Exception "can't compare datetime.datetime to datetime.date"), st).
Proof.
  cbv zeta. unfold Bot._handle_date_selection, Bot.btry_value_error, Bot.bbind,
    Bot.blift, Bot.datetime_lt_date, Bot.call_reply_text, Bot.send.
  destruct (Bot.strptime_format env text "%d.%m.%Y") as [parsed|e1].
  - destruct (Bot.strptime_format env (Bot.strftime_ymd env parsed) "%Y-%m-%d")
      as [departure|e2] eqn:E2.
    + split; [reflexivity|]. split; [reflexivity|]. reflexivity.
    + destruct e2 as [m|m|m];
        try destruct (Bot.reply_text env u _ []);
        cbn [snd Bot.user_states Bot.world];
        (split; [reflexivity|]; split; [reflexivity|]);
        intros p q H1 H2; injection H1 as <-; congruence.
  - destruct e1 as [m|m|m];
      try destruct (Bot.reply_text env u _ []);
      cbn [snd Bot.user_states Bot.world];
      (split; [reflexivity|]; split; [reflexivity|]);
      intros p q H1 H2; discriminate H1.
Qed.

(** No run of the bot inserts a subscription: whatever updates arrive
    and whatever cycles run in between, no user gets a departure date
    into the data of the conversation, so [_create_subscription] never
    reaches [create_subscription]; the sequence of [subscriptions] stays
    where it was, every subscription in the store was there at the start,
    and [users] is unchanged. *)
Theorem conversation_never_subscribes (svc : MonitoringService)
        (actions : list Bot.action) (d : Database) :
  let st := Bot.run_bot svc actions (Bot.init_bot d) in
  no_date (Bot.user_states st)
  /\ users (db (Bot.world st)) = users d
  /\ subscriptions_seq (db (Bot.world st)) = subscriptions_seq d
  /\ incl (map untimed (subscriptions (db (Bot.world st))))
          (map untimed (subscriptions d)).
Proof.
  cbv zeta. destruct (run_bot_safe svc actions (Bot.init_bot d)) as [H _].
  destruct (H no_date_nil) as [Hn [Hu [Hq Hi]]]. 
  split; [exact Hn|]. split; [exact Hu|]. split; [exact Hq | exact Hi].
Qed.

(** No handler calls [add_user]: if [users] is empty it stays empty
    through every run of the bot, the source is never asked and no
    notification is delivered. *)
Theorem nothing_monitored_without_users (svc : MonitoringService)
        (actions : list Bot.action) (st : Bot.BotState) :
  users (db (Bot.world st)) = [] ->
  let st' := Bot.run_bot svc actions st in
  users (db (Bot.world st')) = []
  /\ count_events is_any_probe (trace (Bot.world st'))
     = count_events is_any_probe (trace (Bot.world st))
  /\ sent (Bot.world st') = sent (Bot.world st).
Proof.
  intros Hu. cbv zeta. destruct (run_bot_safe svc actions st) as [_ Q].
  destruct (Q Hu) as [Hu' [Hc Hs]]. repeat split; assumption.
Qed.

Local Open Scope string_scope.

Lemma is_decimal_plain (c : ascii) :
  is_decimal c = true ->
  Bot.is_blank c = false /\ Ascii.eqb c "+" = false /\ Ascii.eqb c "_" = false.
Proof.
  destruct c as [[] [] [] [] [] [] [] []]; vm_compute; intros H;
    repeat split; congruence.
Qed.

Lemma string_of_uint_decimal (d : Decimal.uint) :
  all_chars is_decimal (NilEmpty.string_of_uint d) = true.
Proof. induction d; cbn [NilEmpty.string_of_uint all_chars]; try exact IHd; reflexivity. Qed.

Lemma str_of_int_decimal (z : Z) : all_chars is_decimal (RZDParser.str_of_int z) = true.
Proof.
  unfold RZDParser.str_of_int, NilZero.string_of_int, NilZero.string_of_uint.
  destruct z as [|p|p]; cbn [Z.to_int]; [reflexivity| |].
  - destruct (Pos.to_uint p) eqn:E; try (rewrite <- E; apply string_of_uint_decimal).
    reflexivity.
  - cbn [all_chars]. 
    destruct (Pos.to_uint p) eqn:E; try (rewrite <- E; apply string_of_uint_decimal).
    reflexivity.
Qed.

Lemma lstrip_plain (s : string) : all_chars is_decimal s = true -> Bot.lstrip s = s.
Proof.
  destruct s as [|c s]; [reflexivity|]. cbn [all_chars Bot.lstrip].
  intros H. apply andb_true_iff in H. destruct H as [Hc _].
  destruct (is_decimal_plain c Hc) as [-> _]. reflexivity.
Qed.

Lemma rstrip_plain (s : string) : all_chars is_decimal s = true -> Bot.rstrip s = s.
Proof.
  induction s as [|c s IH]; [reflexivity|]. cbn [all_chars Bot.rstrip].
  intros H. apply andb_true_iff in H. destruct H as [Hc Hs].
  rewrite (IH Hs). destruct (is_decimal_plain c Hc) as [-> _].
  destruct s; reflexivity.
Qed.

Lemma split_on_plain (s : string) :
  all_chars is_decimal s = true -> Bot.split_on "_" s = [s].
Proof.
  induction s as [|c s IH]; [reflexivity|]. cbn [all_chars Bot.split_on].
  intros H. apply andb_true_iff in H. destruct H as [Hc Hs].
  destruct (is_decimal_plain c Hc) as [_ [_ ->]]. now rewrite (IH Hs).
Qed.

(** [int(str(z))] is [z]. *)
Lemma py_int_str_of_int (z : Z) : Bot.py_int (RZDParser.str_of_int z) = Ok z.
Proof.
  unfold Bot.py_int. cbv zeta.
  pose proof (str_of_int_decimal z) as D.
  rewrite (lstrip_plain _ D), (rstrip_plain _ D).
  assert (P : RZDParser.str_of_int z <> "" /\
              NilZero.int_of_string (RZDParser.str_of_int z) = Some (Z.to_int z)).
  { unfold RZDParser.str_of_int. split.
    - destruct z as [|p|p]; cbn [Z.to_int NilZero.string_of_int];
        try discriminate.
      unfold NilZero.string_of_uint. pose proof (DecimalPos.Unsigned.to_uint_nonnil p) as N.
      destruct (Pos.to_uint p); discriminate.
    - apply NilZero.isi; destruct z as [|p|p]; cbn [Z.to_int]; try discriminate;
        intros [= H]; now apply (DecimalPos.Unsigned.to_uint_nonnil p). }
  destruct P as [Hne Hint].
  destruct (RZDParser.str_of_int z) as [|c rest] eqn:E; [congruence|].
  cbn [all_chars] in D. apply andb_true_iff in D. destruct D as [Hc _].
  destruct (is_decimal_plain c Hc) as [_ [-> _]].
  rewrite Hint, DecimalZ.of_to. reflexivity.
Qed.

(** The delete button: [my_subscriptions_command] shows, for each active
    subscription of the user, a button whose callback data
    [button_callback] reads back as the identifier of that subscription;
    pressing it deletes exactly that subscription, whoever presses, and
    leaves the conversations alone. *)
Theorem delete_button_deletes (svc : MonitoringService) (env env' : Bot.BotEnv)
        (u : Bot.update) (presser : Bot.tg_user) (st : Bot.BotState)
        (r : subscription_row) :
  In r (get_user_subscriptions (Bot.tu_id (Bot.effective_user u))
                               (db (Bot.world st))) ->
  (forall text keyboard, Bot.reply_text env u text keyboard = Ok tt) ->
  let st1 := snd (Bot.my_subscriptions_command env u st) in
  let data := "delete_sub_" ++ RZDParser.str_of_int (sub_id r) in
  let press := Bot.CallbackQuery presser data in
  Bot.answer env' press = Ok tt ->
  (exists text keyboard,
     Bot.outbox st1
     = (Bot.outbox st
        ++ [Bot.mk_reply (Bot.tu_id (Bot.effective_user u)) false text keyboard])%list
     /\ In [Bot.mk_button ("❌ Удалить " ++ train_number r) data] keyboard)
  /\ Bot.world st1 = Bot.world st
  /\ db (Bot.world (snd (Bot.handler svc env' press st1)))
     = snd (delete_subscription (sub_id r) (db (Bot.world st)))
  /\ Bot.user_states (snd (Bot.handler svc env' press st1)) = Bot.user_states st.
Proof.
  intros Hr Hreply st1 data press Hanswer.
  assert (E1 : exists text keyboard,
             st1 = Bot.mk_bot (Bot.user_states st) (Bot.world st)
                     (Bot.outbox st
                      ++ [Bot.mk_reply (Bot.tu_id (Bot.effective_user u)) false
                                       text keyboard])%list
             /\ In [Bot.mk_button ("❌ Удалить " ++ train_number r) data] keyboard).
  { unfold st1, Bot.my_subscriptions_command, Bot.bbind, Bot.db_read. cbv zeta beta iota.
    destruct (get_user_subscriptions _ _) as [|s subs] eqn:L; [destruct Hr|].
    unfold Bot.call_reply_text, Bot.send. rewrite Hreply. cbn [snd].
    eexists. eexists. split; [reflexivity|].
    apply in_or_app. left. apply in_map_iff. exists r. split; [reflexivity | exact Hr]. }
  destruct E1 as [text [keyboard [E1 Hin]]].
  split; [exists text, keyboard; split; [now rewrite E1 | exact Hin]|].
  split; [now rewrite E1|].
  assert (E2 : Bot.handler svc env' press st1
               = Bot.bbind (Bot.db_write (delete_subscription (sub_id r)))
                   (fun _ => Bot.call_edit_message_text env' press
                               "✅ Подписка удалена" []) st1).
  { cbn [Bot.handler press]. unfold Bot.button_callback.
    unfold Bot.bbind at 1. unfold Bot.blift at 1. fold press. rewrite Hanswer.
    unfold data.
    change (String.eqb ("delete_sub_" ++ RZDParser.str_of_int (sub_id r))
                       "back_to_start") with false.
    change (String.eqb ("delete_sub_" ++ RZDParser.str_of_int (sub_id r)) "help")
      with false.
    change (String.eqb ("delete_sub_" ++ RZDParser.str_of_int (sub_id r))
                       "my_subscriptions") with false.
    change (prefix_of "delete_sub_" ("delete_sub_" ++ RZDParser.str_of_int (sub_id r)))
      with true.
    cbv iota.
    assert (S : Bot.split_on "_" ("delete_sub_" ++ RZDParser.str_of_int (sub_id r))
                = ["delete"; "sub"; RZDParser.str_of_int (sub_id r)]).
    { cbn [append Bot.split_on Ascii.eqb Bool.eqb].
      rewrite (split_on_plain _ (str_of_int_decimal (sub_id r))). reflexivity. }
    rewrite S. cbn [nth_error].
    unfold Bot.bbind at 1. unfold Bot.blift at 1.
    rewrite py_int_str_of_int. reflexivity. }
  rewrite E2, E1. unfold Bot.bbind, Bot.db_write, Bot.call_edit_message_text, Bot.send.
  cbn [Bot.world Bot.user_states Bot.outbox db delete_subscription].
  destruct (Bot.edit_message_text env' press _ []); split; reflexivity.
Qed.

Lemma start_command_step env u st :
  (forall text keyboard, Bot.reply_text env u text keyboard = Ok tt) ->
  Bot.states_get (Bot.tu_id (Bot.effective_user u))
                 (Bot.user_states (snd (Bot.start_command env u st)))
  = Some (Bot.mk_user_state "waiting_departure" Bot.empty_data)
  /\ Bot.world (snd (Bot.start_command env u st)) = Bot.world st.
Proof.
  intros Hreply.
  unfold Bot.start_command, Bot.bbind, Bot.call_reply_text, Bot.send,
    Bot.set_user_state. cbv zeta. rewrite Hreply. cbn [snd Bot.user_states Bot.world].
  rewrite states_get_set, Z.eqb_refl. split; reflexivity.
Qed.

Lemma departure_step env user text st data :
  (forall reply keyboard,
     Bot.reply_text env (Bot.TextMessage user text) reply keyboard = Ok tt) ->
  Bot.states_get (Bot.tu_id user) (Bot.user_states st)
  = Some (Bot.mk_user_state "waiting_departure" data) ->
  let st' := snd (Bot.handle_message env (Bot.TextMessage user text) text st) in
  Bot.states_get (Bot.tu_id user) (Bot.user_states st')
  = Some (Bot.mk_user_state "waiting_arrival"
            (Bot.mk_user_data (Some (Bot.str_strip env text))
                              (Bot.ud_arrival_station data) (Bot.ud_departure_date data)
                              (Bot.ud_selected_train data) (Bot.ud_seat_type data)))
  /\ Bot.world st' = Bot.world st.
Proof.
  intros Hreply G st'. subst st'.
  remember (Bot.handle_message env (Bot.TextMessage user text) text st) as out eqn:E.
  unfold Bot.handle_message in E. cbv zeta in E.
  unfold Bot.bbind at 1 in E. unfold Bot.get_user_state at 1 in E.
  cbn [Bot.effective_user] in E. rewrite G in E.
  cbn [Bot.us_state String.eqb Ascii.eqb Bool.eqb] in E.
  unfold Bot._handle_departure_station in E. cbv zeta in E.
  cbn [Bot.effective_user] in E.
  unfold Bot.bbind at 1 in E. unfold Bot.state_of at 1 in E. rewrite G in E.
  unfold Bot.bbind at 1 in E. unfold Bot.update_user_state at 1 in E. rewrite G in E.
  unfold Bot.bbind at 1 in E. unfold Bot.update_user_state at 1 in E.
  cbn [Bot.user_states] in E. rewrite states_get_set, Z.eqb_refl in E.
  unfold Bot.call_reply_text, Bot.send in E. rewrite Hreply in E.
  rewrite E. cbn [snd Bot.user_states Bot.world].
  rewrite states_get_set, Z.eqb_refl. split; reflexivity.
Qed.

Lemma arrival_step env user text st data :
  (forall reply keyboard,
     Bot.reply_text env (Bot.TextMessage user text) reply keyboard = Ok tt) ->
  Bot.states_get (Bot.tu_id user) (Bot.user_states st)
  = Some (Bot.mk_user_state "waiting_arrival" data) ->
  Bot.ud_departure_station data <> None ->
  let st' := snd (Bot.handle_message env (Bot.TextMessage user text) text st) in
  Bot.states_get (Bot.tu_id user) (Bot.user_states st')
  = Some (Bot.mk_user_state "waiting_date"
            (Bot.mk_user_data (Bot.ud_departure_station data)
                              (Some (Bot.str_strip env text)) (Bot.ud_departure_date data)
                              (Bot.ud_selected_train data) (Bot.ud_seat_type data)))
  /\ Bot.world st' = Bot.world st.
Proof.
  intros Hreply G Hdep st'. subst st'.
  remember (Bot.handle_message env (Bot.TextMessage user text) text st) as out eqn:E.
  unfold Bot.handle_message in E. cbv zeta in E.
  unfold Bot.bbind at 1 in E. unfold Bot.get_user_state at 1 in E.
  cbn [Bot.effective_user] in E. rewrite G in E.
  cbn [Bot.us_state String.eqb Ascii.eqb Bool.eqb] in E.
  unfold Bot._handle_arrival_station in E. cbv zeta in E.
  cbn [Bot.effective_user] in E.
  unfold Bot.bbind at 1 in E. unfold Bot.state_of at 1 in E. rewrite G in E.
  unfold Bot.bbind at 1 in E. unfold Bot.update_user_state at 1 in E. rewrite G in E.
  unfold Bot.bbind at 1 in E. unfold Bot.update_user_state at 1 in E.
  cbn [Bot.user_states] in E. rewrite states_get_set, Z.eqb_refl in E.
  unfold Bot.bbind at 1 in E. unfold Bot.state_of at 1 in E.
  cbn [Bot.user_states] in E. rewrite states_get_set, Z.eqb_refl in E.
  unfold Bot.bbind at 1 in E. unfold Bot.blift at 1 in E.
  cbn [Bot.us_data Bot.set_state Bot.set_data Bot.ud_departure_station] in E.
  destruct (Bot.ud_departure_station data) as [dep|] eqn:D; [|congruence].
  cbn [Bot.entry] in E.
  unfold Bot.call_reply_text, Bot.send in E. rewrite Hreply in E.
  rewrite E. cbn [snd Bot.user_states Bot.world].
  rewrite states_get_set, Z.eqb_refl.
  unfold Bot.set_state, Bot.set_data. cbn [Bot.us_data Bot.us_state]. rewrite D.
  split; reflexivity.
Qed.

Lemma date_step_stays svc env user text st data :
  Bot.states_get (Bot.tu_id user) (Bot.user_states st)
  = Some (Bot.mk_user_state "waiting_date" data) ->
  let st' := Bot.perform svc st (Bot.Update env (Bot.TextMessage user text)) in
  Bot.user_states st' = Bot.user_states st /\ Bot.world st' = Bot.world st.
Proof.
  intros G st'. subst st'. cbn [Bot.perform Bot.handler].
  remember (Bot.handle_message env (Bot.TextMessage user text) text st) as out eqn:E.
  unfold Bot.handle_message in E. cbv zeta in E.
  unfold Bot.bbind at 1 in E. unfold Bot.get_user_state at 1 in E.
  cbn [Bot.effective_user] in E. rewrite G in E.
  cbn [Bot.us_state String.eqb Ascii.eqb Bool.eqb] in E.
  destruct (handle_date_selection_keeps env (Bot.TextMessage user text)
              (Bot.str_strip env text) st) as [A B].
  rewrite E. split; assumption.
Qed.

(** The conversation reaches the date step and stays there: after /start
    and the two station names the user is asked for a date, with the
    stripped names stored; from then on no text of the user changes the
    state of the conversations or the store. *)
Theorem conversation_stops_at_date_step (svc : MonitoringService) (env : Bot.BotEnv)
        (user : Bot.tg_user) (departure arrival : string)
        (later : list (Bot.BotEnv * string)) (st : Bot.BotState) :
  (forall u text keyboard, Bot.reply_text env u text keyboard = Ok tt) ->
  let at_date_step :=
    Bot.mk_user_state "waiting_date"
      (Bot.mk_user_data (Some (Bot.str_strip env departure))
                        (Some (Bot.str_strip env arrival)) None None None) in
  let st3 :=
    Bot.run_bot svc [Bot.Update env (Bot.CmdStart user);
                     Bot.Update env (Bot.TextMessage user departure);
                     Bot.Update env (Bot.TextMessage user arrival)] st in
  let st4 :=
    Bot.run_bot svc
      (map (fun et => Bot.Update (fst et) (Bot.TextMessage user (snd et))) later)
      st3 in
  Bot.states_get (Bot.tu_id user) (Bot.user_states st3) = Some at_date_step
  /\ Bot.world st3 = Bot.world st
  /\ Bot.user_states st4 = Bot.user_states st3
  /\ Bot.world st4 = Bot.world st.
Proof.
  intros Hreply at_date_step st3 st4.
  assert (G : Bot.states_get (Bot.tu_id user) (Bot.user_states st3) = Some at_date_step
              /\ Bot.world st3 = Bot.world st).
  { unfold st3, Bot.run_bot. cbn [fold_left Bot.perform Bot.handler].
    destruct (start_command_step env (Bot.CmdStart user) st (Hreply _)) as [G1 W1].
    cbn [Bot.effective_user] in G1.
    destruct (departure_step env user departure _ _ (Hreply _) G1) as [G2 W2].
    cbn [Bot.ud_arrival_station Bot.ud_departure_date Bot.ud_selected_train
         Bot.ud_seat_type Bot.empty_data] in G2.
    destruct (arrival_step env user arrival _ _ (Hreply _) G2) as [G3 W3];
      [discriminate|].
    split; [exact G3 | congruence]. }
  destruct G as [G W]. split; [exact G|]. split; [exact W|].
  unfold st4. rewrite <- W. clear W st4. revert G. generalize st3. clear st3.
  induction later as [|[env' text] later IH]; intros st3 G; [split; reflexivity|].
  cbn [map fst snd]. unfold Bot.run_bot in *. cbn [fold_left].
  destruct (date_step_stays svc env' user text st3 _ G) as [Su Sw].
  destruct (IH (Bot.perform svc st3 (Bot.Update env' (Bot.TextMessage user text))))
    as [IHu IHw]; [now rewrite Su|].
  split; congruence.
Qed.

(** ** The train buttons *)

Lemma remove_from_absent (old s : string) :
  str_in old s = false -> Bot.remove_from old 0 s = s.
Proof.
  induction s as [|c s IH]; [reflexivity|].
  cbn [str_in]. intros H. apply orb_false_iff in H. destruct H as [Hp Hs].
  cbn [Bot.remove_from]. rewrite Hp, (IH Hs). reflexivity.
Qed.

Lemma str_in_char_cons (sep c : ascii) (s : string) :
  str_in (String sep "") (String c s) = false ->
  Ascii.eqb c sep = false /\ str_in (String sep "") s = false.
Proof.
  cbn [str_in prefix_of]. intros H. apply orb_false_iff in H. destruct H as [Hp Hs].
  split; [|exact Hs]. rewrite Ascii.eqb_sym. destruct (Ascii.eqb sep c); [|reflexivity].
  destruct s; discriminate Hp.
Qed.

Lemma split_on_absent (sep : ascii) (s : string) :
  str_in (String sep "") s = false -> Bot.split_on sep s = [s].
Proof.
  induction s as [|c s IH]; [reflexivity|]. intros H.
  apply str_in_char_cons in H. destruct H as [Hc Hs].
  cbn [Bot.split_on]. now rewrite Hc, (IH Hs).
Qed.

Lemma split_on_app (sep : ascii) (a b : string) :
  str_in (String sep "") a = false ->
  Bot.split_on sep (a ++ String sep b) = a :: Bot.split_on sep b.
Proof.
  induction a as [|c a IH]; intros H.
  - cbn [append Bot.split_on]. now rewrite Ascii.eqb_refl.
  - apply str_in_char_cons in H. destruct H as [Hc Hs].
    cbn [append Bot.split_on]. now rewrite Hc, (IH Hs).
Qed.

(** The callback data of a train button decodes to the train it was made
    from: if no field of the train contains the separator and the prefix
    does not occur in the encoded fields, [_handle_train_selection]
    stores the train of the button in the data of the user. *)
Theorem train_button_round_trip (env : Bot.BotEnv) (u : Bot.update)
        (train : RZDParser.train) (s : Bot.user_state) (st : Bot.BotState) :
  Bot.states_get (Bot.tu_id (Bot.effective_user u)) (Bot.user_states st) = Some s ->
  str_in "|" (RZDParser.number train) = false ->
  str_in "|" (RZDParser.departure_time train) = false ->
  str_in "|" (RZDParser.arrival_time train) = false ->
  str_in "|" (RZDParser.duration train) = false ->
  str_in "select_train_"
         (RZDParser.number train ++ "|" ++ RZDParser.departure_time train
          ++ "|" ++ RZDParser.arrival_time train ++ "|" ++ RZDParser.duration train)
  = false ->
  let data :=
    "select_train_" ++ RZDParser.number train
    ++ "|" ++ RZDParser.departure_time train
    ++ "|" ++ RZDParser.arrival_time train ++ "|" ++ RZDParser.duration train in
  let st' := snd (Bot._handle_train_selection env u data st) in
  map Bot.callback_data (Bot.train_button train) = [data]
  /\ Bot.states_get (Bot.tu_id (Bot.effective_user u)) (Bot.user_states st')
     = Some (Bot.mk_user_state (Bot.us_state s)
               (Bot.mk_user_data (Bot.ud_departure_station (Bot.us_data s))
                                 (Bot.ud_arrival_station (Bot.us_data s))
                                 (Bot.ud_departure_date (Bot.us_data s))
                                 (Some train)
                                 (Bot.ud_seat_type (Bot.us_data s))))
  /\ Bot.world st' = Bot.world st.
Proof.
  intros G Hn Hd Ha Hu Hsel data st'. split; [reflexivity|]. subst st'.
  remember (Bot._handle_train_selection env u data st) as out eqn:E.
  unfold Bot._handle_train_selection in E. cbv zeta in E.
  assert (R : Bot.remove_all "select_train_" data
              = RZDParser.number train ++ "|" ++ RZDParser.departure_time train
                ++ "|" ++ RZDParser.arrival_time train
                ++ "|" ++ RZDParser.duration train).
  { unfold data, Bot.remove_all.
    cbn [append Bot.remove_from prefix_of Ascii.eqb Bool.eqb andb String.length
         Nat.sub].
    now apply remove_from_absent. }
  rewrite R in E.
  assert (S : Bot.split_on "|"
                (RZDParser.number train ++ "|" ++ RZDParser.departure_time train
                 ++ "|" ++ RZDParser.arrival_time train
                 ++ "|" ++ RZDParser.duration train)
              = [RZDParser.number train; RZDParser.departure_time train;
                 RZDParser.arrival_time train; RZDParser.duration train]).
  { cbn [append].
    rewrite (split_on_app "|" _ _ Hn), (split_on_app "|" _ _ Hd),
      (split_on_app "|" _ _ Ha), (split_on_absent "|" _ Hu). reflexivity. }
  rewrite S in E.
  unfold Bot.bbind at 1 in E. unfold Bot.get_user_state at 1 in E. rewrite G in E.
  unfold Bot.bbind at 1 in E. unfold Bot.blift at 1 in E. cbn [Bot.data_of] in E.
  unfold Bot.bbind at 1 in E. unfold Bot.update_user_state at 1 in E. rewrite G in E.
  unfold Bot.call_edit_message_text, Bot.send in E.
  destruct train as [n d a du]. cbn [RZDParser.number RZDParser.departure_time
    RZDParser.arrival_time RZDParser.duration] in *.
  destruct (Bot.edit_message_text env u _ _); rewrite E;
    cbn [snd Bot.user_states Bot.world]; rewrite states_get_set, Z.eqb_refl;
    split; reflexivity.
Qed.

(* ================================================================== *)
(** * The store, the pages and the conversation on the examples *)
(* ================================================================== *)

Lemma add_user_registers_once_witness :
  sqlite_integer 42
  /\ add_user 1747000000 42 (Some "ivan") (Some "Иван") None empty_db
     = (true, registered_db)
  /\ add_user 1747000500 42 (Some "vanya") None None registered_db
     = (false, registered_db).
Proof.
  assert (Hid : sqlite_integer 42) by (unfold sqlite_integer; lia).
  destruct (add_user_registers_once 1747000000 1747000500 42
              (Some "ivan") (Some "Иван") None (Some "vanya") None None empty_db Hid)
    as [Hfirst [_ [Hsecond _]]].
  split; [exact Hid|]. split; [|exact Hsecond].
  apply injective_projections; [exact Hfirst | reflexivity].
Defined.

Lemma deleted_id_never_reused_witness :
  map sub_id
      (subscriptions
         (apply_ops later_writes (snd (delete_subscription 2 two_subscriptions_db))))
  = [1; 3; 4]
  /\ ~ In 2 (map sub_id
               (subscriptions
                  (apply_ops later_writes
                             (snd (delete_subscription 2 two_subscriptions_db))))).
Proof.
  split; [reflexivity|].
  apply (deleted_id_never_reused two_subscriptions_db 2 later_writes).
  - intros r [<-|[<-|[]]]; cbn; lia.
  - right. left. reflexivity.
Defined.

Lemma removed_subscription_not_monitored_witness :
  exists w',
    _check_all_subscriptions example_service (example_env (always false) delivers)
      (mk_world (snd (deactivate_subscription 2 two_subscriptions_db)) [] [])
    = (Ok tt, w')
    /\ count_events (is_probe 1) (trace w') = 1%nat
    /\ ~ In (EvCheckSeatAvailability 2) (trace w').
Proof.
  destruct (removed_subscription_not_monitored example_service
              (example_env (always false) delivers) two_subscriptions_world 2
              (snd (deactivate_subscription 2 two_subscriptions_db))
              two_subscriptions_keys (or_introl eq_refl))
    as [_ [w' [Hrun [Hnone Hone]]]].
  exists w'. split; [exact Hrun|]. split.
  - apply (Hone example_subscription); [right; left; reflexivity | discriminate].
  - intros H. apply (Hnone _ H). reflexivity.
Defined.

Lemma cleanup_old_data_absorbs_witness :
  cleanup_old_data 1748095200 "2025-05-24" 30
    (snd (cleanup_old_data 1748008800 "2025-05-23" 30 past_db))
  = cleanup_old_data 1748095200 "2025-05-24" 30 past_db.
Proof.
  apply cleanup_old_data_absorbs; [lia | lia | reflexivity].
Defined.

Lemma mixed_keys : keys_unique mixed_db.
Proof. solve_keys. Qed.

Lemma own_listing_is_monitored_witness :
  Permutation
    (map row (filter (fun s => (user_id (row s) =? 42)%Z)
                     (get_active_subscriptions mixed_db)))
    (get_user_subscriptions 42 mixed_db)
  /\ map sub_id (get_user_subscriptions 7 mixed_db) = [2]
  /\ filter (fun s => (user_id (row s) =? 7)%Z) (get_active_subscriptions mixed_db) = [].
Proof.
  split; [|split; [reflexivity|]].
  - apply (own_listing_is_monitored 42 mixed_db mixed_keys). reflexivity.
  - apply (own_listing_is_monitored 7 mixed_db mixed_keys). reflexivity.
Defined.


Lemma notifications_match_deliveries_witness :
  delivered_and_recorded example_service (example_env (always true) delivers)
    two_subscriptions_world
    (snd (check_all_interleaved example_service (example_env (always true) delivers)
            late_record two_subscriptions_world))
  /\ map sub_id (map row (get_active_subscriptions two_subscriptions_db)) = [2; 1]
  /\ sent (snd (check_all_interleaved example_service
                  (example_env (always true) delivers) late_record
                  two_subscriptions_world))
     = (deliveries example_service (example_env (always true) delivers)
                   example_subscription
        ++ deliveries example_service (example_env (always true) delivers)
                      second_subscription)%list
  /\ map n_subscription_id
         (notifications
            (db (snd (check_all_interleaved example_service
                        (example_env (always true) delivers) late_record
                        two_subscriptions_world))))
     = [2; 1].
Proof.
  destruct (notifications_match_deliveries example_service
              (example_env (always true) delivers) two_subscriptions_world
              two_subscriptions_keys)
    as [_ Hall].
  split; [|repeat split].
  apply Hall. intros i Hi. destruct i as [|[|i]]; cbn in *; lia.
Defined.

Lemma cycle_sets_last_checked_witness :
  exists w',
    _check_all_subscriptions example_service (example_env (fails_for "016А") delivers)
                             two_subscriptions_world
    = (Ok tt, w')
    /\ map (fun r => (sub_id r, last_checked r)) (subscriptions (db w'))
       = [(1, Some 1748008800); (2, None)].
Proof.
  destruct (cycle_sets_last_checked example_service
              (example_env (fails_for "016А") delivers) two_subscriptions_world
              two_subscriptions_keys)
    as [w' [Hrun [_ Hs]]].
  exists w'. split; [exact Hrun|]. rewrite Hs. reflexivity.
Defined.

Lemma monitoring_keeps_subscriptions_witness :
  exists w',
    run_cycles example_service five_cycles example_world = (Ok tt, w')
    /\ map untimed_s (get_active_subscriptions (db w')) = [example_subscription].
Proof.
  destruct (monitoring_keeps_subscriptions example_service five_cycles example_world
              example_keys)
    as [w' [Hrun [_ Hl]]].
  exists w'. split; [exact Hrun|]. rewrite Hl. reflexivity.
Defined.

Lemma start_monitoring_without_user_witness :
  start_monitoring example_service (example_env (always true) delivers) 1
                   (mk_world orphan_db [] [])
  = (Ok tt, mk_world orphan_db [] [EvGetActiveSubscriptions]).
Proof.
  exact (start_monitoring_without_user example_service
           (example_env (always true) delivers) 1747000100 42 "Москва" "Казань"
           "2025-05-22" "001М" "купе" "нижняя" empty_db [] [] keys_unique_empty
           eq_refl).
Defined.

Lemma registered_keys : keys_unique registered_db.
Proof. solve_keys. Qed.

Lemma start_monitoring_after_create_witness :
  iso_date "2025-06-01"
  /\ exists s,
       start_monitoring example_service (example_env (always true) delivers) 1
                        example_world
       = (Ok tt, checked_world example_service (example_env (always true) delivers) s
                               example_world)
       /\ query_of s = mk_query "001М" "Москва" "Казань" "2025-06-01" "купе" "нижняя".
Proof.
  assert (Hdate : iso_date "2025-06-01") by (exists (mk_date 2025 6 1); reflexivity).
  destruct (start_monitoring_after_create example_service
              (example_env (always true) delivers) 1747000100 42 "Москва" "Казань"
              "2025-06-01" "001М" "купе" "нижняя" registered_db [] []
              (mk_user 1 42 (Some "ivan") (Some "Иван") None 1747000000)
              Hdate registered_keys (or_introl eq_refl) eq_refl)
    as [s [Hrun [_ [_ [Hq _]]]]].
  split; [exact Hdate|]. exists s. split; [exact Hrun | exact Hq].
Defined.

Lemma unavailable_page_reads_available_witness :
  truthy (available_of
            (RZDParser._parse_seat_availability
               (example_net (text_page "места недоступно")) "<html></html>"
               "купе" "любая"))
  = true.
Proof.
  exact (proj1 (unavailable_page_reads_available
                  (example_net (text_page "места недоступно")) "<html></html>"
                  (text_page "места недоступно") "места недоступно" "купе" "любая"
                  eq_refl (fun _ => ex_intro _ [] eq_refl) (ex_intro _ [] eq_refl)
                  eq_refl (or_introl eq_refl))).
Defined.

Lemma search_falls_back_to_canned_trains_witness :
  RZDParser.search_trains example_search_net "москва" "казань" "2025-06-01"
  = RZDParser._get_fallback_trains.
Proof.
  assert (Hd : "2000000" <> "") by discriminate.
  assert (Ha : "2060001" <> "") by discriminate.
  destruct (search_falls_back_to_canned_trains example_search_net
              "москва" "казань" "2025-06-01" "2000000" "2060001" "<html></html>"
              (RZDParser.mk_response 200 (Ok "<html></html>") (Ok []))
              (RZDParser.mk_train_page (fun _ => Ok []) (Ok []))
              eq_refl eq_refl Hd Ha eq_refl eq_refl eq_refl eq_refl
              (fun _ => ex_intro _ [] eq_refl) (ex_intro _ [] eq_refl))
    as [_ [_ H]].
  exact (H (fun _ => eq_refl) eq_refl eq_refl).
Defined.

Lemma nothing_monitored_without_users_witness :
  sent (Bot.world (Bot.run_bot example_service example_run (Bot.init_bot orphan_db)))
  = []
  /\ count_events is_any_probe
       (trace (Bot.world (Bot.run_bot example_service example_run
                                      (Bot.init_bot orphan_db))))
     = 0%nat.
Proof.
  destruct (nothing_monitored_without_users example_service example_run
              (Bot.init_bot orphan_db) eq_refl)
    as [_ [Hc Hs]].
  split; [exact Hs | exact Hc].
Defined.

Lemma delete_button_deletes_witness :
  db (Bot.world
        (snd (Bot.handler example_service example_bot_env
                (Bot.CallbackQuery stranger "delete_sub_1")
                (snd (Bot.my_subscriptions_command example_bot_env
                        (Bot.CmdMySubscriptions ivan) (Bot.init_bot example_db))))))
  = snd (delete_subscription 1 example_db).
Proof.
  destruct (delete_button_deletes example_service example_bot_env example_bot_env
              (Bot.CmdMySubscriptions ivan) stranger (Bot.init_bot example_db)
              (row example_subscription) (or_introl eq_refl)
              (fun _ _ => eq_refl) eq_refl)
    as [_ [_ [H _]]].
  exact H.
Defined.

Lemma conversation_stops_at_date_step_witness :
  Bot.states_get 42
    (Bot.user_states
       (Bot.run_bot example_service
          [Bot.Update example_bot_env (Bot.CmdStart ivan);
           Bot.Update example_bot_env (Bot.TextMessage ivan "Москва");
           Bot.Update example_bot_env (Bot.TextMessage ivan "Казань")]
          (Bot.init_bot example_db)))
  = Some (Bot.mk_user_state "waiting_date"
            (Bot.mk_user_data (Some "Москва") (Some "Казань") None None None))
  /\ Bot.user_states
       (Bot.run_bot example_service
          [Bot.Update example_bot_env (Bot.TextMessage ivan "15.12.2025");
           Bot.Update example_bot_env (Bot.TextMessage ivan "2025-12-15")]
          (Bot.run_bot example_service
             [Bot.Update example_bot_env (Bot.CmdStart ivan);
              Bot.Update example_bot_env (Bot.TextMessage ivan "Москва");
              Bot.Update example_bot_env (Bot.TextMessage ivan "Казань")]
             (Bot.init_bot example_db)))
     = Bot.user_states
         (Bot.run_bot example_service
            [Bot.Update example_bot_env (Bot.CmdStart ivan);
             Bot.Update example_bot_env (Bot.TextMessage ivan "Москва");
             Bot.Update example_bot_env (Bot.TextMessage ivan "Казань")]
            (Bot.init_bot example_db)).
Proof.
  destruct (conversation_stops_at_date_step example_service example_bot_env ivan
              "Москва" "Казань"
              [(example_bot_env, "15.12.2025"); (example_bot_env, "2025-12-15")]
              (Bot.init_bot example_db) (fun _ _ _ => eq_refl))
    as [H1 [_ [H3 _]]].
  split; [exact H1 | exact H3].
Defined.

Lemma train_button_round_trip_witness :
  Bot.states_get 42
    (Bot.user_states
       (snd (Bot._handle_train_selection example_bot_env
               (Bot.CallbackQuery ivan "select_train_001М|22:30|06:45|8ч 15м")
               "select_train_001М|22:30|06:45|8ч 15м"
               (Bot.mk_bot [(42, Bot.mk_user_state "waiting_date" Bot.empty_data)]
                           example_world []))))
  = Some (Bot.mk_user_state "waiting_date"
            (Bot.mk_user_data None None None (Some example_train) None)).
Proof.
  destruct (train_button_round_trip example_bot_env
              (Bot.CallbackQuery ivan "select_train_001М|22:30|06:45|8ч 15м")
              example_train (Bot.mk_user_state "waiting_date" Bot.empty_data)
              (Bot.mk_bot [(42, Bot.mk_user_state "waiting_date" Bot.empty_data)]
                          example_world [])
              eq_refl eq_refl eq_refl eq_refl eq_refl eq_refl)
    as [_ [H _]].
  exact H.
Defined.

Local Close Scope string_scope.
